(** * Deal and collection listing views (troupon/deals/baseviews.py)

    A shallow embedding of the three base views of [deals/baseviews.py]:
    [DealListBaseView], [CollectionsBaseView] and
    [DealCollectionItemsListBaseView].

    Python objects are dynamically typed, and [render_deal_list] assigns
    arbitrary keyword arguments onto the view with [setattr]; the view is
    therefore modelled the way Python has it: a class dictionary and an
    instance dictionary, both mapping attribute names to values, with
    attribute reads falling back from the instance to the class.  Exceptions
    are an error monad over the view.

    The builtins follow CPython 3.11 and the paginator Django 1.8, the
    release that introduced [django.template.Engine].  The template engine,
    the query interface of the models and the clock are collaborators of
    the module: whether a template loads and renders is a parameter, a
    rendered template is kept as the template and the context it was
    rendered from, a queryset as the list of its records, today's date as a
    parameter.

    Dictionaries are values: an attribute holds its dictionary, and the
    one sharing the embedding keeps is the sharing between the instances
    of a class, through the class dictionary. *)

From Stdlib Require Import ZArith NArith Lia Bool Ascii String.
From stdpp Require Import base option list strings gmap.

Local Open Scope string_scope.
Local Open Scope Z_scope.

(** ** Values *)

(** Modelled from the spec: [deals.models.Deal] is imported, its definition
    is not part of this module.  The spec's data model gives a deal "at least
    a last-modified date"; dates are kept as proleptic Gregorian day numbers,
    the ordinals of [datetime.date]. *)
Record Deal := mkDeal {
  deal_id : Z;
  date_last_modified : Z
}.

(** Modelled from the spec: a record of the model configured on
    [DealCollectionItemsListBaseView.model], looked up by its slug. *)
Record Row := mkRow {
  row_pk : Z;
  row_slug : string
}.

(** The objects the views handle.  A string is the UTF-8 encoding of the
    Python string; a list of choices is a list of (value, label) pairs; a
    queryset is the list of its records; a rendered template and a
    response are kept as the template and the context they were rendered
    from. *)
#[warnings="-register-all"]
Inductive value :=
| VNone
| VBool (b : bool)
| VInt (n : Z)
| VStr (s : string)
| VChoices (cs : list (Z * string))
| VDict (d : gmap string value)
| VQuerySet (q : list Deal)
| VModel (rows : list Row)
| VInstance (r : Row)
| VRequest (GET : list (string * string))
| VPaginator (object_list : value) (per_page orphans : Z)
| VPage (number : Z) (object_list : value) (paginator : value)
| VTemplateString (template : value) (context : value)
| VHttpResponse (template : value) (context : value).

(** Exceptions that the module raises, catches or lets through.
    [Unmodelled] is no exception of Python: it ends a run that leaves what
    the embedding covers (the call of a model class, a view whose class is
    reassigned, a page count that floating point rounds, the text of a
    rendered template read as a number, a key or a collection, a page used
    as a collection, [get] asked of a queryset or a response), and no
    handler catches it. *)
Inductive exn :=
| PageNotAnInteger
| EmptyPage
| DoesNotExist
| MultipleObjectsReturned
| Http404 (msg : value)
| NameError (name : string)
| AttributeError
| TypeError
| ValueError
| KeyError
| ZeroDivisionError
| OverflowError
| AssertionError
| TemplateDoesNotExist
| TemplateSyntaxError
| ImproperlyConfigured
| Unmodelled.

Inductive result (A : Type) :=
| Ok (a : A)
| Err (e : exn).
Arguments Ok {A} a.
Arguments Err {A} e.

Definition bind {A B} (m : result A) (k : A -> result B) : result B :=
  match m with
  | Ok a => k a
  | Err e => Err e
  end.

Notation "x <- m ;; k" := (bind m (fun x => k))
  (at level 100, m at next level, right associativity,
   format "'[v' x  <-  m  ;; '/' k ']'").

(** ** Builtins *)

Module Py.

(** *** Strings as code points *)

Definition continuation (b : N) : bool := ((128 <=? b) && (b <? 192))%N.

(** The code points of a UTF-8 byte sequence.  A byte that starts no
    well-formed sequence (a stray continuation byte, an overlong form, a
    surrogate, a cut-off sequence) is read as U+FFFD, the way the request
    decodes its query string. *)
Fixpoint decode (bytes : list N) : list N :=
  match bytes with
  | [] => []
  | b :: rest =>
      if (b <? 128)%N then b :: decode rest
      else
        match rest with
        | b1 :: rest1 =>
            let c2 := ((b - 192) * 64 + (b1 - 128))%N in
            if ((192 <=? b) && (b <? 224) && continuation b1
                && (128 <=? c2))%N
            then c2 :: decode rest1
            else
              match rest1 with
              | b2 :: rest2 =>
                  let c3 :=
                    ((b - 224) * 4096 + (b1 - 128) * 64 + (b2 - 128))%N in
                  if ((224 <=? b) && (b <? 240) && continuation b1
                      && continuation b2 && (2048 <=? c3)
                      && negb ((55296 <=? c3) && (c3 <? 57344)))%N
                  then c3 :: decode rest2
                  else
                    match rest2 with
                    | b3 :: rest3 =>
                        let c4 :=
                          ((b - 240) * 262144 + (b1 - 128) * 4096
                           + (b2 - 128) * 64 + (b3 - 128))%N in
                        if ((240 <=? b) && (b <? 248) && continuation b1
                            && continuation b2 && continuation b3
                            && (65536 <=? c4) && (c4 <? 1114112))%N
                        then c4 :: decode rest3
                        else 65533%N :: decode rest
                    | [] => 65533%N :: decode rest
                    end
              | [] => 65533%N :: decode rest
              end
        | [] => [65533%N]
        end
  end.

Definition encode (c : N) : list N :=
  (if c <? 128 then [c]
   else if c <? 2048 then [192 + c / 64; 128 + c mod 64]
   else if c <? 65536 then
     [224 + c / 4096; 128 + (c / 64) mod 64; 128 + c mod 64]
   else
     [240 + c / 262144; 128 + (c / 4096) mod 64; 128 + (c / 64) mod 64;
      128 + c mod 64])%N.

(** The code points of a string, and the string of a list of code
    points. *)
Definition chars (s : string) : list N :=
  decode (N_of_ascii <$> list_ascii_of_string s).

Definition str (cs : list N) : string :=
  string_of_list_ascii (ascii_of_N <$> (cs ≫= encode)).

(** *** [int] *)

(** The blanks [int] skips around a number: tab to carriage return and the
    space, and, past ASCII, the white space of Unicode.  The four ASCII
    separators 28 to 31 are no blanks for [int]. *)
Definition is_space (c : N) : bool :=
  ((9 <=? c) && (c <=? 13) || (c =? 32) || (c =? 133) || (c =? 160)
   || (c =? 5760) || (8192 <=? c) && (c <=? 8202) || (c =? 8232)
   || (c =? 8233) || (c =? 8239) || (c =? 8287) || (c =? 12288))%N.

(** The zero digits of the decimal digit runs of Unicode 14.0, the ASCII
    digits first; each is followed by its digits one to nine. *)
Definition decimal_zeros : list N :=
  [ 48; 1632; 1776; 1984; 2406; 2534; 2662; 2790; 2918; 3046; 3174; 3302;
    3430; 3558; 3664; 3792; 3872; 4160; 4240; 6112; 6160; 6470; 6608; 6784;
    6800; 6992; 7088; 7232; 7248; 42528; 43216; 43264; 43472; 43504; 43600;
    44016; 65296; 66720; 68912; 69734; 69872; 69942; 70096; 70384; 70736;
    70864; 71248; 71360; 71472; 71904; 72016; 72784; 73040; 73120; 92768;
    92864; 93008; 120782; 120792; 120802; 120812; 120822; 123200; 123632;
    125264; 130032 ]%N.

(** The value of a decimal digit. *)
Definition digit (c : N) : option Z :=
  (fun zero => Z.of_N (c - zero)) <$>
  List.find (fun zero => (zero <=? c) && (c <? zero + 10))%N decimal_zeros.

Fixpoint lstrip (s : list N) : list N :=
  match s with
  | c :: s' => if is_space c then lstrip s' else s
  | [] => []
  end.

(** The digits after the first one: a single underscore may stand between
    two digits, and only blanks may follow the number.  The result is the
    number read and the count of its digits. *)
Fixpoint read_digits (s : list N) (acc count : Z) : option (Z * Z) :=
  match s with
  | [] => Some (acc, count)
  | c :: s' =>
      match digit c with
      | Some d => read_digits s' (10 * acc + d) (count + 1)
      | None =>
          if (c =? 95)%N then
            match s' with
            | c' :: s'' =>
                match digit c' with
                | Some d => read_digits s'' (10 * acc + d) (count + 1)
                | None => None
                end
            | [] => None
            end
          else if forallb is_space s then Some (acc, count) else None
      end
  end.

(** The longest number [int] converts from a string has 4300 digits. *)
Definition max_str_digits : Z := 4300.

Definition read_number (s : list N) : option Z :=
  match s with
  | c :: s' =>
      match digit c with
      | Some d =>
          match read_digits s' d 1 with
          | Some (n, count) =>
              if count <=? max_str_digits then Some n else None
          | None => None
          end
      | None => None
      end
  | [] => None
  end.

(** [int(s)] on a string: blanks around an optionally signed decimal
    number; [None] stands for [ValueError]. *)
Definition int_of_str (s : string) : option Z :=
  match lstrip (chars s) with
  | 43%N :: s' => read_number s'
  | 45%N :: s' => Z.opp <$> read_number s'
  | s' => read_number s'
  end.

(** [int(v)]. *)
Definition int (v : value) : result Z :=
  match v with
  | VInt n => Ok n
  | VBool b => Ok (if b then 1 else 0)
  | VStr s => match int_of_str s with Some n => Ok n | None => Err ValueError end
  | VTemplateString _ _ => Err Unmodelled
  | _ => Err TypeError
  end.

(** *** Sequences *)

(** [len(v)]. *)
Definition len (v : value) : result Z :=
  match v with
  | VStr s => Ok (Z.of_nat (length (chars s)))
  | VChoices cs => Ok (Z.of_nat (length cs))
  | VDict d => Ok (Z.of_nat (size d))
  | VQuerySet q => Ok (Z.of_nat (length q))
  | VPage _ _ _ | VTemplateString _ _ => Err Unmodelled
  | _ => Err TypeError
  end.

Definition clamp (n i : Z) : Z :=
  if i <? 0 then Z.max (i + n) 0 else Z.min i n.

(** [l[lo:hi]] on a list. *)
Definition slice_list {A} (l : list A) (lo hi : Z) : list A :=
  let n := Z.of_nat (length l) in
  let lo' := clamp n lo in
  let hi' := clamp n hi in
  take (Z.to_nat (hi' - lo')) (drop (Z.to_nat lo') l).

(** [v[lo:hi]]; a queryset refuses negative bounds. *)
Definition slice (v : value) (lo hi : Z) : result value :=
  match v with
  | VStr s => Ok (VStr (str (slice_list (chars s) lo hi)))
  | VChoices cs => Ok (VChoices (slice_list cs lo hi))
  | VQuerySet q =>
      if (lo <? 0) || (hi <? 0) then Err AssertionError
      else Ok (VQuerySet (slice_list q lo hi))
  | VPage _ _ _ | VTemplateString _ _ => Err Unmodelled
  | _ => Err TypeError
  end.

(** *** Dates *)

(** [datetime.timedelta(days=days)]: at most 999999999 days either way. *)
Definition timedelta (days : Z) : result Z :=
  if Z.abs days <=? 999999999 then Ok days else Err OverflowError.

(** The ordinal of [datetime.date.max], the last day of the year 9999;
    [datetime.date.min] has the ordinal 1. *)
Definition date_max : Z := 3652059.

(** [date - delta]: a day of the calendar, or [OverflowError]. *)
Definition date_sub (date delta : Z) : result Z :=
  let day := date - delta in
  if (1 <=? day) && (day <=? date_max) then Ok day else Err OverflowError.

(** *** Floating point *)

(** [float(n)] raises [OverflowError] from here on: the integers that
    round to 2^1024. *)
Definition float_overflow : Z := 2 ^ 1024 - 2 ^ 970.

(** Below 2^53 every integer is a float. *)
Definition float_exact : Z := 9007199254740992.

(** *** Requests *)

(** [QueryDict.get(key)]: the last value given for [key], if any. *)
Fixpoint QueryDict_get (q : list (string * string)) (key : string)
  : option string :=
  match q with
  | [] => None
  | (k, x) :: q' =>
      match QueryDict_get q' key with
      | Some y => Some y
      | None => if String.eqb k key then Some x else None
      end
  end.

(** [request.GET]. *)
Definition request_GET (request : value) : result (list (string * string)) :=
  match request with
  | VRequest g => Ok g
  | _ => Err AttributeError
  end.

End Py.


(** ** The paginator *)

(** Modelled from the spec: [django.core.paginator.Paginator] is imported,
    not defined here.  It is built from a collection, a page size and a
    minimum-orphan count, the first page may be empty, and a page request
    raises [PageNotAnInteger] or [EmptyPage]; trailing items that are too
    few to form a page of their own are absorbed by the page before. *)
Module Paginator.

(** [Paginator(object_list, per_page, orphans)]. *)
Definition make (object_list per_page orphans : value) : result value :=
  pp <- Py.int per_page ;;
  o <- Py.int orphans ;;
  Ok (VPaginator object_list pp o).

(** [paginator.count]: [object_list.count()], or [len(object_list)] where
    there is no such method. *)
Definition count (p : value) : result Z :=
  match p with
  | VPaginator ol _ _ => Py.len ol
  | _ => Err AttributeError
  end.

(** [paginator.num_pages]:
    [int(ceil(max(1, count - orphans) / float(per_page)))].  The quotient
    is the exact one as long as the hits stay below 2^53 and, for a
    negative page size, so does their distance to it. *)
Definition num_pages (p : value) : result Z :=
  match p with
  | VPaginator ol pp o =>
      c <- Py.len ol ;;
      let hits := Z.max 1 (c - o) in
      if Py.float_overflow <=? Z.abs pp then Err OverflowError
      else if Py.float_overflow <=? hits then Err OverflowError
      else if pp =? 0 then Err ZeroDivisionError
      else if (hits <? Py.float_exact)
              && ((0 <? pp) || (hits - pp <? Py.float_exact))
      then Ok (- ((- hits) / pp))
      else Err Unmodelled
  | _ => Err AttributeError
  end.

(** [paginator.validate_number(number)]. *)
Definition validate_number (p number : value) : result Z :=
  match Py.int number with
  | Err Unmodelled => Err Unmodelled
  | Err _ => Err PageNotAnInteger
  | Ok n =>
      if n <? 1 then Err EmptyPage
      else
        np <- num_pages p ;;
        if np <? n then (if n =? 1 then Ok n else Err EmptyPage)
        else Ok n
  end.

(** [paginator.page(number)]. *)
Definition page (p number : value) : result value :=
  n <- validate_number p number ;;
  match p with
  | VPaginator ol pp o =>
      let bottom := (n - 1) * pp in
      let top := bottom + pp in
      c <- Py.len ol ;;
      let top := if c <=? top + o then c else top in
      objs <- Py.slice ol bottom top ;;
      Ok (VPage n objs p)
  | _ => Err AttributeError
  end.

End Paginator.

(** ** The template engine *)

(** Modelled from the spec: the template renderer is a collaborator that,
    "given a named template and a context mapping, produces an HTML
    string".  These are the calls the module makes to it:
    [Engine.get_default()], [engine.get_template(template)],
    [loader.get_template(template)], [template.render(context)] with a
    [RequestContext] over the request, and
    [render(request, template, context)]. *)
Inductive engine_call :=
| Engine_get_default
| Engine_get_template (template : value)
| loader_get_template (template : value)
| Template_render (template request context : value)
| shortcuts_render (request template context : value).

(** ** View objects *)

(** A view object: the attributes of its class (shared by every instance,
    and by every request served by the class) and those set on the
    instance. *)
Record View := mkView {
  cls : gmap string value;
  inst : gmap string value
}.

(** [getattr(self, name)]: the instance first, then the class. *)
Definition getattr (self : View) (name : string) : result value :=
  match inst self !! name with
  | Some x => Ok x
  | None =>
      match cls self !! name with
      | Some x => Ok x
      | None => Err AttributeError
      end
  end.

(** The attribute names that Python does not store in the instance
    dictionary of a view. *)
Definition special_names : list string :=
  [ "__dict__"; "__class__"; "__weakref__" ].

Definition special (name : string) : bool :=
  bool_decide (name ∈ special_names).

(** [setattr(self, name, x)] writes the instance dictionary.  The three
    special names are checked instead: [__dict__] takes a dictionary, which
    becomes the instance dictionary, [__class__] takes a class, and
    [__weakref__] cannot be written. *)
Definition setattr (self : View) (name : string) (x : value) : result View :=
  if String.eqb name "__dict__" then
    match x with
    | VDict d => Ok (mkView (cls self) d)
    | _ => Err TypeError
    end
  else if String.eqb name "__class__" then
    match x with
    | VModel _ => Err Unmodelled
    | _ => Err TypeError
    end
  else if String.eqb name "__weakref__" then Err AttributeError
  else Ok (mkView (cls self) (<[name := x]> (inst self))).

(** [self.name[key] = x]: the dictionary is updated where it lives; a
    class-level dictionary stays shared. *)
Definition setitem (self : View) (name key : string) (x : value)
  : result View :=
  match inst self !! name with
  | Some (VDict d) =>
      Ok (mkView (cls self) (<[name := VDict (<[key := x]> d)]> (inst self)))
  | Some _ => Err TypeError
  | None =>
      match cls self !! name with
      | Some (VDict d) =>
          Ok (mkView (<[name := VDict (<[key := x]> d)]> (cls self))
                     (inst self))
      | Some _ => Err TypeError
      | None => Err AttributeError
      end
  end.

(** [d.get(key, default)] on a dictionary with string keys. *)
Definition dict_get (d : value) (key : string) (dflt : value) : result value :=
  match d with
  | VDict m => Ok (default dflt (m !! key))
  | VQuerySet _ | VHttpResponse _ _ => Err Unmodelled
  | _ => Err AttributeError
  end.

(** The values that can be called: a model class. *)
Definition callable (x : value) : bool :=
  match x with
  | VModel _ => true
  | _ => false
  end.

(** Looking up a method [self.name] for a call.  The methods are the
    functions below, not entries of the dictionaries; an attribute of that
    name, set on the instance or on the class, hides the method, and the
    call fails unless the attribute can be called itself. *)
Definition method (self : View) (name : string) : result unit :=
  match getattr self name with
  | Ok x => if callable x then Err Unmodelled else Err TypeError
  | Err _ => Ok tt
  end.

(** The names bound at module level by the imports and class statements
    of [baseviews.py]. *)
Definition module_globals : list string :=
  [ "datetime"; "render"; "View"; "RequestContext"; "loader"; "Engine";
    "Paginator"; "EmptyPage"; "PageNotAnInteger";
    "Deal"; "STATE_CHOICES"; "EPOCH_CHOICES";
    "DealListBaseView"; "CollectionsBaseView";
    "DealCollectionItemsListBaseView" ].

(** Resolving a global name inside a function body. *)
Definition global (name : string) : result unit :=
  if bool_decide (name ∈ module_globals) then Ok tt else Err (NameError name).

(** [model.objects.get(slug=slug)] on the configured model. *)
Definition slug_is (slug : value) (r : Row) : bool :=
  match slug with
  | VStr s => String.eqb (row_slug r) s
  | _ => false
  end.

Definition objects_get (model slug : value) : result value :=
  match model with
  | VModel rows =>
      match List.filter (slug_is slug) rows with
      | [] => Err DoesNotExist
      | [r] => Ok (VInstance r)
      | _ => Err MultipleObjectsReturned
      end
  | _ => Err AttributeError
  end.

(** [d.get(key)] where the key is itself a value. *)
Definition dict_get_key (d key : value) : result value :=
  match d with
  | VDict m =>
      match key with
      | VStr k => Ok (default VNone (m !! k))
      | VDict _ | VChoices _ => Err TypeError
      | VTemplateString _ _ => Err Unmodelled
      | _ => Ok VNone
      end
  | VQuerySet _ | VHttpResponse _ _ => Err Unmodelled
  | _ => Err AttributeError
  end.

(** [page.paginator]. *)
Definition page_paginator (page : value) : result value :=
  match page with
  | VPage _ _ p => Ok p
  | _ => Err AttributeError
  end.

(** The fixed search-options block of the page contexts. *)
Definition search_options (state_choices : list (Z * string)) : value :=
  VDict (list_to_map
    [ ("query", VStr "");
      ("states", VDict (list_to_map
         [ ("choices", VChoices state_choices); ("default", VInt 25) ])) ]).

(** The loop over [kwargs] (lines 40-44): [setattr] under a bare
    [except: pass], one keyword after the other. *)
Definition override (self : View) (arg : string * value) : result View :=
  match setattr self arg.1 arg.2 with
  | Ok self' => Ok self'
  | Err Unmodelled => Err Unmodelled
  | Err _ => Ok self
  end.

Fixpoint apply_overrides (self : View) (kwargs : list (string * value))
  : result View :=
  match kwargs with
  | [] => Ok self
  | arg :: kwargs' =>
      self <- override self arg ;;
      apply_overrides self kwargs'
  end.

(** The keywords a call of [render_deal_list] can pass: each name once,
    and neither of the two parameters of the method. *)
Definition legal (kwargs : list (string * value)) : bool :=
  bool_decide (NoDup kwargs.*1)
  && bool_decide ("self" ∉ kwargs.*1)
  && bool_decide ("request" ∉ kwargs.*1).

Section Views.

(** The template engine: the exception a call to it raises, if any. *)
Variable template_engine : engine_call -> option exn.

Definition engine (call : engine_call) : result unit :=
  match template_engine call with
  | Some e => Err e
  | None => Ok tt
  end.

(** [datetime.date.today()], as the ordinal of the day. *)
Variable today : Z.

(** Modelled from the spec: the constants [EPOCH_CHOICES] and
    [STATE_CHOICES] of [deals.models], lists of (value, label) pairs. *)
Variable EPOCH_CHOICES : list (Z * string).
Variable STATE_CHOICES : list (Z * string).

(** Modelled from the spec: the [Deal] query interface, [Deal.objects.all()]
    and [Deal.objects.filter] on arbitrary field/value pairs. *)
Variable Deal_objects_all : list Deal.
Variable Deal_objects_filter : gmap string value -> result (list Deal).

(** *** class DealListBaseView *)

Definition DealListBaseView : gmap string value :=
  list_to_map
    [ ("deals", VQuerySet Deal_objects_all);
      ("title", VStr "Deals");
      ("description", VStr "");
      ("zero_items_message", VStr "Sorry, no deals found!");
      ("num_page_items", VInt 15);
      ("min_orphan_items", VInt 2);
      ("show_page_num", VInt 1);
      ("pagination_base_url", VStr "");
      ("date_filter", VDict (list_to_map
         [ ("choices", VChoices EPOCH_CHOICES); ("default", VInt (-1)) ])) ].

(** [self.deals.filter(date_last_modified__gt=filter_date)]. *)
Definition filter_date_last_modified__gt (deals : value) (filter_date : Z)
  : result value :=
  match deals with
  | VQuerySet q =>
      Ok (VQuerySet
            (List.filter (fun x => filter_date <? date_last_modified x) q))
  | _ => Err AttributeError
  end.

(** [DealListBaseView.filter_deals_from_params] (lines 92-114).  The bare
    [except] around [int] turns any string that is no integer into a
    plain return. *)
Definition filter_deals_from_params (self : View) (request : value)
  : result View :=
  GET <- Py.request_GET request ;;
  match Py.QueryDict_get GET "dtf" with
  | None => Ok self
  | Some "" => Ok self
  | Some date_filter_param =>
      match Py.int_of_str date_filter_param with
      | None => Ok self
      | Some date_filter_param =>
          date_filter <- getattr self "date_filter" ;;
          choices <- dict_get date_filter "choices" (VChoices []) ;;
          if date_filter_param <? 0 then Ok self
          else
          n <- Py.len choices ;;
          if n <=? date_filter_param then Ok self
          else
            match choices with
            | VChoices cs =>
                let date_filter_delta :=
                  fst (nth (Z.to_nat date_filter_param) cs (0, "")) in
                self <-
                  (if negb (date_filter_delta =? -1) then
                     _ <- global "datetime" ;;
                     delta <- Py.timedelta date_filter_delta ;;
                     filter_date <- Py.date_sub today delta ;;
                     deals <- getattr self "deals" ;;
                     deals <- filter_date_last_modified__gt deals filter_date ;;
                     setattr self "deals" deals
                   else Ok self) ;;
                setitem self "date_filter" "default" (VInt date_filter_delta)
            | VDict _ => Err KeyError
            | _ => Err TypeError
            end
      end
  end.

(** [DealListBaseView.render_deal_list] (lines 35-89).  A call cannot pass
    a keyword twice, nor [self] or [request] a second time by keyword. *)
Definition render_deal_list (self : View) (request : value)
    (kwargs : list (string * value)) : result (value * View) :=
  if legal kwargs then
    self <- apply_overrides self kwargs ;;
    _ <- method self "filter_deals_from_params" ;;
    self <- filter_deals_from_params self request ;;
    _ <- global "Paginator" ;;
    deals <- getattr self "deals" ;;
    num_page_items <- getattr self "num_page_items" ;;
    min_orphan_items <- getattr self "min_orphan_items" ;;
    paginator <- Paginator.make deals num_page_items min_orphan_items ;;
    deals_page <-
      match
        GET <- Py.request_GET request ;;
        show_page_num <-
          match Py.QueryDict_get GET "pg" with
          | None | Some "" => getattr self "show_page_num"
          | Some pg => Ok (VStr pg)
          end ;;
        Paginator.page paginator show_page_num
      with
      | Err PageNotAnInteger => Paginator.page paginator (VInt 1)
      | Err EmptyPage =>
          num_pages <- Paginator.num_pages paginator ;;
          Paginator.page paginator (VInt num_pages)
      | r => r
      end ;;
    p <- page_paginator deals_page ;;
    count <- Paginator.count p ;;
    description <-
      (if negb (count =? 0) then getattr self "description"
       else getattr self "zero_items_message") ;;
    date_filter <- getattr self "date_filter" ;;
    title <- getattr self "title" ;;
    pagination_base_url <- getattr self "pagination_base_url" ;;
    let deals_listing := VDict (list_to_map
      [ ("deals_page", deals_page);
        ("date_filter", date_filter);
        ("title", title);
        ("description", description);
        ("pagination_base_url", pagination_base_url) ]) in
    _ <- global "RequestContext" ;;
    let deals_list_context := VDict {[ "listing" := deals_listing ]} in
    _ <- global "loader" ;;
    let template := VStr "snippet_deal_listing.html" in
    _ <- engine (loader_get_template template) ;;
    _ <- engine (Template_render template request deals_list_context) ;;
    Ok (VTemplateString template deals_list_context, self)
  else Err TypeError.

(** [DealListBaseView.get] (lines 117-128). *)
Definition DealListBaseView_get (self : View) (request : value)
  : result (value * View) :=
  _ <- method self "render_deal_list" ;;
  r <- render_deal_list self request [] ;;
  let (rendered_deal_list, self) := r in
  _ <- global "STATE_CHOICES" ;;
  let context := VDict (list_to_map
    [ ("rendered_deal_list", rendered_deal_list);
      ("search_options", search_options STATE_CHOICES) ]) in
  _ <- global "render" ;;
  let template := VStr "deals/deal_list_base.html" in
  _ <- engine (shortcuts_render request template context) ;;
  Ok (VHttpResponse template context, self).

(** *** class CollectionsBaseView *)

Definition CollectionsBaseView : gmap string value :=
  list_to_map
    [ ("zero_items_message", VStr "Sorry, no collection items found!");
      ("num_page_items", VInt 9);
      ("min_orphan_items", VInt 3);
      ("show_page_num", VInt 1);
      ("pagination_base_url", VStr "");
      ("queryset", VStr "");
      ("title", VStr "Collection listing");
      ("description", VStr "See all collection items");
      ("template", VStr "") ].

(** [CollectionsBaseView.get] (lines 144-188); the request is the one
    attached to the view. *)
Definition CollectionsBaseView_get (self : View) : result value :=
  _ <- global "Engine" ;;
  _ <- engine Engine_get_default ;;
  template <- getattr self "template" ;;
  _ <- engine (Engine_get_template template) ;;
  _ <- global "Paginator" ;;
  queryset <- getattr self "queryset" ;;
  num_page_items <- getattr self "num_page_items" ;;
  min_orphan_items <- getattr self "min_orphan_items" ;;
  paginator <- Paginator.make queryset num_page_items min_orphan_items ;;
  collections_page <-
    match
      request <- getattr self "request" ;;
      GET <- Py.request_GET request ;;
      show_page_num <-
        match Py.QueryDict_get GET "pg" with
        | None | Some "" => getattr self "show_page_num"
        | Some pg => Ok (VStr pg)
        end ;;
      Paginator.page paginator show_page_num
    with
    | Err PageNotAnInteger => Paginator.page paginator (VInt 1)
    | Err EmptyPage =>
        num_pages <- Paginator.num_pages paginator ;;
        Paginator.page paginator (VInt num_pages)
    | r => r
    end ;;
  p <- page_paginator collections_page ;;
  count <- Paginator.count p ;;
  description <-
    (if negb (count =? 0) then getattr self "description"
     else getattr self "zero_items_message") ;;
  _ <- global "RequestContext" ;;
  request <- getattr self "request" ;;
  _ <- global "STATE_CHOICES" ;;
  title <- getattr self "title" ;;
  pagination_base_url <- getattr self "pagination_base_url" ;;
  let context := VDict (list_to_map
    [ ("search_options", search_options STATE_CHOICES);
      ("collections_page", collections_page);
      ("title", title);
      ("description", description);
      ("pagination_base_url", pagination_base_url);
      ("page", VBool true) ]) in
  _ <- global "render" ;;
  request <- getattr self "request" ;;
  template <- getattr self "template" ;;
  _ <- engine (shortcuts_render request template context) ;;
  Ok (VHttpResponse template context).

(** *** class DealCollectionItemsListBaseView(DealListBaseView) *)

Definition DealCollectionItemsListBaseView : gmap string value :=
  list_to_map
    [ ("title", VStr "");
      ("queryset", VStr "");
      ("slug_name", VStr "");
      ("model", VStr "");
      ("not_found", VStr "");
      ("template", VStr "");
      ("filter_field", VStr "") ]
  ∪ DealListBaseView.

(** [get_queryset] (lines 202-206). *)
Definition get_queryset (self : View) (slug : value)
  : result (value * View) :=
  model <- getattr self "model" ;;
  queryset <- objects_get model slug ;;
  self <- setattr self "queryset" queryset ;;
  queryset <- getattr self "queryset" ;;
  Ok (queryset, self).

(** [set_context_data], [set_description], [set_title] and [filter_deals]
    (lines 221-245). *)
Definition set_context_data (self : View) : result View :=
  _ <- global "STATE_CHOICES" ;;
  rendered_deal_list <- getattr self "rendered_deal_list" ;;
  setattr self "context" (VDict (list_to_map
    [ ("search_options", search_options STATE_CHOICES);
      ("rendered_deal_list", rendered_deal_list) ])).

Definition set_description (self : View) (desc : value) : result View :=
  setattr self "description" desc.

Definition set_title (self : View) (title : value) : result View :=
  setattr self "title" title.

Definition filter_deals (self : View) (filter : gmap string value)
  : result View :=
  _ <- global "Deal" ;;
  deals <- Deal_objects_filter filter ;;
  setattr self "deals" (VQuerySet deals).

(** [do_render] (lines 247-257). *)
Definition do_render (self : View) : result (value * View) :=
  request <- getattr self "request" ;;
  deals <- getattr self "deals" ;;
  title <- getattr self "title" ;;
  description <- getattr self "description" ;;
  _ <- method self "render_deal_list" ;;
  r <- render_deal_list self request
         [ ("deals", deals); ("title", title);
           ("description", description) ] ;;
  let (rendered, self) := r in
  self <- setattr self "rendered_deal_list" rendered ;;
  _ <- method self "set_context_data" ;;
  self <- set_context_data self ;;
  _ <- global "render" ;;
  request <- getattr self "request" ;;
  template <- getattr self "template" ;;
  context <- getattr self "context" ;;
  _ <- engine (shortcuts_render request template context) ;;
  Ok (VHttpResponse template context, self).

(** [DealCollectionItemsListBaseView.get] (lines 208-219).  The handler of
    [self.model.DoesNotExist] raises [Http404], a name the module has to
    resolve first; the method ends without a [return]. *)
Definition DealCollectionItemsListBaseView_get (self : View)
    (kwargs : gmap string value) : result (value * View) :=
  kw <- getattr self "kwargs" ;;
  slug_name <- getattr self "slug_name" ;;
  slug <- dict_get_key kw slug_name ;;
  self <-
    match (_ <- method self "get_queryset" ;; get_queryset self slug) with
    | Ok (_, self) => Ok self
    | Err Unmodelled => Err Unmodelled
    | Err e =>
        model <- getattr self "model" ;;
        match model, e with
        | VModel _, DoesNotExist =>
            _ <- global "Http404" ;;
            not_found <- getattr self "not_found" ;;
            Err (Http404 not_found)
        | VModel _, _ => Err e
        | _, _ => Err AttributeError
        end
    end ;;
  _ <- method self "filter_deals" ;;
  self <- filter_deals self kwargs ;;
  _ <- method self "set_title" ;;
  self <- set_title self (VStr "some title") ;;
  _ <- method self "set_description" ;;
  self <- set_description self (VStr "some desc") ;;
  _ <- method self "do_render" ;;
  r <- do_render self ;;
  Ok (VNone, snd r).

End Views.

(** ** Vocabulary of the statements *)

(** The values a paginator can slice: strings, lists and querysets. *)
Definition sequence (v : value) : bool :=
  match v with
  | VStr _ | VChoices _ | VQuerySet _ => true
  | _ => false
  end.

(** A paginator of the ordinary kind: it cuts a string, a list or a
    queryset into pages of a positive size, and its numbers stay below
    2^53. *)
Definition pageable (p : value) : bool :=
  match p with
  | VPaginator ol pp o =>
      sequence ol && (0 <? pp) && (pp <? Py.float_exact)
      && match Py.len ol with
         | Ok c => c - o <? Py.float_exact
         | Err _ => false
         end
  | _ => false
  end.

(** The paginator a view builds over its attribute [coll]. *)
Definition paginator_of (self : View) (coll : string) : result value :=
  ol <- getattr self coll ;;
  n <- getattr self "num_page_items" ;;
  m <- getattr self "min_orphan_items" ;;
  Paginator.make ol n m.

Definition hasattr (self : View) (name : string) : bool :=
  match getattr self name with
  | Ok _ => true
  | Err _ => false
  end.

(** An entry of the listing dictionary handed to the fragment template. *)
Definition listing_entry (rendered : value) (key : string) : option value :=
  match rendered with
  | VTemplateString _ (VDict ctx) =>
      match ctx !! "listing" with
      | Some (VDict listing) => listing !! key
      | _ => None
      end
  | _ => None
  end.

(** An entry of the context handed to [render]. *)
Definition context_entry (response : value) (key : string) : option value :=
  match response with
  | VHttpResponse _ (VDict ctx) => ctx !! key
  | _ => None
  end.

Definition page_number (page : value) : option Z :=
  match page with
  | VPage n _ _ => Some n
  | _ => None
  end.


(** Keywords that are ordinary attribute names. *)
Definition plain (kwargs : list (string * value)) : bool :=
  forallb (fun name => negb (special name)) kwargs.*1.

(** The page number a request asks for: the [pg] parameter, or the
    view's [show_page_num] when it is missing or empty. *)
Definition requested_page (self : View) (GET : list (string * string))
  : result value :=
  match Py.QueryDict_get GET "pg" with
  | None | Some "" => getattr self "show_page_num"
  | Some pg => Ok (VStr pg)
  end.

(** The page number configured on the view is a value that [int] takes or
    refuses: not the text of a rendered template, which the embedding
    does not keep. *)
Definition numbered (self : View) : bool :=
  match getattr self "show_page_num" with
  | Ok (VTemplateString _ _) | Err _ => false
  | Ok _ => true
  end.

(** The page delivered for a requested number, with the two fallbacks. *)
Definition delivered (p number page : value) : Prop :=
  Paginator.page p number = Ok page
  \/ (Paginator.page p number = Err PageNotAnInteger
      /\ Paginator.page p (VInt 1) = Ok page)
  \/ (Paginator.page p number = Err EmptyPage
      /\ exists np, Paginator.num_pages p = Ok np
                   /\ Paginator.page p (VInt np) = Ok page).

(** A template that the engine loads and renders, whatever the context. *)
Definition renders (engine : engine_call -> option exn) (template : value)
  : Prop :=
  engine (Engine_get_template template) = None
  /\ engine (loader_get_template template) = None
  /\ (forall request context,
        engine (Template_render template request context) = None)
  /\ (forall request context,
        engine (shortcuts_render request template context) = None).

(** The delta [d] of a choice can be applied on the day [today]: it is the
    -1 that stands for no restriction, or a number of days that
    [timedelta] takes and that leads back, or forward, to a day of the
    calendar. *)
Definition applicable (today d : Z) : bool :=
  (d =? -1)
  || (Z.abs d <=? 999999999)
     && ((1 <=? today - d) && (today - d <=? Py.date_max)).

(** Lines 109-114 of [filter_deals_from_params], for the delta [d] of the
    chosen entry. *)
Definition chosen (today : Z) (self : View) (d : Z) : result View :=
  self1 <-
    (if negb (d =? -1) then
       _ <- global "datetime" ;;
       delta <- Py.timedelta d ;;
       filter_date <- Py.date_sub today delta ;;
       deals <- getattr self "deals" ;;
       deals <- filter_date_last_modified__gt deals filter_date ;;
       setattr self "deals" deals
     else Ok self) ;;
  setitem self1 "date_filter" "default" (VInt d).

(** Lines 40-47 of [render_deal_list]: the view after the keyword
    overrides and the date filter. *)
Definition prepared (today : Z) (self : View) (GET : list (string * string))
    (kwargs : list (string * value)) : result View :=
  self <- apply_overrides self kwargs ;;
  _ <- method self "filter_deals_from_params" ;;
  filter_deals_from_params today self (VRequest GET).

(** A call [render_deal_list(request, **kwargs)] that gets as far as the
    paginator: the keyword arguments are legal, the overrides and the date
    filter leave the view [self'], whose deals [ol] are cut into pages by
    an ordinary paginator, the attributes the listing shows exist, the
    fragment template renders, and the page number of the view is a
    value. *)
Definition deal_list_ready (engine : engine_call -> option exn) (today : Z)
    (self : View) (GET : list (string * string))
    (kwargs : list (string * value))
    (self' : View) (ol : value) (pp o : Z) : Prop :=
  legal kwargs = true
  /\ prepared today self GET kwargs = Ok self'
  /\ paginator_of self' "deals" = Ok (VPaginator ol pp o)
  /\ pageable (VPaginator ol pp o) = true
  /\ forallb (hasattr self')
       [ "show_page_num"; "description"; "zero_items_message";
         "date_filter"; "title"; "pagination_base_url" ] = true
  /\ renders engine (VStr "snippet_deal_listing.html")
  /\ numbered self' = true.

(** A [CollectionsBaseView] serving the request with query string [GET]:
    the default engine is configured and renders the template of the
    view, the queryset is cut into pages by an ordinary paginator, the
    attributes the page shows exist, and the page number of the view is a
    value. *)
Definition collection_ready (engine : engine_call -> option exn)
    (self : View) (GET : list (string * string))
    (ol : value) (pp o : Z) : Prop :=
  engine Engine_get_default = None
  /\ (exists template,
        getattr self "template" = Ok template /\ renders engine template)
  /\ getattr self "request" = Ok (VRequest GET)
  /\ paginator_of self "queryset" = Ok (VPaginator ol pp o)
  /\ pageable (VPaginator ol pp o) = true
  /\ forallb (hasattr self)
       [ "show_page_num"; "description"; "zero_items_message";
         "title"; "pagination_base_url" ] = true
  /\ numbered self = true.

(** Two states of a view that differ at most in the attributes [names]. *)
Definition same_outside (names : list string) (s s' : View) : Prop :=
  forall k, k ∉ names ->
    inst s' !! k = inst s !! k /\ cls s' !! k = cls s !! k.

(** The methods that [DealCollectionItemsListBaseView.get] calls, itself
    or through [do_render]. *)
Definition called_methods : list string :=
  [ "get_queryset"; "filter_deals"; "set_title"; "set_description";
    "do_render"; "render_deal_list"; "filter_deals_from_params";
    "set_context_data" ].

(** The view on which [DealCollectionItemsListBaseView.get] calls
    [do_render]: the record found, the deals filtered and the fixed title
    and description have been set on the instance. *)
Definition before_do_render (self : View) (row : Row) (ds : list Deal)
  : View :=
  mkView (cls self)
    (<["description" := VStr "some desc"]>
       (<["title" := VStr "some title"]>
          (<["deals" := VQuerySet ds]>
             (<["queryset" := VInstance row]> (inst self))))).

(** The slug named by the routing parameters of the view, and the rows of
    the configured model that carry it. *)
Definition slug_lookup (self : View) (found : list Row) : Prop :=
  exists kw slug_name slug rows,
    getattr self "kwargs" = Ok kw
    /\ getattr self "slug_name" = Ok slug_name
    /\ dict_get_key kw slug_name = Ok slug
    /\ getattr self "model" = Ok (VModel rows)
    /\ List.filter (slug_is slug) rows = found.

(** A [DealCollectionItemsListBaseView] set up to list deals: none of its
    methods is hidden by an attribute, the [Deal] query interface answers
    the keyword filter with the deals [ds], the request is attached, the
    date filter has its choices, each of which can be applied today, the
    paginator is an ordinary one, the attributes shown on the page exist,
    the engine renders the fragment and the template of the view, and the
    page number of the view is a value. *)
Definition deal_collection_ready (engine : engine_call -> option exn)
    (today : Z)
    (Deal_objects_filter : gmap string value -> result (list Deal))
    (self : View) (kwargs : gmap string value)
    (GET : list (string * string)) (ds : list Deal) : Prop :=
  forallb (fun name => negb (hasattr self name)) called_methods = true
  /\ Deal_objects_filter kwargs = Ok ds
  /\ getattr self "request" = Ok (VRequest GET)
  /\ (exists m cs, getattr self "date_filter" = Ok (VDict m)
                  /\ m !! "choices" = Some (VChoices cs)
                  /\ forallb (fun c => applicable today c.1) cs = true)
  /\ (exists n mo pp o,
        getattr self "num_page_items" = Ok n /\ Py.int n = Ok pp
        /\ getattr self "min_orphan_items" = Ok mo /\ Py.int mo = Ok o
        /\ pageable (VPaginator (VQuerySet ds) pp o) = true)
  /\ forallb (hasattr self)
       [ "show_page_num"; "zero_items_message"; "pagination_base_url" ]
     = true
  /\ renders engine (VStr "snippet_deal_listing.html")
  /\ (exists template,
        getattr self "template" = Ok template /\ renders engine template)
  /\ numbered self = true.

(** ** A sample site *)

Module Sample.

(** The sixth of February 2016. *)
Definition today : Z := 736000.

Definition epoch_choices : list (Z * string) :=
  [ (-1, "All time"); (7, "Last week"); (30, "Last month") ].

Definition state_choices : list (Z * string) :=
  [ (24, "Kwara"); (25, "Lagos") ].

Definition deals : list Deal :=
  [ mkDeal 1 735999; mkDeal 2 735995; mkDeal 3 735900 ].

(** A [Deal] query interface that filters on [category_slug] only. *)
Definition deals_filter (kwargs : gmap string value) : result (list Deal) :=
  if bool_decide (dom kwargs ⊆ {[ "category_slug" ]}) then Ok deals
  else Err TypeError.

(** The templates of the site. *)
Definition templates : list string :=
  [ "snippet_deal_listing.html"; "deals/deal_list_base.html";
    "deals/collections.html" ].

Definition template_error (template : value) : option exn :=
  match template with
  | VStr name =>
      if bool_decide (name ∈ templates) then None
      else Some TemplateDoesNotExist
  | _ => Some TemplateDoesNotExist
  end.

(** An engine that knows the templates of the site, and renders them
    without fail. *)
Definition engine (call : engine_call) : option exn :=
  match call with
  | Engine_get_default => None
  | Engine_get_template template
  | loader_get_template template
  | Template_render template _ _
  | shortcuts_render _ template _ => template_error template
  end.

Definition date_filter : gmap string value :=
  list_to_map
    [ ("choices", VChoices epoch_choices); ("default", VInt (-1)) ].

(** A deal listing with the options of the class. *)
Definition deal_view : View :=
  mkView (DealListBaseView epoch_choices deals) ∅.

(** A deal listing of a site without deals. *)
Definition empty_deal_view : View :=
  mkView (DealListBaseView epoch_choices []) ∅.

(** Overrides that put one deal on a page and start at page 2. *)
Definition one_per_page : list (string * value) :=
  [ ("num_page_items", VInt 1); ("min_orphan_items", VInt 0);
    ("show_page_num", VInt 2) ].

(** The deal listing with these overrides on the instance. *)
Definition one_per_page_view : View :=
  mkView (DealListBaseView epoch_choices deals) (list_to_map one_per_page).


(** A subclass of [CollectionsBaseView] with its own options, serving a
    request with query string [GET]. *)
Definition collection_view (queryset : value) (show_page_num : Z)
    (GET : list (string * string)) : View :=
  mkView
    (list_to_map
       [ ("queryset", queryset);
         ("num_page_items", VInt 2); ("min_orphan_items", VInt 0);
         ("show_page_num", VInt show_page_num);
         ("template", VStr "deals/collections.html") ]
     ∪ CollectionsBaseView)
    {[ "request" := VRequest GET ]}.

Definition categories : list Row :=
  [ mkRow 1 "food"; mkRow 2 "travel" ].

(** A subclass of [DealCollectionItemsListBaseView] listing the deals of
    the category named by the [category_slug] routing parameter. *)
Definition category_view (slug : string) : View :=
  mkView
    (list_to_map
       [ ("slug_name", VStr "category_slug");
         ("model", VModel categories);
         ("not_found", VStr "Category not found");
         ("template", VStr "deals/deal_list_base.html") ]
     ∪ DealCollectionItemsListBaseView epoch_choices deals)
    (list_to_map
       [ ("request", VRequest []) ;
         ("kwargs", VDict {[ "category_slug" := VStr slug ]}) ]).

End Sample.

(** ** More views of the sample site *)

Module Cases.

(** The digit three of the Arabic-Indic digits, U+0663, and a number
    behind the separator U+001C. *)
Definition arabic_three : string := String "217" (String "163" "").

Definition after_separator : string := String "028" "1".

(** Overrides that set the page size to zero. *)
Definition unpaged : list (string * value) :=
  [ ("num_page_items", VInt 0) ].

(** A subclass of [CollectionsBaseView] with a page size of zero. *)
Definition unpaged_collection (GET : list (string * string)) : View :=
  mkView
    (list_to_map
       [ ("queryset", VQuerySet Sample.deals);
         ("num_page_items", VInt 0);
         ("template", VStr "deals/collections.html") ]
     ∪ CollectionsBaseView)
    {[ "request" := VRequest GET ]}.

(** A subclass of [CollectionsBaseView] called without a request having
    been attached. *)
Definition detached_collection : View :=
  mkView
    (list_to_map
       [ ("queryset", VQuerySet Sample.deals);
         ("template", VStr "deals/collections.html") ]
     ∪ CollectionsBaseView)
    ∅.

(** [CollectionsBaseView] itself, with the options of the class, serving
    a request. *)
Definition bare_collection : View :=
  mkView CollectionsBaseView {[ "request" := VRequest [] ]}.

(** Choices with deltas that are not positive. *)
Definition odd_choices : list (Z * string) :=
  [ (0, "Today"); (-7, "Next week") ].

Definition odd_date_filter : gmap string value :=
  list_to_map [ ("choices", VChoices odd_choices); ("default", VInt (-1)) ].

Definition odd_view : View :=
  mkView (DealListBaseView odd_choices Sample.deals) ∅.

(** Choices that reach back before the first day of the calendar. *)
Definition far_choices : list (Z * string) :=
  [ (-1, "All time"); (800000, "Ever") ].

Definition far_view : View :=
  mkView (DealListBaseView far_choices Sample.deals) ∅.

(** Overrides with a title and a key that is no option of the view. *)
Definition retitled : list (string * value) :=
  [ ("title", VStr "Hot deals"); ("colour", VStr "red") ].

(** Overrides that name the instance dictionary. *)
Definition undressed : list (string * value) :=
  [ ("title", VStr "Hot deals"); ("__dict__", VStr "red") ].

(** Overrides with deals of their own. *)
Definition featured : list Deal :=
  [ mkDeal 7 735998; mkDeal 8 735000 ].

Definition with_featured : list (string * value) :=
  [ ("deals", VQuerySet featured) ].

(** Overrides with a keyword named after a method. *)
Definition hiding : list (string * value) :=
  [ ("filter_deals_from_params", VNone) ].

(** A category view over a model in which two records share a slug. *)
Definition twins : list Row :=
  [ mkRow 1 "food"; mkRow 2 "travel"; mkRow 3 "food" ].

Definition twin_view : View :=
  mkView
    (list_to_map
       [ ("slug_name", VStr "category_slug"); ("model", VModel twins) ]
     ∪ DealCollectionItemsListBaseView Sample.epoch_choices Sample.deals)
    (list_to_map
       [ ("request", VRequest []) ;
         ("kwargs", VDict {[ "category_slug" := VStr "food" ]}) ]).

(** [DealCollectionItemsListBaseView] itself, with the options of the
    class, routed without parameters. *)
Definition bare_view : View :=
  mkView (DealCollectionItemsListBaseView Sample.epoch_choices Sample.deals)
    (list_to_map [ ("request", VRequest []) ; ("kwargs", VDict ∅) ]).

End Cases.

(** Closed goals are settled by evaluation. *)
Ltac run := vm_compute; reflexivity.

(** Closed decidable propositions are settled by their decision. *)
Ltac decided :=
  match goal with
  | |- ?P => apply (bool_decide_unpack P); vm_compute; exact I
  end.

#[global] Arguments Paginator.num_pages : simpl never.
#[global] Arguments Paginator.page : simpl never.
#[global] Arguments Paginator.count : simpl never.
#[global] Arguments Paginator.make : simpl never.
#[global] Arguments global : simpl never.
#[global] Arguments getattr : simpl never.
#[global] Arguments setattr : simpl never.
#[global] Arguments setitem : simpl never.
#[global] Arguments method : simpl never.
#[global] Arguments engine : simpl never.
#[global] Arguments Py.int_of_str : simpl never.
#[global] Arguments Py.timedelta : simpl never.
#[global] Arguments Py.date_sub : simpl never.
#[global] Arguments Py.len : simpl never.
#[global] Arguments Py.slice : simpl never.
#[global] Arguments Py.float_overflow : simpl never.
#[global] Arguments Py.float_exact : simpl never.
#[global] Arguments Py.date_max : simpl never.

(** ** The paginator's contract *)

Lemma bind_Ok {A B} (m : result A) (k : A -> result B) b :
  bind m k = Ok b -> exists a, m = Ok a /\ k a = Ok b.
Proof. destruct m; simpl; [eauto|discriminate]. Qed.

Lemma float_exact_overflow : Py.float_exact < Py.float_overflow.
Proof. apply Z.ltb_lt. vm_compute. reflexivity. Qed.

Lemma float_exact_pos : 0 < Py.float_exact.
Proof. reflexivity. Qed.

Lemma len_sequence ol :
  sequence ol = true -> exists c, Py.len ol = Ok c /\ 0 <= c.
Proof.
  unfold Py.len.
  destruct ol; simpl; try discriminate; intros _; eexists; split;
    try reflexivity; lia.
Qed.

Lemma slice_sequence ol lo hi :
  sequence ol = true -> 0 <= lo -> 0 <= hi ->
  exists objs, Py.slice ol lo hi = Ok objs.
Proof.
  unfold Py.slice.
  destruct ol; simpl; try discriminate; intros _ Hlo Hhi; eauto.
  destruct (Z.ltb_spec lo 0); [lia|].
  destruct (Z.ltb_spec hi 0); [lia|]. simpl. eauto.
Qed.

Lemma pageable_spec ol pp o :
  pageable (VPaginator ol pp o) = true ->
  sequence ol = true
  /\ 0 < pp < Py.float_exact
  /\ exists c, Py.len ol = Ok c /\ 0 <= c /\ c - o < Py.float_exact.
Proof.
  unfold pageable. rewrite !andb_true_iff.
  intros [[[Hseq Hpos] Hpp] Hc].
  apply Z.ltb_lt in Hpos, Hpp.
  destruct (len_sequence ol Hseq) as (c & Hlen & Hc0). rewrite Hlen in Hc.
  apply Z.ltb_lt in Hc. eauto 10.
Qed.

Lemma num_pages_eq ol pp o c :
  Py.len ol = Ok c -> 0 < pp < Py.float_exact -> c - o < Py.float_exact ->
  Paginator.num_pages (VPaginator ol pp o)
  = Ok (- ((- Z.max 1 (c - o)) / pp)).
Proof.
  intros Hc Hpp Hhits. unfold Paginator.num_pages. rewrite Hc. cbn [bind].
  pose proof float_exact_overflow. pose proof float_exact_pos.
  destruct (Z.leb_spec Py.float_overflow (Z.abs pp)); [lia|].
  destruct (Z.leb_spec Py.float_overflow (Z.max 1 (c - o))); [lia|].
  destruct (Z.eqb_spec pp 0); [lia|].
  destruct (Z.ltb_spec (Z.max 1 (c - o)) Py.float_exact); [|lia].
  destruct (Z.ltb_spec 0 pp); [|lia]. reflexivity.
Qed.

Lemma num_pages_spec ol pp o :
  pageable (VPaginator ol pp o) = true ->
  exists np, Paginator.num_pages (VPaginator ol pp o) = Ok np /\ 1 <= np.
Proof.
  intros H. apply pageable_spec in H as (_ & Hpp & c & Hc & _ & Hhits).
  rewrite (num_pages_eq ol pp o c) by assumption.
  eexists; split; [reflexivity|].
  assert (H : (- Z.max 1 (c - o)) / pp < 0).
  { apply Z.div_lt_upper_bound; lia. }
  lia.
Qed.

Lemma page_not_an_integer p number e :
  Py.int number = Err e -> e <> Unmodelled ->
  Paginator.page p number = Err PageNotAnInteger.
Proof.
  intros H He. unfold Paginator.page, Paginator.validate_number. rewrite H.
  now destruct e.
Qed.

Lemma page_in_range ol pp o number n np :
  pageable (VPaginator ol pp o) = true ->
  Py.int number = Ok n ->
  Paginator.num_pages (VPaginator ol pp o) = Ok np ->
  1 <= n <= np ->
  exists objs,
    Paginator.page (VPaginator ol pp o) number
    = Ok (VPage n objs (VPaginator ol pp o)).
Proof.
  intros Hp Hint Hnp Hn.
  destruct (pageable_spec _ _ _ Hp) as (Hseq & Hpp & c & Hc & Hc0 & _).
  unfold Paginator.page, Paginator.validate_number. rewrite Hint, Hnp.
  cbn [bind].
  destruct (Z.ltb_spec n 1); [lia|].
  destruct (Z.ltb_spec np n); [lia|]. cbn [bind]. rewrite Hc. cbn [bind].
  destruct (slice_sequence ol ((n - 1) * pp)
              (if c <=? (n - 1) * pp + pp + o then c
               else (n - 1) * pp + pp) Hseq) as [objs Hobjs].
  - nia.
  - destruct (_ <=? _); nia.
  - rewrite Hobjs. cbn [bind]. eauto.
Qed.

Lemma page_out_of_range ol pp o number n np :
  Py.int number = Ok n ->
  Paginator.num_pages (VPaginator ol pp o) = Ok np ->
  n < 1 \/ np < n ->
  1 <= np ->
  Paginator.page (VPaginator ol pp o) number = Err EmptyPage.
Proof.
  intros Hint Hnp Hn Hnp1.
  unfold Paginator.page, Paginator.validate_number. rewrite Hint.
  destruct (Z.ltb_spec n 1); [reflexivity|]. rewrite Hnp. cbn [bind].
  destruct (Z.ltb_spec np n); [|lia].
  destruct (Z.eqb_spec n 1); [lia|]. reflexivity.
Qed.

Lemma page_first ol pp o :
  pageable (VPaginator ol pp o) = true ->
  exists objs,
    Paginator.page (VPaginator ol pp o) (VInt 1)
    = Ok (VPage 1 objs (VPaginator ol pp o)).
Proof.
  intros Hp.
  destruct (num_pages_spec ol pp o Hp) as (np & Hnp & Hnp1).
  apply page_in_range with (np := np); auto. lia.
Qed.

Lemma page_last ol pp o :
  pageable (VPaginator ol pp o) = true ->
  exists np objs,
    Paginator.num_pages (VPaginator ol pp o) = Ok np
    /\ Paginator.page (VPaginator ol pp o) (VInt np)
       = Ok (VPage np objs (VPaginator ol pp o)).
Proof.
  intros Hp.
  destruct (num_pages_spec ol pp o Hp) as (np & Hnp & Hnp1).
  destruct (page_in_range ol pp o (VInt np) np np Hp eq_refl Hnp)
    as [objs Hobjs]; [lia|]. eauto.
Qed.

(** Whatever is asked for, some page is delivered. *)
Lemma delivered_total ol pp o number :
  pageable (VPaginator ol pp o) = true ->
  Py.int number <> Err Unmodelled ->
  exists n objs,
    delivered (VPaginator ol pp o) number (VPage n objs (VPaginator ol pp o)).
Proof.
  intros Hp Hnum.
  destruct (num_pages_spec ol pp o Hp) as (np & Hnp & Hnp1).
  destruct (Py.int number) as [n|e] eqn:Hint.
  - destruct (Z_lt_le_dec n 1) as [Hlt|Hge];
      [|destruct (Z_lt_le_dec np n) as [Hgt|Hle]].
    + destruct (page_last ol pp o Hp) as (np' & objs & Hnp' & Hpage).
      exists np', objs. right; right.
      split; [apply page_out_of_range with (n := n) (np := np); auto; lia|].
      eauto.
    + destruct (page_last ol pp o Hp) as (np' & objs & Hnp' & Hpage).
      exists np', objs. right; right.
      split; [apply page_out_of_range with (n := n) (np := np); auto; lia|].
      eauto.
    + destruct (page_in_range ol pp o number n np Hp Hint Hnp)
        as [objs Hobjs]; [lia|].
      exists n, objs. now left.
  - destruct (page_first ol pp o Hp) as [objs Hobjs].
    exists 1, objs. right; left. split; auto.
    eapply page_not_an_integer; eauto. congruence.
Qed.

Lemma page_Ok_shape ol pp o number page :
  Paginator.page (VPaginator ol pp o) number = Ok page ->
  exists n objs, page = VPage n objs (VPaginator ol pp o).
Proof.
  unfold Paginator.page. intros H.
  apply bind_Ok in H as (n & _ & H).
  apply bind_Ok in H as (c & _ & H).
  apply bind_Ok in H as (objs & _ & H).
  injection H as <-. eauto.
Qed.

Lemma delivered_paginator ol pp o number page :
  delivered (VPaginator ol pp o) number page ->
  page_paginator page = Ok (VPaginator ol pp o).
Proof.
  assert (H : forall v, Paginator.page (VPaginator ol pp o) v = Ok page ->
                        page_paginator page = Ok (VPaginator ol pp o)).
  { intros v Hv. apply page_Ok_shape in Hv as (n & objs & ->). reflexivity. }
  intros [Hd|[[_ Hd]|[_ (np & _ & Hd)]]]; eauto.
Qed.

(** ** Attribute access *)

Lemma hasattr_Ok self name :
  hasattr self name = true -> exists x, getattr self name = Ok x.
Proof. unfold hasattr. destruct (getattr self name); eauto; discriminate. Qed.

Lemma hasattr_false self name :
  hasattr self name = false -> exists e, getattr self name = Err e.
Proof. unfold hasattr. destruct (getattr self name); eauto; discriminate. Qed.

Lemma paginator_of_Ok self coll ol pp o :
  paginator_of self coll = Ok (VPaginator ol pp o) ->
  exists n m,
    getattr self coll = Ok ol
    /\ getattr self "num_page_items" = Ok n
    /\ getattr self "min_orphan_items" = Ok m
    /\ Paginator.make ol n m = Ok (VPaginator ol pp o).
Proof.
  unfold paginator_of. intros H.
  apply bind_Ok in H as (ol' & Hol & H).
  apply bind_Ok in H as (n & Hn & H).
  apply bind_Ok in H as (m & Hm & H).
  assert (ol' = ol) as ->.
  { unfold Paginator.make in H.
    destruct (Py.int n); simpl in H; [|discriminate].
    destruct (Py.int m); simpl in H; [|discriminate]. now inversion H. }
  eauto 10.
Qed.

Lemma global_datetime : global "datetime" = Ok tt.
Proof. reflexivity. Qed.
Lemma global_Paginator : global "Paginator" = Ok tt.
Proof. reflexivity. Qed.
Lemma global_RequestContext : global "RequestContext" = Ok tt.
Proof. reflexivity. Qed.
Lemma global_loader : global "loader" = Ok tt.
Proof. reflexivity. Qed.
Lemma global_Engine : global "Engine" = Ok tt.
Proof. reflexivity. Qed.
Lemma global_render : global "render" = Ok tt.
Proof. reflexivity. Qed.
Lemma global_STATE_CHOICES : global "STATE_CHOICES" = Ok tt.
Proof. reflexivity. Qed.
Lemma global_Deal : global "Deal" = Ok tt.
Proof. reflexivity. Qed.
Lemma global_Http404 : global "Http404" = Err (NameError "Http404").
Proof. reflexivity. Qed.

Create Rewrite HintDb globals.
#[global] Hint Rewrite global_datetime global_Paginator global_RequestContext
  global_loader global_Engine global_render global_STATE_CHOICES global_Deal
  global_Http404 : globals.

(** An ordinary attribute name is written into the instance dictionary. *)
Lemma setattr_plain self name x :
  special name = false ->
  setattr self name x = Ok (mkView (cls self) (<[name := x]> (inst self))).
Proof.
  unfold special, special_names. intros H.
  apply bool_decide_eq_false in H.
  rewrite !not_elem_of_cons in H. destruct H as (H1 & H2 & H3 & _).
  unfold setattr.
  destruct (String.eqb_spec name "__dict__"); [contradiction|].
  destruct (String.eqb_spec name "__class__"); [contradiction|].
  destruct (String.eqb_spec name "__weakref__"); [contradiction|].
  reflexivity.
Qed.

Lemma getattr_setattr_eq self self' name x :
  special name = false ->
  setattr self name x = Ok self' -> getattr self' name = Ok x.
Proof.
  intros Hn. rewrite setattr_plain by assumption.
  intros [= <-]. unfold getattr. simpl. now rewrite lookup_insert_eq.
Qed.

Lemma getattr_setattr_ne self self' name name' x :
  special name = false ->
  setattr self name x = Ok self' -> name' <> name ->
  getattr self' name' = getattr self name'.
Proof.
  intros Hn. rewrite setattr_plain by assumption.
  intros [= <-] Hne. unfold getattr. simpl.
  now rewrite lookup_insert_ne by congruence.
Qed.

Lemma hasattr_setattr_ne self self' name name' x :
  special name = false ->
  setattr self name x = Ok self' -> name' <> name ->
  hasattr self' name' = hasattr self name'.
Proof.
  intros Hn H Hne. unfold hasattr.
  now rewrite (getattr_setattr_ne _ _ _ _ _ Hn H Hne).
Qed.

Lemma inst_setattr_ne self self' name name' x :
  special name = false ->
  setattr self name x = Ok self' -> name' <> name ->
  inst self' !! name' = inst self !! name'.
Proof.
  intros Hn. rewrite setattr_plain by assumption.
  intros [= <-] Hne. simpl. now rewrite lookup_insert_ne by congruence.
Qed.

Lemma inst_setattr_eq self self' name x :
  special name = false ->
  setattr self name x = Ok self' -> inst self' !! name = Some x.
Proof.
  intros Hn. rewrite setattr_plain by assumption.
  intros [= <-]. simpl. now rewrite lookup_insert_eq.
Qed.

Lemma cls_setattr self self' name x :
  setattr self name x = Ok self' -> cls self' = cls self.
Proof.
  unfold setattr.
  destruct (String.eqb name "__dict__");
    [destruct x; try discriminate; now intros [= <-]|].
  destruct (String.eqb name "__class__"); [destruct x; discriminate|].
  destruct (String.eqb name "__weakref__"); [discriminate|].
  now intros [= <-].
Qed.

Lemma getattr_inst self name x :
  inst self !! name = Some x -> getattr self name = Ok x.
Proof. unfold getattr. now intros ->. Qed.

Lemma method_free self name :
  hasattr self name = false -> method self name = Ok tt.
Proof. unfold method, hasattr. now destruct (getattr self name). Qed.

Lemma method_Ok self name :
  method self name = Ok tt -> hasattr self name = false.
Proof.
  unfold method, hasattr. destruct (getattr self name) as [x|]; [|auto].
  destruct (callable x); discriminate.
Qed.

Lemma setitem_Ok self name key x d :
  getattr self name = Ok (VDict d) ->
  exists self',
    setitem self name key x = Ok self'
    /\ getattr self' name = Ok (VDict (<[key := x]> d))
    /\ inst self' !! name = (fun _ => VDict (<[key := x]> d)) <$> inst self !! name
    /\ forall name', name' <> name ->
         inst self' !! name' = inst self !! name'
         /\ cls self' !! name' = cls self !! name'.
Proof.
  unfold getattr, setitem. intros H.
  destruct (inst self !! name) as [v|] eqn:Hi.
  - injection H as ->. eexists; split; [reflexivity|]. simpl.
    rewrite lookup_insert_eq. repeat split; auto.
    now rewrite lookup_insert_ne by congruence.
  - destruct (cls self !! name) as [v|] eqn:Hc; [|discriminate].
    injection H as ->. eexists; split; [reflexivity|]. simpl.
    rewrite Hi, lookup_insert_eq. repeat split; auto.
    now rewrite lookup_insert_ne by congruence.
Qed.

Lemma setitem_spec self name key x self' :
  setitem self name key x = Ok self' ->
  exists d,
    getattr self name = Ok (VDict d)
    /\ getattr self' name = Ok (VDict (<[key := x]> d))
    /\ ((inst self !! name = Some (VDict d)
         /\ self' = mkView (cls self)
                      (<[name := VDict (<[key := x]> d)]> (inst self)))
        \/ (inst self !! name = None
            /\ self' = mkView (<[name := VDict (<[key := x]> d)]> (cls self))
                         (inst self))).
Proof.
  unfold setitem, getattr. intros H.
  destruct (inst self !! name) as [v|] eqn:Hi.
  - destruct v; try discriminate. injection H as <-. simpl.
    rewrite lookup_insert_eq. eauto 10.
  - destruct (cls self !! name) as [v|] eqn:Hc; [|discriminate].
    destruct v; try discriminate. injection H as <-. simpl.
    rewrite Hi, lookup_insert_eq. eauto 10.
Qed.

Lemma setitem_twice self self' name key x :
  setitem self name key x = Ok self' -> setitem self' name key x = Ok self'.
Proof.
  unfold setitem. intros H.
  destruct (inst self !! name) as [v|] eqn:Hi.
  - destruct v; try discriminate. injection H as <-. simpl.
    rewrite lookup_insert_eq. now rewrite !insert_insert_eq.
  - destruct (cls self !! name) as [v|] eqn:Hc; [|discriminate].
    destruct v; try discriminate. injection H as <-. simpl.
    rewrite Hi, lookup_insert_eq. now rewrite !insert_insert_eq.
Qed.

Lemma same_outside_getattr names s s' k :
  same_outside names s s' -> k ∉ names -> getattr s' k = getattr s k.
Proof.
  intros H Hk. destruct (H k Hk) as [Hi Hc]. unfold getattr.
  now rewrite Hi, Hc.
Qed.

Lemma same_outside_trans n1 n2 s1 s2 s3 :
  same_outside n1 s1 s2 -> same_outside n2 s2 s3 ->
  same_outside (n1 ++ n2) s1 s3.
Proof.
  intros H1 H2 k Hk. rewrite not_elem_of_app in Hk. destruct Hk as [Hk1 Hk2].
  destruct (H1 k Hk1) as [Hi1 Hc1], (H2 k Hk2) as [Hi2 Hc2].
  split; congruence.
Qed.

Lemma same_outside_refl names s : same_outside names s s.
Proof. intros k _. auto. Qed.

Lemma setitem_same_outside self name key x self' :
  setitem self name key x = Ok self' -> same_outside [name] self self'.
Proof.
  intros H k Hk. rewrite not_elem_of_cons in Hk. destruct Hk as [Hk _].
  destruct (setitem_spec _ _ _ _ _ H) as (d & _ & _ & [[_ ->]|[_ ->]]);
    simpl; rewrite ?lookup_insert_ne by congruence; auto.
Qed.

Lemma setattr_same_outside self name x self' :
  special name = false ->
  setattr self name x = Ok self' -> same_outside [name] self self'.
Proof.
  intros Hn. rewrite setattr_plain by assumption.
  intros [= <-] k Hk. rewrite not_elem_of_cons in Hk. destruct Hk as [Hk _].
  simpl. rewrite lookup_insert_ne by congruence. auto.
Qed.

Lemma filter_filter {A} (f : A -> bool) (l : list A) :
  List.filter f (List.filter f l) = List.filter f l.
Proof.
  induction l as [|x l IH]; simpl; [reflexivity|].
  destruct (f x) eqn:Hx; simpl; [rewrite Hx; now f_equal|assumption].
Qed.

Lemma filter_sublist {A} (f : A -> bool) (l : list A) :
  sublist (List.filter f l) l.
Proof.
  induction l as [|x l IH]; simpl; [constructor|].
  destruct (f x); now constructor.
Qed.

Lemma filter_length_le {A} (f : A -> bool) (l : list A) :
  (length (List.filter f l) <= length l)%nat.
Proof. apply sublist_length, filter_sublist. Qed.

(** ** Rendering a listing *)

Section Rendering.

Variable template_engine : engine_call -> option exn.
Variable today : Z.
Variable STATE_CHOICES : list (Z * string).

Lemma engine_None call :
  template_engine call = None -> engine template_engine call = Ok tt.
Proof. unfold engine. now intros ->. Qed.

Lemma engine_Some call e :
  template_engine call = Some e -> engine template_engine call = Err e.
Proof. unfold engine. now intros ->. Qed.

Lemma prepared_Ok self GET kwargs self' :
  prepared today self GET kwargs = Ok self' ->
  exists self0,
    apply_overrides self kwargs = Ok self0
    /\ method self0 "filter_deals_from_params" = Ok tt
    /\ filter_deals_from_params today self0 (VRequest GET) = Ok self'.
Proof.
  unfold prepared. intros H.
  apply bind_Ok in H as (self0 & Hov & H).
  apply bind_Ok in H as ([] & Hmeth & Hfilter). eauto.
Qed.

(** What [render_deal_list] returns once the overrides and the date
    filter have run: the fragment template, rendered from a listing with
    the page delivered for the requested number, the description chosen
    from the total count, and the title, the date filter and the base URL
    of the view. *)
Lemma render_deal_list_delivers self GET kwargs self' ol pp o c number page
      desc zim df t pbu :
  legal kwargs = true ->
  prepared today self GET kwargs = Ok self' ->
  paginator_of self' "deals" = Ok (VPaginator ol pp o) ->
  Py.len ol = Ok c ->
  requested_page self' GET = Ok number ->
  delivered (VPaginator ol pp o) number page ->
  getattr self' "description" = Ok desc ->
  getattr self' "zero_items_message" = Ok zim ->
  getattr self' "date_filter" = Ok df ->
  getattr self' "title" = Ok t ->
  getattr self' "pagination_base_url" = Ok pbu ->
  renders template_engine (VStr "snippet_deal_listing.html") ->
  render_deal_list template_engine today self (VRequest GET) kwargs
  = Ok (VTemplateString (VStr "snippet_deal_listing.html")
          (VDict {[ "listing" := VDict (list_to_map
             [ ("deals_page", page);
               ("date_filter", df);
               ("title", t);
               ("description", if c =? 0 then zim else desc);
               ("pagination_base_url", pbu) ]) ]}),
        self').
Proof.
  intros Hlegal Hprep Hpag Hc Hreq Hdel Hdesc Hzim Hdf Ht Hpbu
         (_ & Hload & Hrender & _).
  apply prepared_Ok in Hprep as (self0 & Hov & Hmeth & Hfilter).
  apply paginator_of_Ok in Hpag as (n & m & Hol & Hn & Hm & Hmake).
  pose proof (delivered_paginator _ _ _ _ _ Hdel) as Hpp.
  unfold render_deal_list. rewrite Hlegal, Hov. cbn [bind].
  rewrite Hmeth. cbn [bind]. rewrite Hfilter. cbn [bind].
  autorewrite with globals. cbn [bind].
  rewrite Hol. cbn [bind]. rewrite Hn. cbn [bind]. rewrite Hm. cbn [bind].
  rewrite Hmake. cbn [bind Py.request_GET].
  unfold requested_page in Hreq. rewrite Hreq. cbn [bind].
  assert (Htail : forall r, r = Ok page ->
      (deals_page <- r ;;
       p <- page_paginator deals_page ;;
       count <- Paginator.count p ;;
       description <-
         (if negb (count =? 0) then getattr self' "description"
          else getattr self' "zero_items_message") ;;
       date_filter <- getattr self' "date_filter" ;;
       title <- getattr self' "title" ;;
       pagination_base_url <- getattr self' "pagination_base_url" ;;
       let deals_listing := VDict (list_to_map
         [ ("deals_page", deals_page);
           ("date_filter", date_filter);
           ("title", title);
           ("description", description);
           ("pagination_base_url", pagination_base_url) ]) in
       _ <- global "RequestContext" ;;
       let deals_list_context := VDict {[ "listing" := deals_listing ]} in
       _ <- global "loader" ;;
       let template := VStr "snippet_deal_listing.html" in
       _ <- engine template_engine (loader_get_template template) ;;
       _ <- engine template_engine
              (Template_render template (VRequest GET) deals_list_context) ;;
       Ok (VTemplateString template deals_list_context, self'))
      = Ok (VTemplateString (VStr "snippet_deal_listing.html")
              (VDict {[ "listing" := VDict (list_to_map
                 [ ("deals_page", page);
                   ("date_filter", df);
                   ("title", t);
                   ("description", if c =? 0 then zim else desc);
                   ("pagination_base_url", pbu) ]) ]}),
            self')).
  { intros r ->. cbn [bind]. rewrite Hpp. cbn [bind].
    change (Paginator.count (VPaginator ol pp o)) with (Py.len ol).
    rewrite Hc. cbn [bind].
    destruct (c =? 0); cbn [negb];
      rewrite ?Hdesc, ?Hzim; cbn [bind]; rewrite Hdf; cbn [bind];
      rewrite Ht; cbn [bind]; rewrite Hpbu; cbn [bind];
      autorewrite with globals; cbn [bind];
      rewrite (engine_None _ Hload); cbn [bind];
      rewrite (engine_None _ (Hrender _ _)); reflexivity. }
  destruct Hdel as [Hd|[[Hd H1]|[Hd (np & Hnp & Hlast)]]].
  - rewrite Hd. apply Htail. reflexivity.
  - rewrite Hd. apply Htail. assumption.
  - rewrite Hd. apply Htail. cbv beta iota. rewrite Hnp. cbn [bind].
    assumption.
Qed.

(** The same for [CollectionsBaseView.get], which reads the request from
    the view and renders the template of the view. *)
Lemma CollectionsBaseView_get_delivers self GET ol pp o c number page
      desc zim tpl t pbu :
  template_engine Engine_get_default = None ->
  getattr self "template" = Ok tpl ->
  renders template_engine tpl ->
  getattr self "request" = Ok (VRequest GET) ->
  paginator_of self "queryset" = Ok (VPaginator ol pp o) ->
  Py.len ol = Ok c ->
  requested_page self GET = Ok number ->
  delivered (VPaginator ol pp o) number page ->
  getattr self "description" = Ok desc ->
  getattr self "zero_items_message" = Ok zim ->
  getattr self "title" = Ok t ->
  getattr self "pagination_base_url" = Ok pbu ->
  CollectionsBaseView_get template_engine STATE_CHOICES self
  = Ok (VHttpResponse tpl (VDict (list_to_map
          [ ("search_options", search_options STATE_CHOICES);
            ("collections_page", page);
            ("title", t);
            ("description", if c =? 0 then zim else desc);
            ("pagination_base_url", pbu);
            ("page", VBool true) ]))).
Proof.
  intros Hdefault Htpl (Hget & _ & _ & Hrender) Hrq Hpag Hc Hreq Hdel
         Hdesc Hzim Ht Hpbu.
  apply paginator_of_Ok in Hpag as (n & m & Hol & Hn & Hm & Hmake).
  pose proof (delivered_paginator _ _ _ _ _ Hdel) as Hpp.
  unfold CollectionsBaseView_get.
  autorewrite with globals. cbn [bind].
  rewrite (engine_None _ Hdefault). cbn [bind]. rewrite Htpl. cbn [bind].
  rewrite (engine_None _ Hget). cbn [bind].
  autorewrite with globals. cbn [bind].
  rewrite Hol. cbn [bind]. rewrite Hn. cbn [bind]. rewrite Hm. cbn [bind].
  rewrite Hmake. cbn [bind]. rewrite Hrq. cbn [bind Py.request_GET].
  unfold requested_page in Hreq. rewrite Hreq. cbn [bind].
  assert (Htail : forall r, r = Ok page ->
      (collections_page <- r ;;
       p <- page_paginator collections_page ;;
       count <- Paginator.count p ;;
       description <-
         (if negb (count =? 0) then getattr self "description"
          else getattr self "zero_items_message") ;;
       _ <- global "RequestContext" ;;
       request <- Ok (VRequest GET) ;;
       _ <- global "STATE_CHOICES" ;;
       title <- getattr self "title" ;;
       pagination_base_url <- getattr self "pagination_base_url" ;;
       let context := VDict (list_to_map
         [ ("search_options", search_options STATE_CHOICES);
           ("collections_page", collections_page);
           ("title", title);
           ("description", description);
           ("pagination_base_url", pagination_base_url);
           ("page", VBool true) ]) in
       _ <- global "render" ;;
       request <- Ok (VRequest GET) ;;
       template <- Ok tpl ;;
       _ <- engine template_engine
              (shortcuts_render request template context) ;;
       Ok (VHttpResponse template context))
      = Ok (VHttpResponse tpl (VDict (list_to_map
              [ ("search_options", search_options STATE_CHOICES);
                ("collections_page", page);
                ("title", t);
                ("description", if c =? 0 then zim else desc);
                ("pagination_base_url", pbu);
                ("page", VBool true) ])))).
  { intros r ->. cbn [bind]. rewrite Hpp. cbn [bind].
    change (Paginator.count (VPaginator ol pp o)) with (Py.len ol).
    rewrite Hc. cbn [bind].
    destruct (c =? 0); cbn [negb];
      rewrite ?Hdesc, ?Hzim; cbn [bind]; autorewrite with globals;
      cbn [bind]; rewrite Ht; cbn [bind]; rewrite Hpbu; cbn [bind];
      autorewrite with globals; cbn [bind];
      rewrite (engine_None _ (Hrender _ _)); reflexivity. }
  destruct Hdel as [Hd|[[Hd H1]|[Hd (np & Hnp & Hlast)]]].
  - rewrite Hd. apply Htail. reflexivity.
  - rewrite Hd. apply Htail. assumption.
  - rewrite Hd. apply Htail. cbv beta iota. rewrite Hnp. cbn [bind].
    assumption.
Qed.

(** The two views, once ready, deliver whatever [delivered] relates to
    the requested page. *)
Lemma deal_list_ready_delivers self GET kwargs self' ol pp o number page :
  deal_list_ready template_engine today self GET kwargs self' ol pp o ->
  requested_page self' GET = Ok number ->
  delivered (VPaginator ol pp o) number page ->
  exists rendered c desc zim,
    render_deal_list template_engine today self (VRequest GET) kwargs
    = Ok (rendered, self')
    /\ listing_entry rendered "deals_page" = Some page
    /\ Paginator.count (VPaginator ol pp o) = Ok c
    /\ getattr self' "description" = Ok desc
    /\ getattr self' "zero_items_message" = Ok zim
    /\ listing_entry rendered "description"
       = Some (if c =? 0 then zim else desc).
Proof.
  intros (Hlegal & Hprep & Hpag & Hp & Hattrs & Hrenders & _) Hreq Hdel.
  destruct (pageable_spec _ _ _ Hp) as (_ & _ & c & Hc & _).
  cbn [forallb] in Hattrs. rewrite !andb_true_iff in Hattrs.
  destruct Hattrs as (_ & Hdesc & Hzim & Hdf & Ht & Hpbu & _).
  apply hasattr_Ok in Hdesc as [desc Hdesc], Hzim as [zim Hzim],
    Hdf as [df Hdf], Ht as [t Ht], Hpbu as [pbu Hpbu].
  eexists _, c, desc, zim.
  split; [eapply render_deal_list_delivers; eassumption|].
  repeat split; auto.
Qed.

Lemma collection_ready_delivers self GET ol pp o number page :
  collection_ready template_engine self GET ol pp o ->
  requested_page self GET = Ok number ->
  delivered (VPaginator ol pp o) number page ->
  exists response c desc zim,
    CollectionsBaseView_get template_engine STATE_CHOICES self = Ok response
    /\ context_entry response "collections_page" = Some page
    /\ Paginator.count (VPaginator ol pp o) = Ok c
    /\ getattr self "description" = Ok desc
    /\ getattr self "zero_items_message" = Ok zim
    /\ context_entry response "description"
       = Some (if c =? 0 then zim else desc).
Proof.
  intros (Hdefault & (tpl & Htpl & Hrenders) & Hrq & Hpag & Hp & Hattrs
          & _) Hreq Hdel.
  destruct (pageable_spec _ _ _ Hp) as (_ & _ & c & Hc & _).
  cbn [forallb] in Hattrs. rewrite !andb_true_iff in Hattrs.
  destruct Hattrs as (_ & Hdesc & Hzim & Ht & Hpbu & _).
  apply hasattr_Ok in Hdesc as [desc Hdesc], Hzim as [zim Hzim],
    Ht as [t Ht], Hpbu as [pbu Hpbu].
  eexists _, c, desc, zim.
  split; [eapply CollectionsBaseView_get_delivers; eassumption|].
  repeat split; auto.
Qed.

Lemma requested_page_given self GET pg :
  Py.QueryDict_get GET "pg" = Some pg -> pg <> "" ->
  requested_page self GET = Ok (VStr pg).
Proof.
  intros H Hne. unfold requested_page. rewrite H.
  destruct pg; [contradiction|reflexivity].
Qed.

Lemma requested_page_default self GET :
  Py.QueryDict_get GET "pg" = None \/ Py.QueryDict_get GET "pg" = Some "" ->
  requested_page self GET = getattr self "show_page_num".
Proof. unfold requested_page. now intros [-> | ->]. Qed.

Lemma numbered_Ok self :
  numbered self = true ->
  exists x, getattr self "show_page_num" = Ok x
            /\ Py.int x <> Err Unmodelled.
Proof.
  unfold numbered. destruct (getattr self "show_page_num") as [x|];
    [|discriminate].
  intros H. exists x. split; [reflexivity|].
  destruct x; simpl; try discriminate.
  now destruct (Py.int_of_str s).
Qed.

Lemma requested_page_total self GET :
  numbered self = true ->
  exists number,
    requested_page self GET = Ok number /\ Py.int number <> Err Unmodelled.
Proof.
  intros H. apply numbered_Ok in H as (x & Hx & Hint). unfold requested_page.
  destruct (Py.QueryDict_get GET "pg") as [[|a pg]|]; eauto.
  eexists. split; [reflexivity|]. simpl.
  now destruct (Py.int_of_str (String a pg)).
Qed.

End Rendering.

(** ** Page selection and the list header *)

Section Pagination.

Variable template_engine : engine_call -> option exn.
Variable today : Z.
Variable STATE_CHOICES : list (Z * string).

Lemma deal_list_ready_pageable self GET kwargs self' ol pp o :
  deal_list_ready template_engine today self GET kwargs self' ol pp o ->
  pageable (VPaginator ol pp o) = true
  /\ numbered self' = true.
Proof. intros (_ & _ & _ & Hp & _ & _ & Hnum). auto. Qed.

Lemma collection_ready_pageable self GET ol pp o :
  collection_ready template_engine self GET ol pp o ->
  pageable (VPaginator ol pp o) = true
  /\ numbered self = true.
Proof. intros (_ & _ & _ & _ & Hp & _ & Hnum). auto. Qed.

(** C5: when the [pg] parameter is present, non-empty and not an integer,
    [render_deal_list] and [CollectionsBaseView.get] both return normally
    and the page they put in the context is page 1 of the paginator. *)
Theorem non_integer_page_delivers_first_page GET pg :
  Py.QueryDict_get GET "pg" = Some pg -> pg <> "" ->
  Py.int_of_str pg = None ->
  (forall self kwargs self' ol pp o,
     deal_list_ready template_engine today self GET kwargs self' ol pp o ->
     exists rendered page,
       render_deal_list template_engine today self (VRequest GET) kwargs
       = Ok (rendered, self')
       /\ Paginator.page (VPaginator ol pp o) (VInt 1) = Ok page
       /\ page_number page = Some 1
       /\ listing_entry rendered "deals_page" = Some page)
  /\ (forall self ol pp o,
        collection_ready template_engine self GET ol pp o ->
        exists response page,
          CollectionsBaseView_get template_engine STATE_CHOICES self
          = Ok response
          /\ Paginator.page (VPaginator ol pp o) (VInt 1) = Ok page
          /\ page_number page = Some 1
          /\ context_entry response "collections_page" = Some page).
Proof.
  intros Hpg Hne Hint.
  assert (Hfirst : forall ol pp o,
    pageable (VPaginator ol pp o) = true ->
    exists page,
      Paginator.page (VPaginator ol pp o) (VInt 1) = Ok page
      /\ page_number page = Some 1
      /\ delivered (VPaginator ol pp o) (VStr pg) page).
  { intros ol pp o Hp.
    destruct (page_first ol pp o Hp) as [objs Hobjs].
    eexists; split; [eassumption|split; [reflexivity|]].
    right; left. split; [|assumption].
    apply page_not_an_integer with (e := ValueError); [|discriminate].
    simpl. now rewrite Hint. }
  split.
  - intros self kwargs self' ol pp o Hready.
    destruct (deal_list_ready_pageable _ _ _ _ _ _ _ Hready) as [Hp _].
    destruct (Hfirst ol pp o Hp) as (page & H1 & Hnum & Hdel).
    destruct (deal_list_ready_delivers template_engine today self GET kwargs
                self' ol pp o (VStr pg) page Hready)
      as (rendered & _ & _ & _ & Hr & Hentry & _); auto.
    { now apply requested_page_given. }
    eauto 10.
  - intros self ol pp o Hready.
    destruct (collection_ready_pageable _ _ _ _ _ Hready) as [Hp _].
    destruct (Hfirst ol pp o Hp) as (page & H1 & Hnum & Hdel).
    destruct (collection_ready_delivers template_engine STATE_CHOICES self
                GET ol pp o (VStr pg) page Hready)
      as (response & _ & _ & _ & Hr & Hentry & _); auto.
    { now apply requested_page_given. }
    eauto 10.
Qed.

(** C6: when the [pg] parameter is an integer outside the pages of the
    paginator (below 1 or above [num_pages]), both views return normally
    and the page they put in the context is the last one, [num_pages]. *)
Theorem out_of_range_page_delivers_last_page GET pg n :
  Py.QueryDict_get GET "pg" = Some pg ->
  Py.int_of_str pg = Some n ->
  (forall self kwargs self' ol pp o np,
     deal_list_ready template_engine today self GET kwargs self' ol pp o ->
     Paginator.num_pages (VPaginator ol pp o) = Ok np ->
     n < 1 \/ np < n ->
     exists rendered page,
       render_deal_list template_engine today self (VRequest GET) kwargs
       = Ok (rendered, self')
       /\ Paginator.page (VPaginator ol pp o) (VInt np) = Ok page
       /\ page_number page = Some np
       /\ listing_entry rendered "deals_page" = Some page)
  /\ (forall self ol pp o np,
        collection_ready template_engine self GET ol pp o ->
        Paginator.num_pages (VPaginator ol pp o) = Ok np ->
        n < 1 \/ np < n ->
        exists response page,
          CollectionsBaseView_get template_engine STATE_CHOICES self
          = Ok response
          /\ Paginator.page (VPaginator ol pp o) (VInt np) = Ok page
          /\ page_number page = Some np
          /\ context_entry response "collections_page" = Some page).
Proof.
  intros Hpg Hint.
  assert (Hne : pg <> "") by (intros ->; discriminate).
  assert (Hlast : forall ol pp o np,
    pageable (VPaginator ol pp o) = true ->
    Paginator.num_pages (VPaginator ol pp o) = Ok np ->
    n < 1 \/ np < n ->
    exists page,
      Paginator.page (VPaginator ol pp o) (VInt np) = Ok page
      /\ page_number page = Some np
      /\ delivered (VPaginator ol pp o) (VStr pg) page).
  { intros ol pp o np Hp Hnp Hout.
    destruct (page_last ol pp o Hp) as (np' & objs & Hnp' & Hobjs).
    assert (np' = np) as -> by congruence.
    destruct (num_pages_spec ol pp o Hp) as (np' & Hnp'' & Hge).
    assert (np' = np) as -> by congruence.
    eexists; split; [eassumption|split; [reflexivity|]].
    right; right. split; [|eauto].
    apply page_out_of_range with (n := n) (np := np); auto.
    simpl. now rewrite Hint. }
  split.
  - intros self kwargs self' ol pp o np Hready Hnp Hout.
    destruct (deal_list_ready_pageable _ _ _ _ _ _ _ Hready) as [Hp _].
    destruct (Hlast ol pp o np Hp Hnp Hout) as (page & H1 & Hnum & Hdel).
    destruct (deal_list_ready_delivers template_engine today self GET kwargs
                self' ol pp o (VStr pg) page Hready)
      as (rendered & _ & _ & _ & Hr & Hentry & _); auto.
    { now apply requested_page_given. }
    eauto 10.
  - intros self ol pp o np Hready Hnp Hout.
    destruct (collection_ready_pageable _ _ _ _ _ Hready) as [Hp _].
    destruct (Hlast ol pp o np Hp Hnp Hout) as (page & H1 & Hnum & Hdel).
    destruct (collection_ready_delivers template_engine STATE_CHOICES self
                GET ol pp o (VStr pg) page Hready)
      as (response & _ & _ & _ & Hr & Hentry & _); auto.
    { now apply requested_page_given. }
    eauto 10.
Qed.

(** C7: whatever page the request asks for, both views return normally;
    the description in the context is the zero-items message when the
    paginated collection has no items, the configured description
    otherwise. *)
Theorem description_follows_total_count GET :
  (forall self kwargs self' ol pp o,
     deal_list_ready template_engine today self GET kwargs self' ol pp o ->
     exists rendered c desc zim,
       render_deal_list template_engine today self (VRequest GET) kwargs
       = Ok (rendered, self')
       /\ Paginator.count (VPaginator ol pp o) = Ok c
       /\ getattr self' "description" = Ok desc
       /\ getattr self' "zero_items_message" = Ok zim
       /\ (c = 0 -> listing_entry rendered "description" = Some zim)
       /\ (c <> 0 -> listing_entry rendered "description" = Some desc))
  /\ (forall self ol pp o,
        collection_ready template_engine self GET ol pp o ->
        exists response c desc zim,
          CollectionsBaseView_get template_engine STATE_CHOICES self
          = Ok response
          /\ Paginator.count (VPaginator ol pp o) = Ok c
          /\ getattr self "description" = Ok desc
          /\ getattr self "zero_items_message" = Ok zim
          /\ (c = 0 -> context_entry response "description" = Some zim)
          /\ (c <> 0 -> context_entry response "description" = Some desc)).
Proof.
  assert (Hif : forall (c : Z) (x y : value) (e : option value),
    e = Some (if c =? 0 then x else y) ->
    (c = 0 -> e = Some x) /\ (c <> 0 -> e = Some y)).
  { intros c x y e ->. destruct (Z.eqb_spec c 0); split; intros; congruence. }
  split.
  - intros self kwargs self' ol pp o Hready.
    destruct (deal_list_ready_pageable _ _ _ _ _ _ _ Hready) as [Hp Hshow].
    destruct (requested_page_total self' GET Hshow)
      as (number & Hnumber & Hint).
    destruct (delivered_total ol pp o number Hp Hint) as (n & objs & Hdel).
    destruct (deal_list_ready_delivers template_engine today self GET kwargs
                self' ol pp o number _ Hready Hnumber Hdel)
      as (rendered & c & desc & zim & Hr & _ & Hc & Hdesc & Hzim & Hd).
    exists rendered, c, desc, zim. apply Hif in Hd. tauto.
  - intros self ol pp o Hready.
    destruct (collection_ready_pageable _ _ _ _ _ Hready) as [Hp Hshow].
    destruct (requested_page_total self GET Hshow)
      as (number & Hnumber & Hint).
    destruct (delivered_total ol pp o number Hp Hint) as (n & objs & Hdel).
    destruct (collection_ready_delivers template_engine STATE_CHOICES self
                GET ol pp o number _ Hready Hnumber Hdel)
      as (response & c & desc & zim & Hr & _ & Hc & Hdesc & Hzim & Hd).
    exists response, c, desc, zim. apply Hif in Hd. tauto.
Qed.

(** C9: when the [pg] parameter is present but empty, both views ask the
    paginator for the view's [show_page_num]; when that is a page [n] of
    the paginator, page [n] is delivered, not page 1. *)
Theorem empty_page_parameter_uses_show_page_num GET :
  Py.QueryDict_get GET "pg" = Some "" ->
  (forall self kwargs self' ol pp o show n np,
     deal_list_ready template_engine today self GET kwargs self' ol pp o ->
     getattr self' "show_page_num" = Ok show ->
     Py.int show = Ok n ->
     Paginator.num_pages (VPaginator ol pp o) = Ok np ->
     1 <= n <= np ->
     exists rendered page,
       render_deal_list template_engine today self (VRequest GET) kwargs
       = Ok (rendered, self')
       /\ Paginator.page (VPaginator ol pp o) show = Ok page
       /\ page_number page = Some n
       /\ listing_entry rendered "deals_page" = Some page)
  /\ (forall self ol pp o show n np,
        collection_ready template_engine self GET ol pp o ->
        getattr self "show_page_num" = Ok show ->
        Py.int show = Ok n ->
        Paginator.num_pages (VPaginator ol pp o) = Ok np ->
        1 <= n <= np ->
        exists response page,
          CollectionsBaseView_get template_engine STATE_CHOICES self
          = Ok response
          /\ Paginator.page (VPaginator ol pp o) show = Ok page
          /\ page_number page = Some n
          /\ context_entry response "collections_page" = Some page).
Proof.
  intros Hpg. split.
  - intros self kwargs self' ol pp o show n np Hready Hshow Hint Hnp Hn.
    destruct (deal_list_ready_pageable _ _ _ _ _ _ _ Hready) as [Hp _].
    destruct (page_in_range ol pp o show n np Hp Hint Hnp Hn)
      as [objs Hobjs].
    destruct (deal_list_ready_delivers template_engine today self GET kwargs
                self' ol pp o show (VPage n objs (VPaginator ol pp o)) Hready)
      as (rendered & _ & _ & _ & Hr & Hentry & _).
    { rewrite requested_page_default; auto. }
    { left. eassumption. }
    eauto 10.
  - intros self ol pp o show n np Hready Hshow Hint Hnp Hn.
    destruct (collection_ready_pageable _ _ _ _ _ Hready) as [Hp _].
    destruct (page_in_range ol pp o show n np Hp Hint Hnp Hn)
      as [objs Hobjs].
    destruct (collection_ready_delivers template_engine STATE_CHOICES self
                GET ol pp o show (VPage n objs (VPaginator ol pp o)) Hready)
      as (response & _ & _ & _ & Hr & Hentry & _).
    { rewrite requested_page_default; auto. }
    { left. eassumption. }
    eauto 10.
Qed.

End Pagination.

(** ** The date filter *)

Section DateFilter.

Variable today : Z.

Lemma int_of_str_nonempty s i : Py.int_of_str s = Some i -> s <> "".
Proof. intros H ->. vm_compute in H. discriminate. Qed.

(** What [filter_deals_from_params] comes to for a request whose [dtf] is
    an index into the choices. *)
Lemma filter_deals_from_params_index self GET s i m cs d label :
  Py.QueryDict_get GET "dtf" = Some s ->
  Py.int_of_str s = Some i ->
  getattr self "date_filter" = Ok (VDict m) ->
  m !! "choices" = Some (VChoices cs) ->
  0 <= i -> cs !! Z.to_nat i = Some (d, label) ->
  filter_deals_from_params today self (VRequest GET) = chosen today self d.
Proof.
  intros Hs Hint Hdf Hcs Hi Hlook.
  pose proof (int_of_str_nonempty _ _ Hint) as Hne.
  pose proof (lookup_lt_Some _ _ _ Hlook) as Hlen.
  unfold filter_deals_from_params, chosen. cbn [bind Py.request_GET].
  rewrite Hs. destruct s as [|a s]; [contradiction|].
  rewrite Hint, Hdf. cbn [bind dict_get]. rewrite Hcs.
  cbn [default from_option id].
  change (Py.len (VChoices cs)) with (Ok (Z.of_nat (length cs))).
  cbn [bind].
  destruct (Z.ltb_spec i 0); [lia|].
  destruct (Z.leb_spec (Z.of_nat (length cs)) i); [lia|]. cbn [orb].
  rewrite nth_lookup, Hlook. reflexivity.
Qed.

(** A delta that can be applied today gives a date to filter by. *)
Lemma applicable_date d :
  applicable today d = true -> d <> -1 ->
  Py.timedelta d = Ok d /\ Py.date_sub today d = Ok (today - d).
Proof.
  unfold applicable, Py.timedelta, Py.date_sub. cbv zeta. intros H Hd.
  destruct (Z.eqb_spec d (-1)); [contradiction|]. cbn [orb] in H.
  apply andb_true_iff in H as [-> ->]. auto.
Qed.

(** The entry chosen, once it can be applied: the deals are filtered unless
    the delta is -1, and the delta is stored as the new default of the
    date filter. *)
Lemma chosen_applicable self m d q :
  applicable today d = true ->
  getattr self "date_filter" = Ok (VDict m) ->
  getattr self "deals" = Ok (VQuerySet q) ->
  exists self',
    chosen today self d = Ok self'
    /\ getattr self' "date_filter"
       = Ok (VDict (<["default" := VInt d]> m))
    /\ getattr self' "deals"
       = Ok (VQuerySet
               (if d =? -1 then q
                else List.filter
                       (fun x => today - d <? date_last_modified x) q))
    /\ same_outside ["deals"; "date_filter"] self self'.
Proof.
  intros Happ Hdf Hdeals. unfold chosen.
  destruct (Z.eqb_spec d (-1)) as [->|Hd]; cbn [negb bind].
  - destruct (setitem_Ok self "date_filter" "default" (VInt (-1)) m Hdf)
      as (self' & Hset & Hget & _ & Hframe).
    exists self'. split; [assumption|split; [assumption|split]].
    + unfold getattr in *.
      destruct (Hframe "deals" ltac:(discriminate)) as [Hi' Hc'].
      rewrite Hi', Hc'. assumption.
    + intros k Hk. apply Hframe. intros ->. apply Hk. repeat constructor.
  - destruct (applicable_date d Happ Hd) as [-> Hsub].
    autorewrite with globals. cbn [bind]. rewrite Hsub. cbn [bind].
    rewrite Hdeals. cbn [bind filter_date_last_modified__gt].
    rewrite setattr_plain by reflexivity. cbn [bind].
    set (self1 := mkView (cls self) (<["deals" := _]> (inst self))).
    assert (Hdf1 : getattr self1 "date_filter" = Ok (VDict m)).
    { unfold getattr in Hdf |- *. unfold self1. simpl.
      rewrite lookup_insert_ne by discriminate. exact Hdf. }
    destruct (setitem_Ok self1 "date_filter" "default" (VInt d) m Hdf1)
      as (self' & Hset & Hget & _ & Hframe).
    exists self'. split; [assumption|split; [assumption|split]].
    + unfold getattr.
      destruct (Hframe "deals" ltac:(discriminate)) as [Hi' _].
      rewrite Hi'. unfold self1. simpl. now rewrite lookup_insert_eq.
    + intros k Hk.
      assert (Hkdf : k <> "date_filter")
        by (intros ->; apply Hk; repeat constructor).
      destruct (Hframe k Hkdf) as [Hi' Hc'].
      rewrite Hi', Hc'. unfold self1. simpl.
      rewrite lookup_insert_ne; [auto|].
      intros <-. apply Hk. repeat constructor.
Qed.

(** A request whose [dtf] is an index into the choices, at an entry that
    can be applied today. *)
Lemma filter_deals_from_params_valid self GET s i m cs d label q :
  Py.QueryDict_get GET "dtf" = Some s ->
  Py.int_of_str s = Some i ->
  getattr self "date_filter" = Ok (VDict m) ->
  m !! "choices" = Some (VChoices cs) ->
  0 <= i -> cs !! Z.to_nat i = Some (d, label) ->
  applicable today d = true ->
  getattr self "deals" = Ok (VQuerySet q) ->
  exists self',
    filter_deals_from_params today self (VRequest GET) = Ok self'
    /\ getattr self' "date_filter"
       = Ok (VDict (<["default" := VInt d]> m))
    /\ getattr self' "deals"
       = Ok (VQuerySet
               (if d =? -1 then q
                else List.filter
                       (fun x => today - d <? date_last_modified x) q))
    /\ same_outside ["deals"; "date_filter"] self self'.
Proof.
  intros Hs Hint Hdf Hcs Hi Hlook Happ Hdeals.
  rewrite (filter_deals_from_params_index self GET s i m cs d label)
    by assumption.
  now apply chosen_applicable.
Qed.

(** C2, as amended: for a [dtf] that is an index [i] into the choices, at
    an entry whose delta can be applied today, [filter_deals_from_params]
    stores in [date_filter['default']] the delta of the chosen entry,
    [choices[i][0]], not the index [i]; it does so for the -1 delta as
    well, and then leaves the deals as they are. *)
Theorem date_filter_default_records_delta self GET s i m cs d label q :
  Py.QueryDict_get GET "dtf" = Some s ->
  Py.int_of_str s = Some i ->
  getattr self "date_filter" = Ok (VDict m) ->
  m !! "choices" = Some (VChoices cs) ->
  0 <= i -> cs !! Z.to_nat i = Some (d, label) ->
  applicable today d = true ->
  getattr self "deals" = Ok (VQuerySet q) ->
  exists self',
    filter_deals_from_params today self (VRequest GET) = Ok self'
    /\ getattr self' "date_filter" = Ok (VDict (<["default" := VInt d]> m))
    /\ (d = -1 -> getattr self' "deals" = Ok (VQuerySet q)).
Proof.
  intros Hs Hint Hdf Hcs Hi Hlook Happ Hdeals.
  destruct (filter_deals_from_params_valid self GET s i m cs d label q)
    as (self' & Hf & Hdefault & Hq & _); auto.
  exists self'. split; [assumption|split; [assumption|]].
  intros ->. exact Hq.
Qed.

(** C3, as amended: for a [dtf] that is an index into the choices whose
    delta [d] is not negative and leads back to a day of the calendar,
    [filter_deals_from_params] replaces the deals by exactly those whose
    [date_last_modified] is after [today - d] days. *)
Theorem date_filter_keeps_deals_modified_after self GET s i m cs d label q :
  Py.QueryDict_get GET "dtf" = Some s ->
  Py.int_of_str s = Some i ->
  getattr self "date_filter" = Ok (VDict m) ->
  m !! "choices" = Some (VChoices cs) ->
  0 <= i -> cs !! Z.to_nat i = Some (d, label) ->
  0 <= d ->
  applicable today d = true ->
  getattr self "deals" = Ok (VQuerySet q) ->
  exists self' q',
    filter_deals_from_params today self (VRequest GET) = Ok self'
    /\ getattr self' "deals" = Ok (VQuerySet q')
    /\ q' = List.filter (fun x => today - d <? date_last_modified x) q
    /\ forall x, In x q' <-> In x q /\ today - d < date_last_modified x.
Proof.
  intros Hs Hint Hdf Hcs Hi Hlook Hd Happ Hdeals.
  destruct (filter_deals_from_params_valid self GET s i m cs d label q)
    as (self' & Hf & _ & Hq & _); auto.
  destruct (Z.eqb_spec d (-1)); [lia|].
  exists self', (List.filter (fun x => today - d <? date_last_modified x) q).
  split; [assumption|split; [assumption|split; [reflexivity|]]].
  intros x. rewrite List.filter_In, Z.ltb_lt. reflexivity.
Qed.

(** The three ways in which the date filter returns without a change. *)
Lemma filter_deals_from_params_skips self GET :
  Py.QueryDict_get GET "dtf" = None
  \/ (exists s,
        Py.QueryDict_get GET "dtf" = Some s /\ Py.int_of_str s = None)
  \/ (exists s i m cs,
        Py.QueryDict_get GET "dtf" = Some s
        /\ Py.int_of_str s = Some i
        /\ getattr self "date_filter" = Ok (VDict m)
        /\ m !! "choices" = Some (VChoices cs)
        /\ (i < 0 \/ Z.of_nat (length cs) <= i)) ->
  filter_deals_from_params today self (VRequest GET) = Ok self.
Proof.
  unfold filter_deals_from_params. cbn [bind Py.request_GET].
  intros [->|[(s & -> & Hint)|(s & i & m & cs & -> & Hint & Hdf & Hcs & Hi)]].
  - reflexivity.
  - destruct s; [reflexivity|]. now rewrite Hint.
  - destruct s; [reflexivity|]. rewrite Hint, Hdf. cbn [bind dict_get].
    rewrite Hcs. cbn [default from_option id].
    change (Py.len (VChoices cs)) with (Ok (Z.of_nat (length cs))).
    cbn [bind].
    destruct (Z.ltb_spec i 0); [reflexivity|].
    destruct (Z.leb_spec (Z.of_nat (length cs)) i); [reflexivity|lia].
Qed.

(** C4: when [dtf] is absent, is not an integer, or is an integer that is
    no index into the choices, [filter_deals_from_params] returns normally
    and the view, its deals and date filter included, is what it was. *)
Theorem filter_deals_from_params_noop self GET :
  Py.QueryDict_get GET "dtf" = None
  \/ (exists s,
        Py.QueryDict_get GET "dtf" = Some s /\ Py.int_of_str s = None)
  \/ (exists s i m cs,
        Py.QueryDict_get GET "dtf" = Some s
        /\ Py.int_of_str s = Some i
        /\ getattr self "date_filter" = Ok (VDict m)
        /\ m !! "choices" = Some (VChoices cs)
        /\ (i < 0 \/ Z.of_nat (length cs) <= i)) ->
  filter_deals_from_params today self (VRequest GET) = Ok self.
Proof. exact (filter_deals_from_params_skips self GET). Qed.

(** A run of the date filter that returns either leaves the view alone or
    was given an index into the choices. *)
Lemma filter_deals_from_params_Ok self request self' :
  filter_deals_from_params today self request = Ok self' ->
  self' = self
  \/ exists GET s i m cs d label,
       request = VRequest GET
       /\ Py.QueryDict_get GET "dtf" = Some s
       /\ Py.int_of_str s = Some i
       /\ getattr self "date_filter" = Ok (VDict m)
       /\ m !! "choices" = Some (VChoices cs)
       /\ 0 <= i /\ cs !! Z.to_nat i = Some (d, label).
Proof.
  unfold filter_deals_from_params. intros H.
  apply bind_Ok in H as (GET & HGET & H).
  destruct request; try discriminate. injection HGET as ->.
  destruct (Py.QueryDict_get GET "dtf") as [s|] eqn:Hs;
    [|injection H as <-; now left].
  destruct s as [|a s]; [injection H as <-; now left|].
  destruct (Py.int_of_str (String a s)) as [i|] eqn:Hint;
    [|injection H as <-; now left].
  apply bind_Ok in H as (df & Hdf & H).
  apply bind_Ok in H as (choices & Hchoices & H).
  destruct (Z.ltb_spec i 0); [injection H as <-; now left|].
  apply bind_Ok in H as (n & Hn & H).
  destruct df as [| | | | |m| | | | | | | |]; try discriminate.
  injection Hchoices as <-.
  destruct (Z.leb_spec n i); [injection H as <-; now left|].
  destruct (m !! "choices") as [c|] eqn:Hcs; cbn [default] in *.
  - destruct c as [| | | |cs| | | | | | | | |]; try discriminate.
    injection Hn as <-.
    destruct (lookup_lt_is_Some_2 cs (Z.to_nat i)) as [[d label] Hlook];
      [lia|].
    right. exists GET, (String a s), i, m, cs, d, label. auto 10.
  - injection Hn as <-. simpl in *. lia.
Qed.

(** A run of lines 109-114 that returns: the deals were left alone for
    the delta -1 and filtered by a date of the calendar otherwise, and the
    delta was recorded. *)
Lemma chosen_Ok self d self' :
  chosen today self d = Ok self' ->
  exists self1,
    ((d = -1 /\ self1 = self)
     \/ (d <> -1
         /\ applicable today d = true
         /\ exists q,
              getattr self "deals" = Ok (VQuerySet q)
              /\ setattr self "deals"
                   (VQuerySet
                      (List.filter
                         (fun x => today - d <? date_last_modified x) q))
                 = Ok self1))
    /\ setitem self1 "date_filter" "default" (VInt d) = Ok self'.
Proof.
  unfold chosen. intros H. apply bind_Ok in H as (self1 & H1 & Hset).
  exists self1. split; [|assumption].
  destruct (Z.eqb_spec d (-1)) as [->|Hd]; cbn [negb] in H1.
  - injection H1 as <-. now left.
  - right. split; [assumption|].
    apply bind_Ok in H1 as ([] & _ & H1).
    apply bind_Ok in H1 as (delta & Hdelta & H1).
    apply bind_Ok in H1 as (filter_date & Hdate & H1).
    apply bind_Ok in H1 as (deals & Hdeals & H1).
    apply bind_Ok in H1 as (deals' & Hf & H1).
    unfold Py.timedelta in Hdelta.
    destruct (Z.leb_spec (Z.abs d) 999999999); [|discriminate].
    injection Hdelta as <-.
    unfold Py.date_sub in Hdate. cbv zeta in Hdate.
    destruct ((1 <=? today - d) && (today - d <=? Py.date_max)) eqn:Hrange;
      [|discriminate].
    injection Hdate as <-.
    split.
    { unfold applicable. rewrite Hrange.
      destruct (Z.leb_spec (Z.abs d) 999999999); [|lia].
      now rewrite orb_true_r. }
    destruct deals; try discriminate. injection Hf as <-. eauto.
Qed.

(** The date filter never fails on a view whose date filter has its
    choices, each of which can be applied today, and whose deals are a
    queryset. *)
Lemma filter_deals_from_params_total self GET m cs q :
  getattr self "date_filter" = Ok (VDict m) ->
  m !! "choices" = Some (VChoices cs) ->
  forallb (fun c => applicable today c.1) cs = true ->
  getattr self "deals" = Ok (VQuerySet q) ->
  exists self' q' m',
    filter_deals_from_params today self (VRequest GET) = Ok self'
    /\ getattr self' "deals" = Ok (VQuerySet q')
    /\ sublist q' q
    /\ getattr self' "date_filter" = Ok (VDict m')
    /\ same_outside ["deals"; "date_filter"] self self'.
Proof.
  intros Hdf Hcs Happ Hdeals.
  assert (Hnoop :
    filter_deals_from_params today self (VRequest GET) = Ok self ->
    exists self' q' m',
      filter_deals_from_params today self (VRequest GET) = Ok self'
      /\ getattr self' "deals" = Ok (VQuerySet q')
      /\ sublist q' q
      /\ getattr self' "date_filter" = Ok (VDict m')
      /\ same_outside ["deals"; "date_filter"] self self').
  { intros H. exists self, q, m. repeat split; auto. }
  destruct (Py.QueryDict_get GET "dtf") as [s|] eqn:Hs;
    [|apply Hnoop, filter_deals_from_params_skips; now left].
  destruct (Py.int_of_str s) as [i|] eqn:Hint;
    [|apply Hnoop, filter_deals_from_params_skips; right; left; eauto].
  destruct (Z_lt_le_dec i 0) as [Hneg|Hi];
    [|destruct (Z_lt_le_dec i (Z.of_nat (length cs))) as [Hlt|Hge]].
  - apply Hnoop, filter_deals_from_params_skips. right; right.
    exists s, i, m, cs. auto 10.
  - destruct (lookup_lt_is_Some_2 cs (Z.to_nat i)) as [[d label] Hlook];
      [lia|].
    assert (Hd : applicable today d = true).
    { apply Is_true_true, forallb_True in Happ.
      apply Is_true_true. exact (Forall_lookup_1 _ _ _ _ Happ Hlook). }
    destruct (filter_deals_from_params_valid self GET s i m cs d
                label q) as (self' & Hf & Hdf' & Hq & Hframe); auto.
    eexists self', _, _. split; [eassumption|]. split; [eassumption|].
    split; [|split; [eassumption|assumption]].
    destruct (d =? -1); [reflexivity|apply filter_sublist].
  - apply Hnoop, filter_deals_from_params_skips. right; right.
    exists s, i, m, cs. auto 10.
Qed.

End DateFilter.

(** ** Keyword overrides *)

Lemma plain_cons k x kwargs :
  plain ((k, x) :: kwargs) = true <->
  special k = false /\ plain kwargs = true.
Proof.
  unfold plain. cbn [fmap list_fmap forallb fst].
  rewrite andb_true_iff, negb_true_iff. reflexivity.
Qed.

(** Ordinary keywords, each given once, are written into the instance
    dictionary. *)
Lemma apply_overrides_plain self kwargs :
  NoDup kwargs.*1 -> plain kwargs = true ->
  apply_overrides self kwargs
  = Ok (mkView (cls self) (list_to_map kwargs ∪ inst self)).
Proof.
  revert self. induction kwargs as [|[k x] kwargs IH]; intros self Hnd Hp.
  - cbn [apply_overrides list_to_map foldr]. rewrite (left_id_L ∅ (∪)).
    now destruct self.
  - apply plain_cons in Hp as [Hk Hp].
    cbn [fmap list_fmap fst] in Hnd. apply NoDup_cons in Hnd as [Hnotin Hnd].
    cbn [apply_overrides]. unfold override. cbn [fst snd].
    rewrite setattr_plain by assumption. cbn [bind].
    rewrite IH by assumption. cbn [cls inst]. do 2 f_equal.
    rewrite list_to_map_cons. cbn [fst snd].
    rewrite <- insert_union_l. apply eq_sym, insert_union_r.
    now apply not_elem_of_list_to_map_1.
Qed.

(** Overrides that repeat what the instance already holds change nothing. *)
Lemma apply_overrides_id self kwargs :
  NoDup kwargs.*1 -> plain kwargs = true ->
  (forall k x, (k, x) ∈ kwargs -> inst self !! k = Some x) ->
  apply_overrides self kwargs = Ok self.
Proof.
  intros Hnd Hp Hsub. rewrite apply_overrides_plain by assumption.
  destruct self as [c i]. cbn [cls inst] in *. do 2 f_equal.
  apply map_subseteq_union, map_subseteq_spec. intros k x Hk.
  apply Hsub. now apply elem_of_list_to_map_2.
Qed.


(** ** Listing the deals of a collection item *)

Lemma getattr_insert_eq c i k x :
  getattr (mkView c (<[k := x]> i)) k = Ok x.
Proof. unfold getattr. cbn [inst]. now rewrite lookup_insert_eq. Qed.

Lemma getattr_insert_ne c i k k' x :
  k <> k' ->
  getattr (mkView c (<[k := x]> i)) k' = getattr (mkView c i) k'.
Proof.
  intros H. unfold getattr. cbn [inst cls].
  now rewrite lookup_insert_ne by assumption.
Qed.

Lemma View_eta self : mkView (cls self) (inst self) = self.
Proof. now destruct self. Qed.

Lemma before_do_render_getattr self row ds k :
  k <> "queryset" -> k <> "deals" -> k <> "title" -> k <> "description" ->
  getattr (before_do_render self row ds) k = getattr self k.
Proof.
  intros. unfold getattr, before_do_render. simpl.
  now rewrite !lookup_insert_ne by congruence.
Qed.

Lemma before_do_render_inst self row ds :
  inst (before_do_render self row ds) !! "queryset" = Some (VInstance row)
  /\ inst (before_do_render self row ds) !! "deals" = Some (VQuerySet ds)
  /\ inst (before_do_render self row ds) !! "title"
     = Some (VStr "some title")
  /\ inst (before_do_render self row ds) !! "description"
     = Some (VStr "some desc").
Proof.
  unfold before_do_render. simpl.
  repeat split;
    repeat (rewrite lookup_insert_eq || rewrite lookup_insert_ne by discriminate);
    reflexivity.
Qed.

(** Fewer records are as pageable as more. *)
Lemma pageable_sublist (q q' : list Deal) pp o :
  sublist q' q ->
  pageable (VPaginator (VQuerySet q) pp o) = true ->
  pageable (VPaginator (VQuerySet q') pp o) = true.
Proof.
  intros Hsub. unfold pageable.
  change (Py.len (VQuerySet q)) with (Ok (Z.of_nat (length q))).
  change (Py.len (VQuerySet q')) with (Ok (Z.of_nat (length q'))).
  cbn [sequence andb]. rewrite !andb_true_iff, !Z.ltb_lt.
  apply sublist_length in Hsub. lia.
Qed.

Section CollectionItems.

Variable template_engine : engine_call -> option exn.
Variable today : Z.
Variable STATE_CHOICES : list (Z * string).
Variable Deal_objects_filter : gmap string value -> result (list Deal).

(** C1: a slug that no instance of the configured model carries makes
    [DealCollectionItemsListBaseView.get] catch [DoesNotExist] and then
    fail on the name [Http404], which the module never imports: what
    reaches the caller is a [NameError], not an [Http404]. *)
Theorem get_unknown_slug_raises_NameError self kwargs :
  slug_lookup self [] ->
  method self "get_queryset" = Ok tt ->
  DealCollectionItemsListBaseView_get template_engine today STATE_CHOICES
    Deal_objects_filter self kwargs = Err (NameError "Http404")
  /\ forall msg,
       DealCollectionItemsListBaseView_get template_engine today
         STATE_CHOICES Deal_objects_filter self kwargs <> Err (Http404 msg).
Proof.
  intros (kw & slug_name & slug & rows & Hkw & Hsn & Hslug & Hmodel & Hrows)
         Hmeth.
  assert (H : DealCollectionItemsListBaseView_get template_engine today
                STATE_CHOICES Deal_objects_filter self kwargs
              = Err (NameError "Http404")).
  { unfold DealCollectionItemsListBaseView_get.
    rewrite Hkw. cbn [bind]. rewrite Hsn. cbn [bind]. rewrite Hslug.
    cbn [bind]. rewrite Hmeth. cbn [bind]. unfold get_queryset.
    rewrite Hmodel. cbn [bind objects_get]. rewrite Hrows. cbn [bind].
    autorewrite with globals. reflexivity. }
  split; [assumption|]. intros msg. rewrite H. discriminate.
Qed.

(** Up to [do_render], [get] only prepares the view. *)
Lemma get_reaches_do_render self kwargs row ds :
  slug_lookup self [row] ->
  forallb (fun name => negb (hasattr self name)) called_methods = true ->
  Deal_objects_filter kwargs = Ok ds ->
  DealCollectionItemsListBaseView_get template_engine today STATE_CHOICES
    Deal_objects_filter self kwargs
  = (r <- do_render template_engine today STATE_CHOICES
            (before_do_render self row ds) ;;
     Ok (VNone, snd r)).
Proof.
  intros (kw & slug_name & slug & rows & Hkw & Hsn & Hslug & Hmodel & Hrows)
         Hmeths Hds.
  cbn [forallb called_methods] in Hmeths. rewrite !andb_true_iff in Hmeths.
  destruct Hmeths as (M1 & M2 & M3 & M4 & M5 & M6 & M7 & M8 & _).
  apply negb_true_iff in M1, M2, M3, M4, M5, M6, M7, M8.
  set (s1 := mkView (cls self) (<["queryset" := VInstance row]> (inst self))).
  set (s2 := mkView (cls self) (<["deals" := VQuerySet ds]> (inst s1))).
  set (s3 := mkView (cls self) (<["title" := VStr "some title"]> (inst s2))).
  set (s4 := before_do_render self row ds).
  assert (Hs1 : setattr self "queryset" (VInstance row) = Ok s1)
    by reflexivity.
  assert (Hs2 : setattr s1 "deals" (VQuerySet ds) = Ok s2) by reflexivity.
  assert (Hs3 : setattr s2 "title" (VStr "some title") = Ok s3)
    by reflexivity.
  assert (Hs4 : setattr s3 "description" (VStr "some desc") = Ok s4)
    by reflexivity.
  clearbody s1 s2 s3 s4.
  pose proof (fun k => hasattr_setattr_ne self s1 "queryset" k _
                         eq_refl Hs1) as K1.
  pose proof (fun k => hasattr_setattr_ne s1 s2 "deals" k _
                         eq_refl Hs2) as K2.
  pose proof (fun k => hasattr_setattr_ne s2 s3 "title" k _
                         eq_refl Hs3) as K3.
  pose proof (fun k => hasattr_setattr_ne s3 s4 "description" k _
                         eq_refl Hs4) as K4.
  unfold DealCollectionItemsListBaseView_get.
  rewrite Hkw. cbn [bind]. rewrite Hsn. cbn [bind]. rewrite Hslug.
  cbn [bind]. rewrite method_free by assumption. cbn [bind].
  unfold get_queryset. rewrite Hmodel. cbn [bind objects_get].
  rewrite Hrows. cbn [bind]. rewrite Hs1. cbn [bind].
  rewrite (getattr_setattr_eq self s1 "queryset" _ eq_refl Hs1). cbn [bind].
  rewrite method_free by (rewrite K1 by discriminate; assumption).
  cbn [bind]. unfold filter_deals. autorewrite with globals. cbn [bind].
  rewrite Hds. cbn [bind]. rewrite Hs2. cbn [bind].
  rewrite method_free by (rewrite K2, K1 by discriminate; assumption).
  cbn [bind]. unfold set_title. rewrite Hs3. cbn [bind].
  rewrite method_free by (rewrite K3, K2, K1 by discriminate; assumption).
  cbn [bind]. unfold set_description. rewrite Hs4. cbn [bind].
  rewrite method_free
    by (rewrite K4, K3, K2, K1 by discriminate; assumption).
  reflexivity.
Qed.

(** What [do_render] does on a view whose deals, title and description
    are set on the instance: the date filter narrows the deals, the
    fragment is rendered from a page of them under the title and the
    description, the fragment and the page context are stored on the view,
    and the response is the template of the view rendered from that
    context. *)
Lemma do_render_outcome self GET ds t d m cs n pp mo o zim pbu tpl :
  hasattr self "render_deal_list" = false ->
  hasattr self "filter_deals_from_params" = false ->
  hasattr self "set_context_data" = false ->
  getattr self "request" = Ok (VRequest GET) ->
  inst self !! "deals" = Some (VQuerySet ds) ->
  inst self !! "title" = Some t ->
  inst self !! "description" = Some d ->
  getattr self "date_filter" = Ok (VDict m) ->
  m !! "choices" = Some (VChoices cs) ->
  forallb (fun c => applicable today c.1) cs = true ->
  getattr self "num_page_items" = Ok n -> Py.int n = Ok pp ->
  getattr self "min_orphan_items" = Ok mo -> Py.int mo = Ok o ->
  pageable (VPaginator (VQuerySet ds) pp o) = true ->
  numbered self = true ->
  getattr self "zero_items_message" = Ok zim ->
  getattr self "pagination_base_url" = Ok pbu ->
  renders template_engine (VStr "snippet_deal_listing.html") ->
  getattr self "template" = Ok tpl ->
  renders template_engine tpl ->
  exists s6 q' df k objs,
    let rendered :=
      VTemplateString (VStr "snippet_deal_listing.html")
        (VDict {[ "listing" := VDict (list_to_map
           [ ("deals_page", VPage k objs (VPaginator (VQuerySet q') pp o));
             ("date_filter", df);
             ("title", t);
             ("description",
              if Z.of_nat (length q') =? 0 then zim else d);
             ("pagination_base_url", pbu) ]) ]}) in
    let context :=
      VDict (list_to_map
        [ ("search_options", search_options STATE_CHOICES);
          ("rendered_deal_list", rendered) ]) in
    filter_deals_from_params today self (VRequest GET) = Ok s6
    /\ getattr s6 "deals" = Ok (VQuerySet q')
    /\ sublist q' ds
    /\ same_outside ["deals"; "date_filter"] self s6
    /\ render_deal_list template_engine today self (VRequest GET)
         [ ("deals", VQuerySet ds); ("title", t); ("description", d) ]
       = Ok (rendered, s6)
    /\ do_render template_engine today STATE_CHOICES self
       = Ok (VHttpResponse tpl context,
             mkView (cls s6)
               (<["context" := context]>
                  (<["rendered_deal_list" := rendered]> (inst s6)))).
Proof.
  intros Hm1 Hm2 Hm3 Hreq Hdeals Ht Hd Hdf Hcs Happ Hn Hpp Hmo Ho Hp
         Hshow Hzim Hpbu Hsnippet Htpl Hrenders.
  set (kwargs := [ ("deals", VQuerySet ds); ("title", t);
                   ("description", d) ]).
  assert (Hid : apply_overrides self kwargs = Ok self).
  { apply apply_overrides_id.
    - unfold kwargs. cbn [fmap list_fmap fst].
      rewrite !NoDup_cons, !not_elem_of_cons.
      repeat split; try discriminate; try apply not_elem_of_nil.
      apply NoDup_nil_2.
    - reflexivity.
    - intros k x. unfold kwargs. rewrite !elem_of_cons, elem_of_nil.
      intros [[= -> ->]|[[= -> ->]|[[= -> ->]|[]]]]; assumption. }
  destruct (filter_deals_from_params_total today self GET m cs ds Hdf Hcs
              Happ (getattr_inst _ _ _ Hdeals))
    as (s6 & q' & m' & Hfilter & Hdeals6 & Hsub & Hdf6 & Hframe).
  assert (Hsame : forall k, k <> "deals" -> k <> "date_filter" ->
                            getattr s6 k = getattr self k).
  { intros k H1 H2. apply (same_outside_getattr _ _ _ _ Hframe).
    rewrite !elem_of_cons, elem_of_nil. tauto. }
  assert (Hprep : prepared today self GET kwargs = Ok s6).
  { unfold prepared. rewrite Hid. cbn [bind].
    rewrite (method_free _ _ Hm2). cbn [bind]. assumption. }
  assert (Hpag : paginator_of s6 "deals"
                 = Ok (VPaginator (VQuerySet q') pp o)).
  { unfold paginator_of. rewrite Hdeals6. cbn [bind].
    rewrite !Hsame by discriminate. rewrite Hn. cbn [bind]. rewrite Hmo.
    cbn [bind]. unfold Paginator.make. rewrite Hpp. cbn [bind].
    now rewrite Ho. }
  pose proof (pageable_sublist _ _ _ _ Hsub Hp) as Hp'.
  assert (Hshow6 : numbered s6 = true).
  { unfold numbered in Hshow |- *. now rewrite Hsame by discriminate. }
  destruct (requested_page_total s6 GET Hshow6)
    as (number & Hnumber & Hint).
  destruct (delivered_total (VQuerySet q') pp o number Hp' Hint)
    as (k & objs & Hdel).
  assert (Hd6 : getattr s6 "description" = Ok d)
    by (rewrite Hsame by discriminate; now apply getattr_inst).
  assert (Hzim6 : getattr s6 "zero_items_message" = Ok zim)
    by (now rewrite Hsame by discriminate).
  assert (Ht6 : getattr s6 "title" = Ok t)
    by (rewrite Hsame by discriminate; now apply getattr_inst).
  assert (Hpbu6 : getattr s6 "pagination_base_url" = Ok pbu)
    by (now rewrite Hsame by discriminate).
  pose proof (render_deal_list_delivers template_engine today self GET kwargs
                s6 (VQuerySet q') pp o (Z.of_nat (length q')) number _
                d zim (VDict m') t pbu eq_refl Hprep Hpag eq_refl Hnumber
                Hdel Hd6 Hzim6 Hdf6 Ht6 Hpbu6 Hsnippet) as Hr.
  exists s6, q', (VDict m'), k, objs. cbv zeta.
  split; [assumption|]. split; [assumption|]. split; [assumption|].
  split; [assumption|]. split; [exact Hr|].
  destruct Hrenders as (_ & _ & _ & Hrender).
  unfold do_render. rewrite Hreq. cbn [bind].
  rewrite (getattr_inst _ _ _ Hdeals), (getattr_inst _ _ _ Ht),
    (getattr_inst _ _ _ Hd). cbn [bind].
  rewrite (method_free _ _ Hm1). cbn [bind].
  fold kwargs. rewrite Hr. cbn [bind].
  rewrite setattr_plain by reflexivity. cbn [bind].
  rewrite method_free.
  2:{ unfold hasattr. rewrite getattr_insert_ne by discriminate.
      rewrite View_eta, Hsame by discriminate. exact Hm3. }
  cbn [bind]. unfold set_context_data. autorewrite with globals. cbn [bind].
  rewrite getattr_insert_eq. cbn [bind].
  rewrite setattr_plain by reflexivity. cbn [bind cls inst].
  autorewrite with globals. cbn [bind].
  rewrite !(getattr_insert_ne _ _ _ "request") by discriminate.
  rewrite View_eta, Hsame, Hreq by discriminate. cbn [bind].
  rewrite !(getattr_insert_ne _ _ _ "template") by discriminate.
  rewrite View_eta, Hsame, Htpl by discriminate. cbn [bind].
  rewrite getattr_insert_eq. cbn [bind].
  rewrite (engine_None _ _ (Hrender _ _)). reflexivity.
Qed.

(** Everything a successful [get] does, in one place. *)
Lemma get_outcome self kwargs row GET ds :
  slug_lookup self [row] ->
  deal_collection_ready template_engine today Deal_objects_filter self
    kwargs GET ds ->
  exists s6 q' df k objs pp o zim pbu tpl,
    let rendered :=
      VTemplateString (VStr "snippet_deal_listing.html")
        (VDict {[ "listing" := VDict (list_to_map
           [ ("deals_page", VPage k objs (VPaginator (VQuerySet q') pp o));
             ("date_filter", df);
             ("title", VStr "some title");
             ("description",
              if Z.of_nat (length q') =? 0 then zim else VStr "some desc");
             ("pagination_base_url", pbu) ]) ]}) in
    let context :=
      VDict (list_to_map
        [ ("search_options", search_options STATE_CHOICES);
          ("rendered_deal_list", rendered) ]) in
    let self' :=
      mkView (cls s6)
        (<["context" := context]>
           (<["rendered_deal_list" := rendered]> (inst s6))) in
    filter_deals_from_params today (before_do_render self row ds)
      (VRequest GET) = Ok s6
    /\ getattr s6 "deals" = Ok (VQuerySet q')
    /\ sublist q' ds
    /\ same_outside ["deals"; "date_filter"] (before_do_render self row ds)
         s6
    /\ getattr self "zero_items_message" = Ok zim
    /\ getattr self "template" = Ok tpl
    /\ render_deal_list template_engine today (before_do_render self row ds)
         (VRequest GET)
         [ ("deals", VQuerySet ds); ("title", VStr "some title");
           ("description", VStr "some desc") ]
       = Ok (rendered, s6)
    /\ do_render template_engine today STATE_CHOICES
         (before_do_render self row ds)
       = Ok (VHttpResponse tpl context, self')
    /\ DealCollectionItemsListBaseView_get template_engine today
         STATE_CHOICES Deal_objects_filter self kwargs = Ok (VNone, self').
Proof.
  intros Hlookup (Hmeths & Hds & Hreq & (m & cs & Hdf & Hcs & Happ)
                  & (n & mo & pp & o & Hn & Hpp & Hmo & Ho & Hp)
                  & Hattrs & Hsnippet & (tpl & Htpl & Hrenders) & Hnum).
  pose proof (get_reaches_do_render self kwargs row ds Hlookup Hmeths Hds)
    as Hget.
  cbn [forallb called_methods] in Hmeths. rewrite !andb_true_iff in Hmeths.
  destruct Hmeths as (_ & _ & _ & _ & _ & M6 & M7 & M8 & _).
  apply negb_true_iff in M6, M7, M8.
  cbn [forallb] in Hattrs. rewrite !andb_true_iff in Hattrs.
  destruct Hattrs as (Hshow & Hzim & Hpbu & _).
  apply hasattr_Ok in Hzim as [zim Hzim], Hpbu as [pbu Hpbu].
  destruct (before_do_render_inst self row ds) as (Iq & Id & It & Ides).
  pose proof (before_do_render_getattr self row ds) as Hg.
  assert (Hh : forall k,
    k <> "queryset" -> k <> "deals" -> k <> "title" ->
    k <> "description" ->
    hasattr (before_do_render self row ds) k = hasattr self k).
  { intros. unfold hasattr. now rewrite Hg. }
  destruct (do_render_outcome (before_do_render self row ds) GET ds
              (VStr "some title") (VStr "some desc") m cs n pp mo o zim pbu
              tpl)
    as (s6 & q' & df & k & objs & Hfilter & Hdeals6 & Hsub & Hframe & Hr
        & Hrender); auto.
  1-3: rewrite Hh by discriminate; assumption.
  1-4: rewrite Hg by discriminate; assumption.
  1: unfold numbered; rewrite Hg by discriminate; assumption.
  1-3: rewrite Hg by discriminate; assumption.
  exists s6, q', df, k, objs, pp, o, zim, pbu, tpl. cbv zeta.
  repeat (split; [assumption|]).
  rewrite Hget, Hrender. reflexivity.
Qed.

(** C10: when the slug lookup finds its record, [get] on a view that is
    set up to list deals returns [None].  [do_render], called on the view
    that [get] has prepared, renders the fragment, stores it on the view
    and builds the response - the template of the view, rendered from the
    search options and that fragment - and [get] drops the response. *)
Theorem get_returns_None self kwargs row GET ds :
  slug_lookup self [row] ->
  deal_collection_ready template_engine today Deal_objects_filter self
    kwargs GET ds ->
  exists rendered template s6 self',
    render_deal_list template_engine today (before_do_render self row ds)
      (VRequest GET)
      [ ("deals", VQuerySet ds); ("title", VStr "some title");
        ("description", VStr "some desc") ]
    = Ok (rendered, s6)
    /\ getattr self "template" = Ok template
    /\ do_render template_engine today STATE_CHOICES
         (before_do_render self row ds)
       = Ok (VHttpResponse template
               (VDict (list_to_map
                  [ ("search_options", VDict (list_to_map
                       [ ("query", VStr "");
                         ("states", VDict (list_to_map
                            [ ("choices", VChoices STATE_CHOICES);
                              ("default", VInt 25) ])) ]));
                    ("rendered_deal_list", rendered) ])),
             self')
    /\ getattr self' "rendered_deal_list" = Ok rendered
    /\ same_outside ["rendered_deal_list"; "context"] s6 self'
    /\ DealCollectionItemsListBaseView_get template_engine today
         STATE_CHOICES Deal_objects_filter self kwargs = Ok (VNone, self').
Proof.
  intros Hlookup Hready.
  destruct (get_outcome self kwargs row GET ds Hlookup Hready)
    as (s6 & q' & df & k & objs & pp & o & zim & pbu & tpl & _ & _ & _ & _
        & _ & Htpl & Hr & Hrender & Hget).
  eexists _, tpl, s6, _.
  split; [exact Hr|]. split; [assumption|]. split; [exact Hrender|].
  split; [|split; [|exact Hget]].
  - rewrite getattr_insert_ne by discriminate. apply getattr_insert_eq.
  - intros key Hkey. rewrite !not_elem_of_cons in Hkey.
    destruct Hkey as (H1 & H2 & _). cbn [inst cls].
    rewrite !lookup_insert_ne by congruence. auto.
Qed.

End CollectionItems.

(** ** The sample site *)

Module SampleRuns.
Import Sample.

Example int_of_str_blank_7 : Py.int_of_str " 7 " = Some 7.
Proof. reflexivity. Qed.

Example int_of_str_minus_12 : Py.int_of_str "-12" = Some (-12).
Proof. reflexivity. Qed.

Example int_of_str_letters : Py.int_of_str "abc" = None.
Proof. reflexivity. Qed.

Example int_of_str_grouped : Py.int_of_str "0_1" = Some 1.
Proof. reflexivity. Qed.

Example int_of_str_trailing_underscore : Py.int_of_str "1_" = None.
Proof. reflexivity. Qed.

Example int_of_str_arabic_three : Py.int_of_str Cases.arabic_three = Some 3.
Proof. reflexivity. Qed.

Example int_of_str_after_separator :
  Py.int_of_str Cases.after_separator = None.
Proof. reflexivity. Qed.

Example len_counts_code_points :
  Py.len (VStr Cases.arabic_three) = Ok 1.
Proof. reflexivity. Qed.

(** Sixteen items, fifteen to a page, two orphans allowed: a single page
    holds all sixteen, and asking for page 2 is out of range. *)
Example orphans_are_absorbed :
  let p := VPaginator (VStr "abcdefghijklmnop") 15 2 in
  Paginator.num_pages p = Ok 1
  /\ Paginator.page p (VStr "2") = Err EmptyPage
  /\ Paginator.page p (VInt 1) = Ok (VPage 1 (VStr "abcdefghijklmnop") p).
Proof. repeat split; run. Qed.

(** A page size that no float holds. *)
Example page_size_overflows :
  Paginator.num_pages (VPaginator (VQuerySet deals) (2 ^ 1024) 0)
  = Err OverflowError.
Proof. run. Qed.

(** The default page of the deal listing. *)
Example deal_list_page :
  exists context self',
    DealListBaseView_get engine today state_choices deal_view (VRequest [])
    = Ok (VHttpResponse (VStr "deals/deal_list_base.html") context, self').
Proof. eexists. eexists. vm_compute. reflexivity. Qed.

(** The date filter of the example in the description of the listing:
    [dtf=1] keeps the deals of the last week. *)
Example last_week :
  exists self',
    filter_deals_from_params today deal_view (VRequest [("dtf", "1")])
    = Ok self'
    /\ getattr self' "deals"
       = Ok (VQuerySet [ mkDeal 1 735999; mkDeal 2 735995 ]).
Proof. eexists. split; [reflexivity|]. run. Qed.

(** [CollectionsBaseView] with the options of the class has no template
    to load. *)
Example bare_collection_has_no_template :
  CollectionsBaseView_get engine state_choices Cases.bare_collection
  = Err TemplateDoesNotExist.
Proof. run. Qed.

(** A keyword that names the instance dictionary, with a value that is no
    dictionary: the assignment fails, the failure is swallowed, and the
    view keeps the title given before and nothing else. *)
Example dict_override_is_swallowed :
  apply_overrides deal_view Cases.undressed
  = Ok (mkView (cls deal_view) {[ "title" := VStr "Hot deals" ]}).
Proof. run. Qed.

(** A negative [dtf] returns before the choices are looked at: a date
    filter whose choices have no length does no harm. *)
Example negative_index_returns_early :
  let self := mkView (DealListBaseView epoch_choices deals)
                {[ "date_filter" := VDict {[ "choices" := VInt 3 ]} ]} in
  filter_deals_from_params today self (VRequest [("dtf", "-1")]) = Ok self
  /\ filter_deals_from_params today self (VRequest [("dtf", "0")])
     = Err TypeError.
Proof. split; run. Qed.

End SampleRuns.

(** The engine of the sample site renders its templates. *)
Lemma sample_renders name :
  name ∈ Sample.templates -> renders Sample.engine (VStr name).
Proof.
  intros H. unfold renders, Sample.engine, Sample.template_error.
  rewrite bool_decide_eq_true_2 by assumption. auto.
Qed.

Lemma sample_snippet :
  renders Sample.engine (VStr "snippet_deal_listing.html").
Proof. apply sample_renders. repeat constructor. Qed.

Lemma sample_page : renders Sample.engine (VStr "deals/deal_list_base.html").
Proof. apply sample_renders. repeat constructor. Qed.

Lemma sample_collections :
  renders Sample.engine (VStr "deals/collections.html").
Proof. apply sample_renders. repeat constructor. Qed.

(** A deal listing of the sample site is ready when the rest of its setup
    evaluates. *)
Lemma sample_deal_list_ready self GET kwargs self' ol pp o :
  legal kwargs = true ->
  prepared Sample.today self GET kwargs = Ok self' ->
  paginator_of self' "deals" = Ok (VPaginator ol pp o) ->
  pageable (VPaginator ol pp o) = true ->
  forallb (hasattr self')
    [ "show_page_num"; "description"; "zero_items_message";
      "date_filter"; "title"; "pagination_base_url" ] = true ->
  numbered self' = true ->
  deal_list_ready Sample.engine Sample.today self GET kwargs self' ol pp o.
Proof. unfold deal_list_ready. auto 10 using sample_snippet. Qed.

Lemma sample_collection_ready self GET ol pp o :
  getattr self "template" = Ok (VStr "deals/collections.html") ->
  getattr self "request" = Ok (VRequest GET) ->
  paginator_of self "queryset" = Ok (VPaginator ol pp o) ->
  pageable (VPaginator ol pp o) = true ->
  forallb (hasattr self)
    [ "show_page_num"; "description"; "zero_items_message";
      "title"; "pagination_base_url" ] = true ->
  numbered self = true ->
  collection_ready Sample.engine self GET ol pp o.
Proof.
  unfold collection_ready. intros. split; [reflexivity|].
  split; [eauto using sample_collections|auto 10].
Qed.

(** ** The statements on the sample site *)

(** [pg=abc] on the sample listings. *)
Lemma non_integer_page_witness :
  (exists rendered page,
     render_deal_list Sample.engine Sample.today Sample.deal_view
       (VRequest [("pg", "abc")]) [] = Ok (rendered, Sample.deal_view)
     /\ Paginator.page (VPaginator (VQuerySet Sample.deals) 15 2) (VInt 1)
        = Ok page
     /\ page_number page = Some 1
     /\ listing_entry rendered "deals_page" = Some page)
  /\ (exists response page,
        CollectionsBaseView_get Sample.engine Sample.state_choices
          (Sample.collection_view (VQuerySet Sample.deals) 1 [("pg", "abc")])
        = Ok response
        /\ Paginator.page (VPaginator (VQuerySet Sample.deals) 2 0) (VInt 1)
           = Ok page
        /\ page_number page = Some 1
        /\ context_entry response "collections_page" = Some page).
Proof.
  destruct (non_integer_page_delivers_first_page Sample.engine Sample.today
              Sample.state_choices [("pg", "abc")] "abc")
    as [Hdeals Hcollection]; [reflexivity|discriminate|reflexivity|].
  split.
  - apply Hdeals. apply sample_deal_list_ready; run.
  - apply Hcollection. apply sample_collection_ready; run.
Defined.

(** [pg=9] on the sample listings, which have one and two pages. *)
Lemma out_of_range_page_witness :
  (exists rendered page,
     render_deal_list Sample.engine Sample.today Sample.deal_view
       (VRequest [("pg", "9")]) [] = Ok (rendered, Sample.deal_view)
     /\ Paginator.page (VPaginator (VQuerySet Sample.deals) 15 2) (VInt 1)
        = Ok page
     /\ page_number page = Some 1
     /\ listing_entry rendered "deals_page" = Some page)
  /\ (exists response page,
        CollectionsBaseView_get Sample.engine Sample.state_choices
          (Sample.collection_view (VQuerySet Sample.deals) 1 [("pg", "9")])
        = Ok response
        /\ Paginator.page (VPaginator (VQuerySet Sample.deals) 2 0) (VInt 2)
           = Ok page
        /\ page_number page = Some 2
        /\ context_entry response "collections_page" = Some page).
Proof.
  destruct (out_of_range_page_delivers_last_page Sample.engine Sample.today
              Sample.state_choices [("pg", "9")] "9" 9)
    as [Hdeals Hcollection]; [reflexivity|reflexivity|].
  split.
  - apply Hdeals; [|reflexivity|right; reflexivity].
    apply sample_deal_list_ready; run.
  - apply Hcollection; [|reflexivity|right; reflexivity].
    apply sample_collection_ready; run.
Defined.

(** A site without deals and a collection view left with its empty default
    queryset, asked for page 3. *)
Lemma description_follows_total_count_witness :
  (exists rendered c desc zim,
     render_deal_list Sample.engine Sample.today Sample.empty_deal_view
       (VRequest [("pg", "3")]) [] = Ok (rendered, Sample.empty_deal_view)
     /\ Paginator.count (VPaginator (VQuerySet []) 15 2) = Ok c
     /\ getattr Sample.empty_deal_view "description" = Ok desc
     /\ getattr Sample.empty_deal_view "zero_items_message" = Ok zim
     /\ (c = 0 -> listing_entry rendered "description" = Some zim)
     /\ (c <> 0 -> listing_entry rendered "description" = Some desc))
  /\ (exists response c desc zim,
        CollectionsBaseView_get Sample.engine Sample.state_choices
          (Sample.collection_view (VStr "") 1 [("pg", "3")]) = Ok response
        /\ Paginator.count (VPaginator (VStr "") 2 0) = Ok c
        /\ getattr (Sample.collection_view (VStr "") 1 [("pg", "3")])
             "description" = Ok desc
        /\ getattr (Sample.collection_view (VStr "") 1 [("pg", "3")])
             "zero_items_message" = Ok zim
        /\ (c = 0 -> context_entry response "description" = Some zim)
        /\ (c <> 0 -> context_entry response "description" = Some desc)).
Proof.
  destruct (description_follows_total_count Sample.engine Sample.today
              Sample.state_choices [("pg", "3")]) as [Hdeals Hcollection].
  split.
  - apply Hdeals. apply sample_deal_list_ready; run.
  - apply Hcollection. apply sample_collection_ready; run.
Defined.

(** [pg=] on listings whose [show_page_num] is 2. *)
Lemma empty_page_parameter_witness :
  (exists rendered page,
     render_deal_list Sample.engine Sample.today Sample.deal_view
       (VRequest [("pg", "")]) Sample.one_per_page
     = Ok (rendered, Sample.one_per_page_view)
     /\ Paginator.page (VPaginator (VQuerySet Sample.deals) 1 0) (VInt 2)
        = Ok page
     /\ page_number page = Some 2
     /\ listing_entry rendered "deals_page" = Some page)
  /\ (exists response page,
        CollectionsBaseView_get Sample.engine Sample.state_choices
          (Sample.collection_view (VQuerySet Sample.deals) 2 [("pg", "")])
        = Ok response
        /\ Paginator.page (VPaginator (VQuerySet Sample.deals) 2 0) (VInt 2)
           = Ok page
        /\ page_number page = Some 2
        /\ context_entry response "collections_page" = Some page).
Proof.
  destruct (empty_page_parameter_uses_show_page_num Sample.engine
              Sample.today Sample.state_choices [("pg", "")])
    as [Hdeals Hcollection]; [reflexivity|].
  split.
  - apply Hdeals with (np := 3); [|run|reflexivity|run|lia].
    apply sample_deal_list_ready; run.
  - apply Hcollection with (np := 2); [|run|reflexivity|run|lia].
    apply sample_collection_ready; run.
Defined.

(** [dtf=1] with the choices All time / Last week / Last month: the stored
    default is the delta 7, not the index 1.  With a choice that reaches
    back 800000 days, before the first day of the calendar, nothing is
    stored: the subtraction raises [OverflowError]. *)
Lemma date_filter_default_is_not_the_index :
  (exists self' m,
     filter_deals_from_params Sample.today Sample.deal_view
       (VRequest [("dtf", "1")]) = Ok self'
     /\ getattr self' "date_filter" = Ok (VDict m)
     /\ m !! "default" = Some (VInt 7)
     /\ m !! "default" <> Some (VInt 1))
  /\ Py.int_of_str "1" = Some 1
  /\ Cases.far_choices !! 1%nat = Some (800000, "Ever")
  /\ filter_deals_from_params Sample.today Cases.far_view
       (VRequest [("dtf", "1")]) = Err OverflowError.
Proof.
  split; [|split; [reflexivity|split; [reflexivity|run]]].
  eexists. exists (<["default" := VInt 7]> Sample.date_filter).
  split; [reflexivity|]. split; [run|]. split; [run|].
  vm_compute. discriminate.
Qed.

(** [dtf=1] and [dtf=0] with the same choices. *)
Lemma date_filter_default_witness :
  (exists self',
     filter_deals_from_params Sample.today Sample.deal_view
       (VRequest [("dtf", "1")]) = Ok self'
     /\ getattr self' "date_filter"
        = Ok (VDict (<["default" := VInt 7]> Sample.date_filter))
     /\ (7 = -1 -> getattr self' "deals" = Ok (VQuerySet Sample.deals)))
  /\ (exists self',
        filter_deals_from_params Sample.today Sample.deal_view
          (VRequest [("dtf", "0")]) = Ok self'
        /\ getattr self' "date_filter"
           = Ok (VDict (<["default" := VInt (-1)]> Sample.date_filter))
        /\ (-1 = -1 -> getattr self' "deals" = Ok (VQuerySet Sample.deals))).
Proof.
  split.
  - apply (date_filter_default_records_delta Sample.today Sample.deal_view
             [("dtf", "1")] "1" 1 Sample.date_filter Sample.epoch_choices
             7 "Last week" Sample.deals); solve [run | lia].
  - apply (date_filter_default_records_delta Sample.today Sample.deal_view
             [("dtf", "0")] "0" 0 Sample.date_filter Sample.epoch_choices
             (-1) "All time" Sample.deals); solve [run | lia].
Defined.

(** A delta of 800000 days is not negative, and [dtf=1] chooses it: the
    deals are not replaced, [OverflowError] is raised. *)
Lemma far_delta_raises_OverflowError :
  Py.int_of_str "1" = Some 1
  /\ Cases.far_choices !! 1%nat = Some (800000, "Ever")
  /\ 0 <= 800000
  /\ getattr Cases.far_view "deals" = Ok (VQuerySet Sample.deals)
  /\ filter_deals_from_params Sample.today Cases.far_view
       (VRequest [("dtf", "1")]) = Err OverflowError
  /\ ~ exists self',
         filter_deals_from_params Sample.today Cases.far_view
           (VRequest [("dtf", "1")]) = Ok self'.
Proof.
  split; [reflexivity|]. split; [reflexivity|]. split; [lia|].
  split; [run|]. split; [run|].
  intros [self' H]. vm_compute in H. discriminate.
Qed.

(** [dtf=2]: the deals of the last month. *)
Lemma date_filter_keeps_deals_witness :
  exists self' q',
    filter_deals_from_params Sample.today Sample.deal_view
      (VRequest [("dtf", "2")]) = Ok self'
    /\ getattr self' "deals" = Ok (VQuerySet q')
    /\ q' = List.filter
              (fun x => Sample.today - 30 <? date_last_modified x)
              Sample.deals
    /\ forall x, In x q' <->
                 In x Sample.deals
                 /\ Sample.today - 30 < date_last_modified x.
Proof.
  apply (date_filter_keeps_deals_modified_after Sample.today Sample.deal_view
           [("dtf", "2")] "2" 2 Sample.date_filter Sample.epoch_choices
           30 "Last month" Sample.deals); solve [run | lia].
Defined.

(** No [dtf], [dtf=soon], a [dtf] that starts with the separator U+001C
    and [dtf=3] leave the sample listing alone. *)
Lemma filter_deals_from_params_noop_witness :
  filter_deals_from_params Sample.today Sample.deal_view (VRequest [])
  = Ok Sample.deal_view
  /\ filter_deals_from_params Sample.today Sample.deal_view
       (VRequest [("dtf", "soon")]) = Ok Sample.deal_view
  /\ filter_deals_from_params Sample.today Sample.deal_view
       (VRequest [("dtf", Cases.after_separator)]) = Ok Sample.deal_view
  /\ filter_deals_from_params Sample.today Sample.deal_view
       (VRequest [("dtf", "3")]) = Ok Sample.deal_view.
Proof.
  split; [|split; [|split]].
  - apply filter_deals_from_params_noop. left. reflexivity.
  - apply filter_deals_from_params_noop. right; left.
    exists "soon". split; reflexivity.
  - apply filter_deals_from_params_noop. right; left.
    exists Cases.after_separator. split; reflexivity.
  - apply filter_deals_from_params_noop. right; right.
    exists "3", 3, Sample.date_filter, Sample.epoch_choices.
    repeat split; try run. right. simpl. lia.
Defined.



(** The category [toys] does not exist. *)
Lemma get_unknown_slug_witness :
  DealCollectionItemsListBaseView_get Sample.engine Sample.today
    Sample.state_choices Sample.deals_filter (Sample.category_view "toys")
    {[ "category_slug" := VStr "toys" ]} = Err (NameError "Http404")
  /\ forall msg,
       DealCollectionItemsListBaseView_get Sample.engine Sample.today
         Sample.state_choices Sample.deals_filter
         (Sample.category_view "toys")
         {[ "category_slug" := VStr "toys" ]} <> Err (Http404 msg).
Proof.
  apply get_unknown_slug_raises_NameError.
  - exists (VDict {[ "category_slug" := VStr "toys" ]}),
      (VStr "category_slug"), (VStr "toys"), Sample.categories.
    repeat split; run.
  - run.
Defined.

(** The sample category view is set up to list deals. *)
Lemma category_food_ready :
  slug_lookup (Sample.category_view "food") [mkRow 1 "food"]
  /\ deal_collection_ready Sample.engine Sample.today Sample.deals_filter
       (Sample.category_view "food") {[ "category_slug" := VStr "food" ]}
       [] Sample.deals.
Proof.
  split.
  - exists (VDict {[ "category_slug" := VStr "food" ]}),
      (VStr "category_slug"), (VStr "food"), Sample.categories.
    repeat split; run.
  - unfold deal_collection_ready.
    split; [run|]. split; [run|]. split; [run|].
    split; [exists Sample.date_filter, Sample.epoch_choices;
            split; [run|split; run]|].
    split; [exists (VInt 15), (VInt 2), 15, 2; repeat split; run|].
    split; [run|]. split; [exact sample_snippet|].
    split; [|run].
    exists (VStr "deals/deal_list_base.html"). split; [run|exact sample_page].
Qed.

(** The category [food] exists. *)
Lemma get_returns_None_witness :
  exists rendered template s6 self',
    render_deal_list Sample.engine Sample.today
      (before_do_render (Sample.category_view "food") (mkRow 1 "food")
         Sample.deals)
      (VRequest [])
      [ ("deals", VQuerySet Sample.deals); ("title", VStr "some title");
        ("description", VStr "some desc") ]
    = Ok (rendered, s6)
    /\ getattr (Sample.category_view "food") "template" = Ok template
    /\ do_render Sample.engine Sample.today Sample.state_choices
         (before_do_render (Sample.category_view "food") (mkRow 1 "food")
            Sample.deals)
       = Ok (VHttpResponse template
               (VDict (list_to_map
                  [ ("search_options", VDict (list_to_map
                       [ ("query", VStr "");
                         ("states", VDict (list_to_map
                            [ ("choices", VChoices Sample.state_choices);
                              ("default", VInt 25) ])) ]));
                    ("rendered_deal_list", rendered) ])),
             self')
    /\ getattr self' "rendered_deal_list" = Ok rendered
    /\ same_outside ["rendered_deal_list"; "context"] s6 self'
    /\ DealCollectionItemsListBaseView_get Sample.engine Sample.today
         Sample.state_choices Sample.deals_filter
         (Sample.category_view "food")
         {[ "category_slug" := VStr "food" ]} = Ok (VNone, self').
Proof.
  apply (get_returns_None Sample.engine Sample.today Sample.state_choices
           Sample.deals_filter (Sample.category_view "food")
           {[ "category_slug" := VStr "food" ]} (mkRow 1 "food") []
           Sample.deals); apply category_food_ready.
Defined.

(** ** More on page selection *)

Lemma page_Ok_number ol pp o number page :
  Paginator.page (VPaginator ol pp o) number = Ok page ->
  exists n objs np,
    page = VPage n objs (VPaginator ol pp o)
    /\ Paginator.num_pages (VPaginator ol pp o) = Ok np
    /\ 1 <= n /\ (n <= np \/ n = 1).
Proof.
  unfold Paginator.page. intros H.
  apply bind_Ok in H as (n & Hv & H).
  apply bind_Ok in H as (c & Hc & H).
  apply bind_Ok in H as (objs & Hobjs & H). injection H as <-.
  unfold Paginator.validate_number in Hv.
  destruct (Py.int number) as [k|e]; [|destruct e; discriminate].
  destruct (Z.ltb_spec k 1); [discriminate|].
  apply bind_Ok in Hv as (np & Hnp & Hv).
  exists n, objs, np. split; [reflexivity|split; [assumption|]].
  destruct (Z.ltb_spec np k).
  - destruct (Z.eqb_spec k 1); [|discriminate]. injection Hv as <-. lia.
  - injection Hv as <-. lia.
Qed.

(** The page delivered is always one of the pages of the paginator. *)
Lemma delivered_in_range ol pp o number page :
  pageable (VPaginator ol pp o) = true ->
  delivered (VPaginator ol pp o) number page ->
  exists n objs np,
    page = VPage n objs (VPaginator ol pp o)
    /\ Paginator.num_pages (VPaginator ol pp o) = Ok np
    /\ 1 <= n <= np.
Proof.
  intros Hp Hdel.
  destruct (num_pages_spec ol pp o Hp) as (np & Hnp & Hnp1).
  assert (H : forall v, Paginator.page (VPaginator ol pp o) v = Ok page ->
    exists n objs np,
      page = VPage n objs (VPaginator ol pp o)
      /\ Paginator.num_pages (VPaginator ol pp o) = Ok np
      /\ 1 <= n <= np).
  { intros v Hv.
    destruct (page_Ok_number _ _ _ _ _ Hv) as (n & objs & np' & -> & Hnp' & Hn).
    assert (np' = np) as -> by congruence.
    exists n, objs, np. repeat split; auto; lia. }
  destruct Hdel as [Hd|[[_ Hd]|[_ (k & _ & Hd)]]]; eauto.
Qed.

Section MorePagination.

Variable template_engine : engine_call -> option exn.
Variable today : Z.
Variable STATE_CHOICES : list (Z * string).

(** Whatever page a request asks for, both views return normally and the
    page they hand to the template is one of the pages of the paginator:
    its number lies between 1 and [num_pages]. *)
Theorem delivered_page_exists GET :
  (forall self kwargs self' ol pp o,
     deal_list_ready template_engine today self GET kwargs self' ol pp o ->
     exists rendered n objs np,
       render_deal_list template_engine today self (VRequest GET) kwargs
       = Ok (rendered, self')
       /\ listing_entry rendered "deals_page"
          = Some (VPage n objs (VPaginator ol pp o))
       /\ Paginator.num_pages (VPaginator ol pp o) = Ok np
       /\ 1 <= n <= np)
  /\ (forall self ol pp o,
        collection_ready template_engine self GET ol pp o ->
        exists response n objs np,
          CollectionsBaseView_get template_engine STATE_CHOICES self
          = Ok response
          /\ context_entry response "collections_page"
             = Some (VPage n objs (VPaginator ol pp o))
          /\ Paginator.num_pages (VPaginator ol pp o) = Ok np
          /\ 1 <= n <= np).
Proof.
  split.
  - intros self kwargs self' ol pp o Hready.
    destruct (deal_list_ready_pageable _ _ _ _ _ _ _ _ _ Hready)
      as [Hp Hshow].
    destruct (requested_page_total self' GET Hshow)
      as (number & Hnumber & Hint).
    destruct (delivered_total ol pp o number Hp Hint) as (n & objs & Hdel).
    destruct (delivered_in_range _ _ _ _ _ Hp Hdel)
      as (n' & objs' & np & [= <- <-] & Hnp & Hn).
    destruct (deal_list_ready_delivers template_engine today self GET kwargs
                self' ol pp o number _ Hready Hnumber Hdel)
      as (rendered & _ & _ & _ & Hr & Hentry & _).
    exists rendered, n, objs, np. auto.
  - intros self ol pp o Hready.
    destruct (collection_ready_pageable _ _ _ _ _ _ Hready) as [Hp Hshow].
    destruct (requested_page_total self GET Hshow)
      as (number & Hnumber & Hint).
    destruct (delivered_total ol pp o number Hp Hint) as (n & objs & Hdel).
    destruct (delivered_in_range _ _ _ _ _ Hp Hdel)
      as (n' & objs' & np & [= <- <-] & Hnp & Hn).
    destruct (collection_ready_delivers template_engine STATE_CHOICES self
                GET ol pp o number _ Hready Hnumber Hdel)
      as (response & _ & _ & _ & Hr & Hentry & _).
    exists response, n, objs, np. auto.
Qed.

(** A [pg] parameter that is the number of a page of the paginator makes
    both views deliver that very page. *)
Theorem valid_page_is_delivered GET pg n :
  Py.QueryDict_get GET "pg" = Some pg ->
  Py.int_of_str pg = Some n ->
  (forall self kwargs self' ol pp o np,
     deal_list_ready template_engine today self GET kwargs self' ol pp o ->
     Paginator.num_pages (VPaginator ol pp o) = Ok np ->
     1 <= n <= np ->
     exists rendered page,
       render_deal_list template_engine today self (VRequest GET) kwargs
       = Ok (rendered, self')
       /\ Paginator.page (VPaginator ol pp o) (VInt n) = Ok page
       /\ page_number page = Some n
       /\ listing_entry rendered "deals_page" = Some page)
  /\ (forall self ol pp o np,
        collection_ready template_engine self GET ol pp o ->
        Paginator.num_pages (VPaginator ol pp o) = Ok np ->
        1 <= n <= np ->
        exists response page,
          CollectionsBaseView_get template_engine STATE_CHOICES self
          = Ok response
          /\ Paginator.page (VPaginator ol pp o) (VInt n) = Ok page
          /\ page_number page = Some n
          /\ context_entry response "collections_page" = Some page).
Proof.
  intros Hpg Hint.
  pose proof (int_of_str_nonempty _ _ Hint) as Hne.
  assert (Hpage : forall ol pp o np,
    pageable (VPaginator ol pp o) = true ->
    Paginator.num_pages (VPaginator ol pp o) = Ok np -> 1 <= n <= np ->
    exists page,
      Paginator.page (VPaginator ol pp o) (VInt n) = Ok page
      /\ page_number page = Some n
      /\ delivered (VPaginator ol pp o) (VStr pg) page).
  { intros ol pp o np Hp Hnp Hn.
    destruct (page_in_range ol pp o (VInt n) n np Hp eq_refl Hnp Hn)
      as [objs Hobjs].
    destruct (page_in_range ol pp o (VStr pg) n np Hp) as [objs' Hobjs'];
      auto.
    { simpl. now rewrite Hint. }
    assert (objs' = objs) as ->.
    { unfold Paginator.page, Paginator.validate_number in Hobjs, Hobjs'.
      simpl in Hobjs, Hobjs'. rewrite Hint in Hobjs'. congruence. }
    eexists. split; [eassumption|split; [reflexivity|now left]]. }
  split.
  - intros self kwargs self' ol pp o np Hready Hnp Hn.
    destruct (deal_list_ready_pageable _ _ _ _ _ _ _ _ _ Hready) as [Hp _].
    destruct (Hpage ol pp o np Hp Hnp Hn) as (page & H1 & Hnum & Hdel).
    destruct (deal_list_ready_delivers template_engine today self GET kwargs
                self' ol pp o (VStr pg) page Hready)
      as (rendered & _ & _ & _ & Hr & Hentry & _); auto.
    { now apply requested_page_given. }
    eauto 10.
  - intros self ol pp o np Hready Hnp Hn.
    destruct (collection_ready_pageable _ _ _ _ _ _ Hready) as [Hp _].
    destruct (Hpage ol pp o np Hp Hnp Hn) as (page & H1 & Hnum & Hdel).
    destruct (collection_ready_delivers template_engine STATE_CHOICES self
                GET ol pp o (VStr pg) page Hready)
      as (response & _ & _ & _ & Hr & Hentry & _); auto.
    { now apply requested_page_given. }
    eauto 10.
Qed.

(** Without a [pg] parameter both views ask the paginator for the view's
    [show_page_num]; when that is a page [n] of the paginator, page [n] is
    delivered. *)
Theorem missing_page_parameter_uses_show_page_num GET :
  Py.QueryDict_get GET "pg" = None ->
  (forall self kwargs self' ol pp o show n np,
     deal_list_ready template_engine today self GET kwargs self' ol pp o ->
     getattr self' "show_page_num" = Ok show ->
     Py.int show = Ok n ->
     Paginator.num_pages (VPaginator ol pp o) = Ok np ->
     1 <= n <= np ->
     exists rendered page,
       render_deal_list template_engine today self (VRequest GET) kwargs
       = Ok (rendered, self')
       /\ Paginator.page (VPaginator ol pp o) show = Ok page
       /\ page_number page = Some n
       /\ listing_entry rendered "deals_page" = Some page)
  /\ (forall self ol pp o show n np,
        collection_ready template_engine self GET ol pp o ->
        getattr self "show_page_num" = Ok show ->
        Py.int show = Ok n ->
        Paginator.num_pages (VPaginator ol pp o) = Ok np ->
        1 <= n <= np ->
        exists response page,
          CollectionsBaseView_get template_engine STATE_CHOICES self
          = Ok response
          /\ Paginator.page (VPaginator ol pp o) show = Ok page
          /\ page_number page = Some n
          /\ context_entry response "collections_page" = Some page).
Proof.
  intros Hpg. split.
  - intros self kwargs self' ol pp o show n np Hready Hshow Hint Hnp Hn.
    destruct (deal_list_ready_pageable _ _ _ _ _ _ _ _ _ Hready) as [Hp _].
    destruct (page_in_range ol pp o show n np Hp Hint Hnp Hn)
      as [objs Hobjs].
    destruct (deal_list_ready_delivers template_engine today self GET kwargs
                self' ol pp o show (VPage n objs (VPaginator ol pp o)) Hready)
      as (rendered & _ & _ & _ & Hr & Hentry & _).
    { rewrite requested_page_default; auto. }
    { left. eassumption. }
    eauto 10.
  - intros self ol pp o show n np Hready Hshow Hint Hnp Hn.
    destruct (collection_ready_pageable _ _ _ _ _ _ Hready) as [Hp _].
    destruct (page_in_range ol pp o show n np Hp Hint Hnp Hn)
      as [objs Hobjs].
    destruct (collection_ready_delivers template_engine STATE_CHOICES self
                GET ol pp o show (VPage n objs (VPaginator ol pp o)) Hready)
      as (response & _ & _ & _ & Hr & Hentry & _).
    { rewrite requested_page_default; auto. }
    { left. eassumption. }
    eauto 10.
Qed.

(** With a page size of zero every page request divides by zero, also
    inside the two handlers. *)
Lemma page_size_zero ol o c :
  Py.len ol = Ok c -> c - o < Py.float_exact ->
  Paginator.num_pages (VPaginator ol 0 o) = Err ZeroDivisionError
  /\ forall number,
       Py.int number <> Err Unmodelled ->
       Paginator.page (VPaginator ol 0 o) number = Err PageNotAnInteger
       \/ Paginator.page (VPaginator ol 0 o) number = Err EmptyPage
       \/ Paginator.page (VPaginator ol 0 o) number = Err ZeroDivisionError.
Proof.
  intros Hc Hhits.
  assert (Hnp : Paginator.num_pages (VPaginator ol 0 o)
                = Err ZeroDivisionError).
  { unfold Paginator.num_pages. rewrite Hc. cbn [bind].
    pose proof float_exact_overflow. pose proof float_exact_pos.
    destruct (Z.leb_spec Py.float_overflow (Z.abs 0)); [lia|].
    destruct (Z.leb_spec Py.float_overflow (Z.max 1 (c - o))); [lia|].
    reflexivity. }
  split; [assumption|]. intros number Hint.
  unfold Paginator.page, Paginator.validate_number.
  destruct (Py.int number) as [n|e];
    [|destruct e; solve [now left | congruence]].
  destruct (Z.ltb_spec n 1); [right; now left|].
  rewrite Hnp. right; now right.
Qed.

(** A page size of zero is not one of the two conditions the views catch:
    whatever the request asks for, [ZeroDivisionError] escapes from
    [render_deal_list] and from [CollectionsBaseView.get], once the
    overrides and the date filter have run and the template of the
    collection has loaded. *)
Theorem zero_page_size_raises GET :
  (forall self kwargs self' ol o c,
     legal kwargs = true ->
     prepared today self GET kwargs = Ok self' ->
     paginator_of self' "deals" = Ok (VPaginator ol 0 o) ->
     Py.len ol = Ok c -> c - o < Py.float_exact ->
     numbered self' = true ->
     render_deal_list template_engine today self (VRequest GET) kwargs
     = Err ZeroDivisionError)
  /\ (forall self tpl ol o c,
        template_engine Engine_get_default = None ->
        getattr self "template" = Ok tpl ->
        template_engine (Engine_get_template tpl) = None ->
        getattr self "request" = Ok (VRequest GET) ->
        paginator_of self "queryset" = Ok (VPaginator ol 0 o) ->
        Py.len ol = Ok c -> c - o < Py.float_exact ->
        numbered self = true ->
        CollectionsBaseView_get template_engine STATE_CHOICES self
        = Err ZeroDivisionError).
Proof.
  assert (Hhandlers : forall ol o c number
                             (k : value -> result (value * View)),
    Py.int number <> Err Unmodelled ->
    Py.len ol = Ok c -> c - o < Py.float_exact ->
    (deals_page <-
       match Paginator.page (VPaginator ol 0 o) number with
       | Err PageNotAnInteger => Paginator.page (VPaginator ol 0 o) (VInt 1)
       | Err EmptyPage =>
           num_pages <- Paginator.num_pages (VPaginator ol 0 o) ;;
           Paginator.page (VPaginator ol 0 o) (VInt num_pages)
       | r => r
       end ;;
     k deals_page) = Err ZeroDivisionError).
  { intros ol o c number k Hint Hc Hhits.
    destruct (page_size_zero ol o c Hc Hhits) as [Hnp Hpage].
    assert (H1 : Paginator.page (VPaginator ol 0 o) (VInt 1)
                 = Err ZeroDivisionError).
    { unfold Paginator.page, Paginator.validate_number. simpl.
      now rewrite Hnp. }
    destruct (Hpage number Hint) as [ -> | [ -> | -> ] ]; cbv beta iota;
      rewrite ?H1, ?Hnp; reflexivity. }
  assert (Hhandlers' : forall ol o c number (k : value -> result value),
    Py.int number <> Err Unmodelled ->
    Py.len ol = Ok c -> c - o < Py.float_exact ->
    (collections_page <-
       match Paginator.page (VPaginator ol 0 o) number with
       | Err PageNotAnInteger => Paginator.page (VPaginator ol 0 o) (VInt 1)
       | Err EmptyPage =>
           num_pages <- Paginator.num_pages (VPaginator ol 0 o) ;;
           Paginator.page (VPaginator ol 0 o) (VInt num_pages)
       | r => r
       end ;;
     k collections_page) = Err ZeroDivisionError).
  { intros ol o c number k Hint Hc Hhits.
    destruct (page_size_zero ol o c Hc Hhits) as [Hnp Hpage].
    assert (H1 : Paginator.page (VPaginator ol 0 o) (VInt 1)
                 = Err ZeroDivisionError).
    { unfold Paginator.page, Paginator.validate_number. simpl.
      now rewrite Hnp. }
    destruct (Hpage number Hint) as [ -> | [ -> | -> ] ]; cbv beta iota;
      rewrite ?H1, ?Hnp; reflexivity. }
  split.
  - intros self kwargs self' ol o c Hlegal Hprep Hpag Hc Hhits Hshow.
    apply prepared_Ok in Hprep as (self0 & Hov & Hmeth & Hfilter).
    apply paginator_of_Ok in Hpag as (n & m & Hol & Hn & Hm & Hmake).
    destruct (requested_page_total self' GET Hshow)
      as (number & Hnumber & Hint).
    unfold render_deal_list. rewrite Hlegal, Hov. cbn [bind].
    rewrite Hmeth. cbn [bind]. rewrite Hfilter. cbn [bind].
    autorewrite with globals. cbn [bind].
    rewrite Hol. cbn [bind]. rewrite Hn. cbn [bind]. rewrite Hm. cbn [bind].
    rewrite Hmake. cbn [bind Py.request_GET].
    unfold requested_page in Hnumber. rewrite Hnumber. cbn [bind].
    now apply Hhandlers with (c := c).
  - intros self tpl ol o c Hdefault Htpl Hload Hreq Hpag Hc Hhits Hshow.
    apply paginator_of_Ok in Hpag as (n & m & Hol & Hn & Hm & Hmake).
    destruct (requested_page_total self GET Hshow)
      as (number & Hnumber & Hint).
    unfold CollectionsBaseView_get.
    autorewrite with globals. cbn [bind].
    rewrite (engine_None _ _ Hdefault). cbn [bind]. rewrite Htpl. cbn [bind].
    rewrite (engine_None _ _ Hload). cbn [bind].
    autorewrite with globals. cbn [bind].
    rewrite Hol. cbn [bind]. rewrite Hn. cbn [bind]. rewrite Hm. cbn [bind].
    rewrite Hmake. cbn [bind]. rewrite Hreq. cbn [bind Py.request_GET].
    unfold requested_page in Hnumber. rewrite Hnumber. cbn [bind].
    now apply Hhandlers' with (c := c).
Qed.

End MorePagination.

(** ** More on the date filter *)

Section MoreDateFilter.

Variable today : Z.

Lemma chosen_frame self d self' :
  chosen today self d = Ok self' ->
  same_outside ["deals"; "date_filter"] self self'.
Proof.
  intros H. apply chosen_Ok in H as (self1 & H1 & Hset).
  apply (same_outside_trans ["deals"] ["date_filter"] self self1 self').
  - destruct H1 as [[_ ->]|[_ [_ (q & _ & Hq)]]];
      [apply same_outside_refl|].
    now apply setattr_same_outside in Hq.
  - now apply setitem_same_outside in Hset.
Qed.

Lemma filter_deals_from_params_frame self request self' :
  filter_deals_from_params today self request = Ok self' ->
  same_outside ["deals"; "date_filter"] self self'.
Proof.
  intros H.
  destruct (filter_deals_from_params_Ok _ _ _ _ H)
    as [->|(GET & s & i & m & cs & d & label & -> & Hs & Hint & Hdf & Hcs
            & Hi & Hlook)]; [apply same_outside_refl|].
  rewrite (filter_deals_from_params_index today self GET s i m cs d label)
    in H by assumption.
  now apply chosen_frame in H.
Qed.

(** The deals a run of the date filter leaves: those it found, or those
    of them modified after [today - d] for a delta [d] other than -1. *)
Lemma filter_deals_from_params_deals self request self' q :
  getattr self "deals" = Ok (VQuerySet q) ->
  filter_deals_from_params today self request = Ok self' ->
  getattr self' "deals" = Ok (VQuerySet q)
  \/ exists d,
       d <> -1
       /\ getattr self' "deals"
          = Ok (VQuerySet
                  (List.filter
                     (fun x => today - d <? date_last_modified x) q)).
Proof.
  intros Hdeals H.
  destruct (filter_deals_from_params_Ok _ _ _ _ H)
    as [->|(GET & s & i & m & cs & d & label & -> & Hs & Hint & Hdf & Hcs
            & Hi & Hlook)]; [now left|].
  rewrite (filter_deals_from_params_index today self GET s i m cs d label)
    in H by assumption.
  apply chosen_Ok in H as (self1 & H1 & Hset).
  assert (Hkeep : getattr self' "deals" = getattr self1 "deals").
  { apply (same_outside_getattr _ _ _ _ (setitem_same_outside _ _ _ _ _ Hset)).
    rewrite not_elem_of_cons. split; [discriminate|apply not_elem_of_nil]. }
  rewrite Hkeep.
  destruct H1 as [[_ ->]|[Hd [_ (q0 & Hq0 & Hq)]]]; [now left|].
  assert (q0 = q) as -> by congruence.
  right. exists d. split; [assumption|].
  now apply getattr_setattr_eq in Hq.
Qed.

(** A run of [filter_deals_from_params] that returns changes no attribute
    of the view other than [deals] and [date_filter], on the instance and
    on the class alike, and no key of the date filter other than
    [default]. *)
Theorem date_filter_changes_deals_and_default_only self request self' :
  filter_deals_from_params today self request = Ok self' ->
  same_outside ["deals"; "date_filter"] self self'
  /\ forall m,
       getattr self "date_filter" = Ok (VDict m) ->
       exists m',
         getattr self' "date_filter" = Ok (VDict m')
         /\ forall k, k <> "default" -> m' !! k = m !! k.
Proof.
  intros H.
  destruct (filter_deals_from_params_Ok _ _ _ _ H)
    as [->|(GET & s & i & m & cs & d & label & -> & Hs & Hint & Hdf & Hcs
            & Hi & Hlook)].
  { split; [apply same_outside_refl|]. intros m Hm. exists m. auto. }
  rewrite (filter_deals_from_params_index today self GET s i m cs d label)
    in H by assumption.
  split; [now apply chosen_frame in H|].
  apply chosen_Ok in H as (self1 & H1 & Hset).
  assert (Hframe1 : same_outside ["deals"] self self1).
  { destruct H1 as [[_ ->]|[_ [_ (q & _ & Hq)]]];
      [apply same_outside_refl|now apply setattr_same_outside in Hq]. }
  intros m0 Hm0. assert (m0 = m) as -> by congruence.
  destruct (setitem_spec _ _ _ _ _ Hset) as (dd & Hdd & Hdd' & _).
  assert (Hdf1 : getattr self1 "date_filter" = Ok (VDict m)).
  { rewrite <- Hdf. apply (same_outside_getattr _ _ _ _ Hframe1).
    rewrite not_elem_of_cons. split; [discriminate|apply not_elem_of_nil]. }
  assert (dd = m) as -> by congruence.
  eexists. split; [eassumption|].
  intros k Hk. now rewrite lookup_insert_ne by congruence.
Qed.

(** The date filter only ever narrows the deals: after a run that returns,
    the deals of the view are a sublist of what they were. *)
Theorem date_filter_narrows_deals self request self' q :
  getattr self "deals" = Ok (VQuerySet q) ->
  filter_deals_from_params today self request = Ok self' ->
  exists q',
    getattr self' "deals" = Ok (VQuerySet q') /\ sublist q' q.
Proof.
  intros Hdeals H.
  destruct (filter_deals_from_params_deals _ _ _ _ Hdeals H)
    as [Hsame|(d & _ & Hfiltered)].
  - exists q. split; [assumption|reflexivity].
  - eexists. split; [eassumption|apply filter_sublist].
Qed.

(** Running the date filter a second time on the same request changes
    nothing more: the view it returned is returned again. *)
Theorem date_filter_idempotent self request self' :
  filter_deals_from_params today self request = Ok self' ->
  filter_deals_from_params today self' request = Ok self'.
Proof.
  intros H.
  destruct (filter_deals_from_params_Ok _ _ _ _ H)
    as [->|(GET & s & i & m & cs & d & label & -> & Hs & Hint & Hdf & Hcs
            & Hi & Hlook)]; [assumption|].
  rewrite (filter_deals_from_params_index today self GET s i m cs d label)
    in H by assumption.
  apply chosen_Ok in H as (self1 & H1 & Hset).
  assert (Hframe1 : same_outside ["deals"] self self1).
  { destruct H1 as [[_ ->]|[_ [_ (q & _ & Hq)]]];
      [apply same_outside_refl|now apply setattr_same_outside in Hq]. }
  assert (Hdf1 : getattr self1 "date_filter" = Ok (VDict m)).
  { rewrite <- Hdf. apply (same_outside_getattr _ _ _ _ Hframe1).
    rewrite not_elem_of_cons. split; [discriminate|apply not_elem_of_nil]. }
  destruct (setitem_spec _ _ _ _ _ Hset) as (dd & Hdd & Hdd' & _).
  assert (dd = m) as -> by congruence.
  rewrite (filter_deals_from_params_index today self' GET s i
             (<["default" := VInt d]> m) cs d label); auto.
  2:{ now rewrite lookup_insert_ne by discriminate. }
  pose proof (setitem_same_outside _ _ _ _ _ Hset) as Hframe2.
  assert (Hnot : "deals" ∉ ["date_filter"]).
  { rewrite not_elem_of_cons. split; [discriminate|apply not_elem_of_nil]. }
  unfold chosen.
  destruct H1 as [[-> ->]|[Hd [Happ (q & Hq0 & Hq)]]].
  - change (negb (-1 =? -1)) with false. cbn [bind].
    exact (setitem_twice _ _ _ _ _ Hset).
  - destruct (Z.eqb_spec d (-1)); [contradiction|]. cbn [negb].
    destruct (applicable_date today d Happ Hd) as [Hdelta Hdate].
    autorewrite with globals. cbn [bind]. rewrite Hdelta. cbn [bind].
    rewrite Hdate. cbn [bind].
    rewrite (same_outside_getattr _ _ _ _ Hframe2 Hnot).
    rewrite (getattr_setattr_eq _ _ "deals" _ eq_refl Hq). cbn [bind].
    unfold filter_date_last_modified__gt. rewrite filter_filter. cbn [bind].
    assert (Hself' : setattr self' "deals"
                       (VQuerySet
                          (List.filter
                             (fun x => today - d <? date_last_modified x) q))
                     = Ok self').
    { rewrite setattr_plain by reflexivity. f_equal.
      assert (Hi' : inst self' !! "deals"
                    = Some (VQuerySet
                              (List.filter
                                 (fun x => today - d <? date_last_modified x)
                                 q))).
      { destruct (Hframe2 "deals" Hnot) as [-> _].
        now apply inst_setattr_eq in Hq. }
      destruct self' as [c i']. simpl in *. f_equal. now apply insert_id. }
    rewrite Hself'. cbn [bind]. exact (setitem_twice _ _ _ _ _ Hset).
Qed.

(** The date filter of the class is one dictionary for every view of the
    class: when a view has no [date_filter] of its own, the default chosen
    by one request is written into the class and is what any other view of
    the class reads afterwards. *)
Theorem class_level_date_filter_is_shared self GET s i m cs d label q :
  Py.QueryDict_get GET "dtf" = Some s ->
  Py.int_of_str s = Some i ->
  getattr self "date_filter" = Ok (VDict m) ->
  m !! "choices" = Some (VChoices cs) ->
  0 <= i -> cs !! Z.to_nat i = Some (d, label) ->
  applicable today d = true ->
  getattr self "deals" = Ok (VQuerySet q) ->
  inst self !! "date_filter" = None ->
  exists self',
    filter_deals_from_params today self (VRequest GET) = Ok self'
    /\ inst self' !! "date_filter" = None
    /\ forall other : gmap string value,
         other !! "date_filter" = None ->
         getattr (mkView (cls self') other) "date_filter"
         = Ok (VDict (<["default" := VInt d]> m)).
Proof.
  intros Hs Hint Hdf Hcs Hi Hlook Happ Hdeals Hown.
  destruct (filter_deals_from_params_valid today self GET s i m cs d label q)
    as (self' & Hf & _); auto.
  exists self'. split; [assumption|].
  rewrite (filter_deals_from_params_index today self GET s i m cs d label)
    in Hf by assumption.
  apply chosen_Ok in Hf as (self1 & H1 & Hset).
  assert (Hown1 : inst self1 !! "date_filter" = None
                  /\ getattr self1 "date_filter" = Ok (VDict m)).
  { destruct H1 as [[_ ->]|[_ [_ (q0 & _ & Hq)]]]; [auto|].
    split.
    - now rewrite (inst_setattr_ne _ _ "deals" _ _ eq_refl Hq) by discriminate.
    - now rewrite (getattr_setattr_ne _ _ "deals" _ _ eq_refl Hq) by discriminate. }
  destruct Hown1 as [Hown1 Hdf1].
  destruct (setitem_spec _ _ _ _ _ Hset)
    as (dd & Hdd & _ & [[Hi1 _]|[_ ->]]); [congruence|].
  assert (dd = m) as -> by congruence.
  simpl. split; [assumption|].
  intros other Hother. unfold getattr. simpl.
  now rewrite Hother, lookup_insert_eq.
Qed.

(** Only -1 stands for "no restriction".  Any other delta that is not
    positive - zero included - asks for deals modified after today or
    later, so deals dated today or earlier are all dropped. *)
Theorem non_positive_delta_drops_past_deals self GET s i m cs d label q :
  Py.QueryDict_get GET "dtf" = Some s ->
  Py.int_of_str s = Some i ->
  getattr self "date_filter" = Ok (VDict m) ->
  m !! "choices" = Some (VChoices cs) ->
  0 <= i -> cs !! Z.to_nat i = Some (d, label) ->
  d <= 0 -> d <> -1 ->
  applicable today d = true ->
  getattr self "deals" = Ok (VQuerySet q) ->
  Forall (fun x => date_last_modified x <= today) q ->
  exists self',
    filter_deals_from_params today self (VRequest GET) = Ok self'
    /\ getattr self' "deals" = Ok (VQuerySet []).
Proof.
  intros Hs Hint Hdf Hcs Hi Hlook Hd Hd1 Happ Hdeals Hpast.
  destruct (filter_deals_from_params_valid today self GET s i m cs d label q)
    as (self' & Hf & _ & Hq & _); auto.
  exists self'. split; [assumption|]. rewrite Hq.
  destruct (Z.eqb_spec d (-1)); [contradiction|].
  do 2 f_equal. clear -Hpast Hd.
  induction Hpast as [|x l Hx _ IH]; simpl; [reflexivity|].
  destruct (Z.ltb_spec (today - d) (date_last_modified x)); [lia|assumption].
Qed.

(** A choice whose delta leads to no day of the calendar - more than
    999999999 days, or a day before the year 1 or after the year 9999 -
    cannot be applied: the date filter raises [OverflowError], before it
    touches the deals or the default. *)
Theorem out_of_calendar_delta_raises self GET s i m cs d label :
  Py.QueryDict_get GET "dtf" = Some s ->
  Py.int_of_str s = Some i ->
  getattr self "date_filter" = Ok (VDict m) ->
  m !! "choices" = Some (VChoices cs) ->
  0 <= i -> cs !! Z.to_nat i = Some (d, label) ->
  applicable today d = false ->
  filter_deals_from_params today self (VRequest GET) = Err OverflowError.
Proof.
  intros Hs Hint Hdf Hcs Hi Hlook Happ.
  rewrite (filter_deals_from_params_index today self GET s i m cs d label)
    by assumption.
  unfold applicable in Happ. apply orb_false_iff in Happ as [Hd Happ].
  unfold chosen. rewrite Hd. cbn [negb].
  autorewrite with globals. cbn [bind].
  unfold Py.timedelta, Py.date_sub.
  destruct (Z.abs d <=? 999999999); [|reflexivity].
  cbn [andb] in Happ. cbn [bind]. cbv zeta. now rewrite Happ.
Qed.

End MoreDateFilter.

(** ** More on rendering the deal list *)

Section MoreRendering.

Variable template_engine : engine_call -> option exn.
Variable today : Z.
Variable STATE_CHOICES : list (Z * string).

(** A listing that is ready is rendered: the fragment template, from a
    page of the paginator and the attributes of the view. *)
Lemma deal_list_ready_runs self GET kwargs self' ol pp o :
  deal_list_ready template_engine today self GET kwargs self' ol pp o ->
  exists n objs c desc zim df t pbu,
    getattr self' "date_filter" = Ok df
    /\ getattr self' "title" = Ok t
    /\ render_deal_list template_engine today self (VRequest GET) kwargs
       = Ok (VTemplateString (VStr "snippet_deal_listing.html")
               (VDict {[ "listing" := VDict (list_to_map
                  [ ("deals_page", VPage n objs (VPaginator ol pp o));
                    ("date_filter", df);
                    ("title", t);
                    ("description", if c =? 0 then zim else desc);
                    ("pagination_base_url", pbu) ]) ]}),
             self').
Proof.
  intros Hready.
  destruct (deal_list_ready_pageable _ _ _ _ _ _ _ _ _ Hready) as [Hp Hshow].
  destruct Hready as (Hlegal & Hprep & Hpag & _ & Hattrs & Hrenders & _).
  destruct (pageable_spec _ _ _ Hp) as (_ & _ & c & Hc & _).
  cbn [forallb] in Hattrs. rewrite !andb_true_iff in Hattrs.
  destruct Hattrs as (_ & Hdesc & Hzim & Hdf & Ht & Hpbu & _).
  apply hasattr_Ok in Hdesc as [desc Hdesc], Hzim as [zim Hzim],
    Hdf as [df Hdf], Ht as [t Ht], Hpbu as [pbu Hpbu].
  destruct (requested_page_total self' GET Hshow)
      as (number & Hnumber & Hint).
  destruct (delivered_total ol pp o number Hp Hint) as (n & objs & Hdel).
  exists n, objs, c, desc, zim, df, t, pbu.
  split; [assumption|]. split; [assumption|].
  eapply render_deal_list_delivers; eassumption.
Qed.

Lemma legal_NoDup kwargs : legal kwargs = true -> NoDup kwargs.*1.
Proof.
  unfold legal. rewrite !andb_true_iff.
  intros [[H _] _]. now apply bool_decide_eq_true in H.
Qed.

(** Overrides are written onto the view and stay there: after the call
    every overridden attribute other than the deals and the date filter
    still holds the value passed, and a [title] passed by keyword is the
    title of the listing. *)
Theorem overrides_stay_on_the_view self GET kwargs self' ol pp o :
  plain kwargs = true ->
  deal_list_ready template_engine today self GET kwargs self' ol pp o ->
  exists rendered,
    render_deal_list template_engine today self (VRequest GET) kwargs
    = Ok (rendered, self')
    /\ (forall k x, (k, x) ∈ kwargs ->
          k <> "deals" -> k <> "date_filter" -> getattr self' k = Ok x)
    /\ (forall t, ("title", t) ∈ kwargs ->
          listing_entry rendered "title" = Some t).
Proof.
  intros Hplain Hready.
  destruct (deal_list_ready_runs _ _ _ _ _ _ _ Hready)
    as (n & objs & c & desc & zim & df & t & pbu & _ & Htitle & Hr).
  destruct Hready as (Hlegal & Hprep & _).
  apply prepared_Ok in Hprep as (self0 & Hov & _ & Hfilter).
  pose proof (legal_NoDup _ Hlegal) as Hnd.
  rewrite apply_overrides_plain in Hov by assumption. injection Hov as <-.
  pose proof (filter_deals_from_params_frame today _ _ _ Hfilter) as Hframe.
  assert (Hkept : forall k x, (k, x) ∈ kwargs ->
    k <> "deals" -> k <> "date_filter" -> getattr self' k = Ok x).
  { intros k x Hk H1 H2.
    rewrite (same_outside_getattr _ _ _ _ Hframe).
    - unfold getattr. cbn [inst cls].
      apply (elem_of_list_to_map_1 _ _ _ Hnd) in Hk.
      now rewrite (lookup_union_Some_l _ _ _ _ Hk).
    - rewrite !not_elem_of_cons. auto using not_elem_of_nil. }
  eexists. split; [exact Hr|split; [assumption|]].
  intros t' Ht'. rewrite (Hkept "title" t' Ht') in Htitle by discriminate.
  injection Htitle as <-. reflexivity.
Qed.

(** The overrides come first, the date filter second: deals passed by
    keyword are what the date filter narrows and the paginator slices. *)
Theorem date_filter_applies_to_overridden_deals
    self GET kwargs self0 self' ol pp o s i m cs d label q :
  plain kwargs = true ->
  deal_list_ready template_engine today self GET kwargs self' ol pp o ->
  ("deals", VQuerySet q) ∈ kwargs ->
  Py.QueryDict_get GET "dtf" = Some s ->
  Py.int_of_str s = Some i ->
  apply_overrides self kwargs = Ok self0 ->
  getattr self0 "date_filter" = Ok (VDict m) ->
  m !! "choices" = Some (VChoices cs) ->
  0 <= i -> cs !! Z.to_nat i = Some (d, label) ->
  d <> -1 ->
  ol = VQuerySet (List.filter (fun x => today - d <? date_last_modified x) q)
  /\ exists rendered n objs,
       render_deal_list template_engine today self (VRequest GET) kwargs
       = Ok (rendered, self')
       /\ listing_entry rendered "deals_page"
          = Some (VPage n objs (VPaginator ol pp o)).
Proof.
  intros Hplain Hready Hdeals Hs Hint Hov Hdf Hcs Hi Hlook Hd.
  split.
  2:{ destruct (deal_list_ready_runs _ _ _ _ _ _ _ Hready)
        as (n & objs & c & desc & zim & df & t & pbu & _ & _ & Hr).
      eexists _, n, objs. split; [exact Hr|reflexivity]. }
  destruct Hready as (Hlegal & Hprep & Hpag & _).
  apply prepared_Ok in Hprep as (self0' & Hov' & _ & Hfilter).
  assert (self0' = self0) as -> by congruence.
  pose proof (legal_NoDup _ Hlegal) as Hnd.
  rewrite apply_overrides_plain in Hov by assumption. injection Hov as <-.
  assert (Hq : getattr (mkView (cls self) (list_to_map kwargs ∪ inst self))
                 "deals" = Ok (VQuerySet q)).
  { unfold getattr. cbn [inst cls].
    apply (elem_of_list_to_map_1 _ _ _ Hnd) in Hdeals.
    now rewrite (lookup_union_Some_l _ _ _ _ Hdeals). }
  rewrite (filter_deals_from_params_index today _ GET s i m cs d label)
    in Hfilter by assumption.
  apply chosen_Ok in Hfilter
    as (self1 & [[-> _]|(_ & _ & q0 & Hq0 & Hset1)] & Hset);
    [contradiction|].
  assert (q0 = q) as -> by congruence.
  apply paginator_of_Ok in Hpag as (n & m' & Hol & _).
  rewrite (same_outside_getattr _ _ _ _
             (setitem_same_outside _ _ _ _ _ Hset)) in Hol.
  2:{ rewrite not_elem_of_cons. split; [discriminate|apply not_elem_of_nil]. }
  rewrite (getattr_setattr_eq _ _ "deals" _ eq_refl Hset1) in Hol.
  now injection Hol.
Qed.

(** A keyword that names a method of the view hides the method: with a
    value that cannot be called under [filter_deals_from_params], the call
    that follows the overrides raises [TypeError]. *)
Theorem override_can_hide_a_method self request kwargs x :
  legal kwargs = true ->
  plain kwargs = true ->
  ("filter_deals_from_params", x) ∈ kwargs ->
  callable x = false ->
  render_deal_list template_engine today self request kwargs = Err TypeError.
Proof.
  intros Hlegal Hplain Hx Hcall.
  pose proof (legal_NoDup _ Hlegal) as Hnd.
  unfold render_deal_list. rewrite Hlegal.
  rewrite apply_overrides_plain by assumption. cbn [bind].
  assert (Hm : method (mkView (cls self) (list_to_map kwargs ∪ inst self))
                 "filter_deals_from_params" = Err TypeError).
  { unfold method, getattr. cbn [inst cls].
    apply (elem_of_list_to_map_1 _ _ _ Hnd) in Hx.
    rewrite (lookup_union_Some_l _ _ _ _ Hx). now rewrite Hcall. }
  now rewrite Hm.
Qed.

End MoreRendering.

(** ** More on the deals of a collection item *)

Section MoreCollectionItems.

Variable template_engine : engine_call -> option exn.
Variable today : Z.
Variable STATE_CHOICES : list (Z * string).
Variable Deal_objects_filter : gmap string value -> result (list Deal).

(** When exactly one record of the model carries the slug,
    [get_queryset] returns that record, which does carry the slug, and
    stores it as [self.queryset]; nothing else on the view changes. *)
Theorem get_queryset_returns_the_record self s rows row :
  getattr self "model" = Ok (VModel rows) ->
  List.filter (slug_is (VStr s)) rows = [row] ->
  exists self',
    get_queryset self (VStr s) = Ok (VInstance row, self')
    /\ row_slug row = s
    /\ In row rows
    /\ getattr self' "queryset" = Ok (VInstance row)
    /\ same_outside ["queryset"] self self'.
Proof.
  intros Hmodel Hrows.
  assert (Hin : In row (List.filter (slug_is (VStr s)) rows))
    by (rewrite Hrows; now left).
  apply List.filter_In in Hin as [Hin Hslug]. simpl in Hslug.
  apply String.eqb_eq in Hslug.
  pose proof (setattr_plain self "queryset" (VInstance row) eq_refl) as Hset.
  eexists. unfold get_queryset. rewrite Hmodel. cbn [bind].
  unfold objects_get. rewrite Hrows. cbn [bind]. rewrite Hset. cbn [bind].
  rewrite getattr_insert_eq. cbn [bind].
  split; [reflexivity|]. split; [assumption|]. split; [assumption|].
  split; [apply getattr_insert_eq|].
  exact (setattr_same_outside self "queryset" _ _ eq_refl Hset).
Qed.

(** [get] handles [DoesNotExist] only: when more than one record carries
    the slug, [MultipleObjectsReturned] passes through [get] as it is. *)
Theorem get_duplicate_slug_raises self kwargs r1 r2 rest :
  slug_lookup self (r1 :: r2 :: rest) ->
  method self "get_queryset" = Ok tt ->
  DealCollectionItemsListBaseView_get template_engine today STATE_CHOICES
    Deal_objects_filter self kwargs = Err MultipleObjectsReturned.
Proof.
  intros (kw & slug_name & slug & rows & Hkw & Hsn & Hslug & Hmodel & Hrows)
         Hmeth.
  unfold DealCollectionItemsListBaseView_get.
  rewrite Hkw. cbn [bind]. rewrite Hsn. cbn [bind]. rewrite Hslug.
  cbn [bind]. rewrite Hmeth. cbn [bind]. unfold get_queryset.
  rewrite Hmodel. cbn [bind]. unfold objects_get. rewrite Hrows.
  reflexivity.
Qed.

(** A view whose [model] is no model - the empty string of the class, for
    one - cannot look anything up: unless a callable attribute stands in
    for [get_queryset], [get] raises [AttributeError], from the lookup and
    again from the [except] clause that names [self.model.DoesNotExist]. *)
Theorem get_without_model_raises self kwargs kw slug_name slug model :
  getattr self "kwargs" = Ok kw ->
  getattr self "slug_name" = Ok slug_name ->
  dict_get_key kw slug_name = Ok slug ->
  getattr self "model" = Ok model ->
  (forall rows, model <> VModel rows) ->
  (forall x, getattr self "get_queryset" = Ok x -> callable x = false) ->
  DealCollectionItemsListBaseView_get template_engine today STATE_CHOICES
    Deal_objects_filter self kwargs = Err AttributeError.
Proof.
  intros Hkw Hsn Hslug Hmodel Hno Hcall.
  unfold DealCollectionItemsListBaseView_get.
  rewrite Hkw. cbn [bind]. rewrite Hsn. cbn [bind]. rewrite Hslug.
  cbn [bind]. unfold get_queryset. rewrite Hmodel.
  assert (Hm : method self "get_queryset" = Ok tt
               \/ method self "get_queryset" = Err TypeError).
  { unfold method.
    destruct (getattr self "get_queryset") as [x|e]; [|now left].
    rewrite (Hcall x eq_refl). now right. }
  destruct Hm as [-> | ->]; cbn [bind];
    destruct model; try reflexivity;
    exfalso; eapply Hno; reflexivity.
Qed.

(** The deals [get] lists are those the [Deal] query interface answers
    for the keyword filter, narrowed by the date filter of the request and
    by nothing else: the deals the view or its class had before play no
    part. *)
Theorem get_lists_the_filtered_deals self kwargs row GET ds :
  slug_lookup self [row] ->
  deal_collection_ready template_engine today Deal_objects_filter self
    kwargs GET ds ->
  exists rendered self' n objs q' pp o,
    DealCollectionItemsListBaseView_get template_engine today STATE_CHOICES
      Deal_objects_filter self kwargs = Ok (VNone, self')
    /\ getattr self' "rendered_deal_list" = Ok rendered
    /\ listing_entry rendered "deals_page"
       = Some (VPage n objs (VPaginator (VQuerySet q') pp o))
    /\ sublist q' ds
    /\ (Py.QueryDict_get GET "dtf" = None -> q' = ds).
Proof.
  intros Hlookup Hready.
  destruct (get_outcome template_engine today STATE_CHOICES
              Deal_objects_filter self kwargs row GET ds Hlookup Hready)
    as (s6 & q' & df & k & objs & pp & o & zim & pbu & tpl & Hfilter & Hq'
        & Hsub & _ & _ & _ & _ & _ & Hget).
  eexists _, _, k, objs, q', pp, o.
  split; [exact Hget|].
  split; [rewrite getattr_insert_ne by discriminate;
          apply getattr_insert_eq|].
  split; [reflexivity|]. split; [assumption|].
  intros Hdtf. unfold filter_deals_from_params in Hfilter.
  cbn [bind Py.request_GET] in Hfilter. rewrite Hdtf in Hfilter.
  injection Hfilter as <-.
  destruct (before_do_render_inst self row ds) as (_ & Id & _).
  rewrite (getattr_inst _ _ _ Id) in Hq'. now injection Hq'.
Qed.

(** Whatever title and description the view was given, the listing [get]
    renders is headed "some title", and described by "some desc" unless no
    deal is left, when the zero-items message of the view stands in. *)
Theorem get_shows_fixed_title_and_description self kwargs row GET ds :
  slug_lookup self [row] ->
  deal_collection_ready template_engine today Deal_objects_filter self
    kwargs GET ds ->
  exists rendered self' n objs q' pp o zim,
    DealCollectionItemsListBaseView_get template_engine today STATE_CHOICES
      Deal_objects_filter self kwargs = Ok (VNone, self')
    /\ getattr self' "rendered_deal_list" = Ok rendered
    /\ listing_entry rendered "title" = Some (VStr "some title")
    /\ listing_entry rendered "deals_page"
       = Some (VPage n objs (VPaginator (VQuerySet q') pp o))
    /\ getattr self "zero_items_message" = Ok zim
    /\ (q' = [] -> listing_entry rendered "description" = Some zim)
    /\ (q' <> [] ->
        listing_entry rendered "description" = Some (VStr "some desc")).
Proof.
  intros Hlookup Hready.
  destruct (get_outcome template_engine today STATE_CHOICES
              Deal_objects_filter self kwargs row GET ds Hlookup Hready)
    as (s6 & q' & df & k & objs & pp & o & zim & pbu & tpl & _ & _ & _ & _
        & Hzim & _ & _ & _ & Hget).
  eexists _, _, k, objs, q', pp, o, zim.
  split; [exact Hget|].
  split; [rewrite getattr_insert_ne by discriminate;
          apply getattr_insert_eq|].
  split; [reflexivity|]. split; [reflexivity|]. split; [assumption|].
  split.
  - intros ->. reflexivity.
  - intros Hne. destruct q'; [contradiction|reflexivity].
Qed.

(** What [get] leaves behind, having returned nothing: the record found as
    [self.queryset], the fixed title and description in place of those the
    view had, the rendered fragment as [self.rendered_deal_list] and the
    page context, with that fragment and the search options in it, as
    [self.context]. *)
Theorem get_leaves_the_page_on_the_view self kwargs row GET ds :
  slug_lookup self [row] ->
  deal_collection_ready template_engine today Deal_objects_filter self
    kwargs GET ds ->
  exists rendered self',
    DealCollectionItemsListBaseView_get template_engine today STATE_CHOICES
      Deal_objects_filter self kwargs = Ok (VNone, self')
    /\ getattr self' "queryset" = Ok (VInstance row)
    /\ getattr self' "title" = Ok (VStr "some title")
    /\ getattr self' "description" = Ok (VStr "some desc")
    /\ getattr self' "rendered_deal_list" = Ok rendered
    /\ getattr self' "context"
       = Ok (VDict (list_to_map
               [ ("search_options", VDict (list_to_map
                    [ ("query", VStr "");
                      ("states", VDict (list_to_map
                         [ ("choices", VChoices STATE_CHOICES);
                           ("default", VInt 25) ])) ]));
                 ("rendered_deal_list", rendered) ])).
Proof.
  intros Hlookup Hready.
  destruct (get_outcome template_engine today STATE_CHOICES
              Deal_objects_filter self kwargs row GET ds Hlookup Hready)
    as (s6 & q' & df & k & objs & pp & o & zim & pbu & tpl & _ & _ & _
        & Hframe & _ & _ & _ & _ & Hget).
  destruct (before_do_render_inst self row ds) as (Iq & _ & It & Ides).
  assert (Hs6 : forall key x,
    key ∉ ["deals"; "date_filter"] ->
    inst (before_do_render self row ds) !! key = Some x ->
    getattr s6 key = Ok x).
  { intros key x Hkey Hi.
    rewrite (same_outside_getattr _ _ _ _ Hframe Hkey).
    now apply getattr_inst. }
  eexists _, _. split; [exact Hget|].
  split; [|split; [|split; [|split]]].
  - rewrite !getattr_insert_ne by discriminate. rewrite View_eta.
    apply Hs6; [decided|assumption].
  - rewrite !getattr_insert_ne by discriminate. rewrite View_eta.
    apply Hs6; [decided|assumption].
  - rewrite !getattr_insert_ne by discriminate. rewrite View_eta.
    apply Hs6; [decided|assumption].
  - rewrite getattr_insert_ne by discriminate. apply getattr_insert_eq.
  - apply getattr_insert_eq.
Qed.

(** [filter_deals] does not narrow the deals of the view: it asks the
    [Deal] query interface afresh and replaces them, so that of two calls
    in a row only the second counts. *)
Theorem filter_deals_replaces_the_deals self filter1 filter2 self1 :
  filter_deals Deal_objects_filter self filter1 = Ok self1 ->
  filter_deals Deal_objects_filter self1 filter2
  = filter_deals Deal_objects_filter self filter2.
Proof.
  unfold filter_deals. autorewrite with globals. cbn [bind]. intros H.
  apply bind_Ok in H as (ds1 & _ & H).
  rewrite setattr_plain in H by reflexivity. injection H as <-.
  destruct (Deal_objects_filter filter2) as [ds2|e]; [|reflexivity].
  cbn [bind]. rewrite !setattr_plain by reflexivity. simpl.
  now rewrite insert_insert_eq.
Qed.

End MoreCollectionItems.

(** ** More on the collection listing *)

Section MoreCollections.

Variable template_engine : engine_call -> option exn.
Variable STATE_CHOICES : list (Z * string).

(** [CollectionsBaseView.get] takes no request: it reads the one attached to
    the view as [self.request], inside the [try] whose handlers are for the
    two page conditions only.  On a view that has none, [AttributeError]
    escapes once the template has loaded, whatever else is configured. *)
Theorem collections_get_needs_the_request self tpl ol pp o :
  template_engine Engine_get_default = None ->
  getattr self "template" = Ok tpl ->
  template_engine (Engine_get_template tpl) = None ->
  paginator_of self "queryset" = Ok (VPaginator ol pp o) ->
  hasattr self "request" = false ->
  CollectionsBaseView_get template_engine STATE_CHOICES self
  = Err AttributeError.
Proof.
  intros Hdefault Htpl Hload Hpag Hreq.
  apply paginator_of_Ok in Hpag as (n & m & Hol & Hn & Hm & Hmake).
  assert (Hreq' : getattr self "request" = Err AttributeError).
  { unfold hasattr in Hreq. unfold getattr in *.
    destruct (inst self !! "request"); [discriminate|].
    destruct (cls self !! "request"); [discriminate|reflexivity]. }
  unfold CollectionsBaseView_get.
  autorewrite with globals. cbn [bind].
  rewrite (engine_None _ _ Hdefault). cbn [bind]. rewrite Htpl. cbn [bind].
  rewrite (engine_None _ _ Hload). cbn [bind].
  autorewrite with globals. cbn [bind].
  rewrite Hol. cbn [bind]. rewrite Hn. cbn [bind]. rewrite Hm. cbn [bind].
  rewrite Hmake. cbn [bind]. rewrite Hreq'. reflexivity.
Qed.

(** [CollectionsBaseView.get] loads the template of the view before it
    does anything else, and outside the [try]: a template the engine
    cannot load - the empty name of the class, for one - ends the call
    with the error of the engine, whatever the queryset and the request
    are. *)
Theorem collections_get_loads_the_template_first self tpl e :
  template_engine Engine_get_default = None ->
  getattr self "template" = Ok tpl ->
  template_engine (Engine_get_template tpl) = Some e ->
  CollectionsBaseView_get template_engine STATE_CHOICES self = Err e.
Proof.
  intros Hdefault Htpl Hload.
  unfold CollectionsBaseView_get.
  autorewrite with globals. cbn [bind].
  rewrite (engine_None _ _ Hdefault). cbn [bind]. rewrite Htpl. cbn [bind].
  now rewrite (engine_Some _ _ _ Hload).
Qed.

End MoreCollections.

(** ** The further statements on the sample site *)

(** [pg=2] on listings of three and of two pages. *)
Lemma valid_page_is_delivered_witness :
  (exists rendered page,
     render_deal_list Sample.engine Sample.today Sample.deal_view
       (VRequest [("pg", "2")]) Sample.one_per_page
     = Ok (rendered, Sample.one_per_page_view)
     /\ Paginator.page (VPaginator (VQuerySet Sample.deals) 1 0) (VInt 2)
        = Ok page
     /\ page_number page = Some 2
     /\ listing_entry rendered "deals_page" = Some page)
  /\ (exists response page,
        CollectionsBaseView_get Sample.engine Sample.state_choices
          (Sample.collection_view (VQuerySet Sample.deals) 1 [("pg", "2")])
        = Ok response
        /\ Paginator.page (VPaginator (VQuerySet Sample.deals) 2 0) (VInt 2)
           = Ok page
        /\ page_number page = Some 2
        /\ context_entry response "collections_page" = Some page).
Proof.
  destruct (valid_page_is_delivered Sample.engine Sample.today
              Sample.state_choices [("pg", "2")] "2" 2)
    as [Hdeals Hcollection]; [reflexivity|reflexivity|].
  split.
  - apply Hdeals with (np := 3); [|run|lia].
    apply sample_deal_list_ready; run.
  - apply Hcollection with (np := 2); [|run|lia].
    apply sample_collection_ready; run.
Defined.

(** No [pg] at all on listings whose [show_page_num] is 2. *)
Lemma missing_page_parameter_witness :
  (exists rendered page,
     render_deal_list Sample.engine Sample.today Sample.deal_view
       (VRequest []) Sample.one_per_page
     = Ok (rendered, Sample.one_per_page_view)
     /\ Paginator.page (VPaginator (VQuerySet Sample.deals) 1 0) (VInt 2)
        = Ok page
     /\ page_number page = Some 2
     /\ listing_entry rendered "deals_page" = Some page)
  /\ (exists response page,
        CollectionsBaseView_get Sample.engine Sample.state_choices
          (Sample.collection_view (VQuerySet Sample.deals) 2 [])
        = Ok response
        /\ Paginator.page (VPaginator (VQuerySet Sample.deals) 2 0) (VInt 2)
           = Ok page
        /\ page_number page = Some 2
        /\ context_entry response "collections_page" = Some page).
Proof.
  destruct (missing_page_parameter_uses_show_page_num Sample.engine
              Sample.today Sample.state_choices [])
    as [Hdeals Hcollection]; [reflexivity|].
  split.
  - apply Hdeals with (np := 3); [|run|reflexivity|run|lia].
    apply sample_deal_list_ready; run.
  - apply Hcollection with (np := 2); [|run|reflexivity|run|lia].
    apply sample_collection_ready; run.
Defined.

(** [pg=-4] on the sample listings. *)
Lemma delivered_page_exists_witness :
  (exists rendered n objs np,
     render_deal_list Sample.engine Sample.today Sample.deal_view
       (VRequest [("pg", "-4")]) [] = Ok (rendered, Sample.deal_view)
     /\ listing_entry rendered "deals_page"
        = Some (VPage n objs (VPaginator (VQuerySet Sample.deals) 15 2))
     /\ Paginator.num_pages (VPaginator (VQuerySet Sample.deals) 15 2)
        = Ok np
     /\ 1 <= n <= np)
  /\ (exists response n objs np,
        CollectionsBaseView_get Sample.engine Sample.state_choices
          (Sample.collection_view (VQuerySet Sample.deals) 1 [("pg", "-4")])
        = Ok response
        /\ context_entry response "collections_page"
           = Some (VPage n objs (VPaginator (VQuerySet Sample.deals) 2 0))
        /\ Paginator.num_pages (VPaginator (VQuerySet Sample.deals) 2 0)
           = Ok np
        /\ 1 <= n <= np).
Proof.
  destruct (delivered_page_exists Sample.engine Sample.today
              Sample.state_choices [("pg", "-4")]) as [Hdeals Hcollection].
  split.
  - apply Hdeals. apply sample_deal_list_ready; run.
  - apply Hcollection. apply sample_collection_ready; run.
Defined.

(** A page size of zero, by override and by class option. *)
Lemma zero_page_size_witness :
  render_deal_list Sample.engine Sample.today Sample.deal_view
    (VRequest [("pg", "1")]) Cases.unpaged = Err ZeroDivisionError
  /\ CollectionsBaseView_get Sample.engine Sample.state_choices
       (Cases.unpaged_collection [("pg", "x")]) = Err ZeroDivisionError.
Proof.
  split.
  - destruct (zero_page_size_raises Sample.engine Sample.today
                Sample.state_choices [("pg", "1")]) as [Hdeals _].
    apply (Hdeals Sample.deal_view Cases.unpaged
             (mkView (cls Sample.deal_view) (list_to_map Cases.unpaged))
             (VQuerySet Sample.deals) 2 3); run.
  - destruct (zero_page_size_raises Sample.engine Sample.today
                Sample.state_choices [("pg", "x")]) as [_ Hcollection].
    apply (Hcollection (Cases.unpaged_collection [("pg", "x")])
             (VStr "deals/collections.html") (VQuerySet Sample.deals) 3 3);
      run.
Defined.

(** [dtf=2] on the sample listing. *)
Lemma date_filter_changes_witness :
  exists self',
    filter_deals_from_params Sample.today Sample.deal_view
      (VRequest [("dtf", "2")]) = Ok self'
    /\ same_outside ["deals"; "date_filter"] Sample.deal_view self'
    /\ forall m,
         getattr Sample.deal_view "date_filter" = Ok (VDict m) ->
         exists m',
           getattr self' "date_filter" = Ok (VDict m')
           /\ forall k, k <> "default" -> m' !! k = m !! k.
Proof.
  eexists. split; [reflexivity|].
  apply (date_filter_changes_deals_and_default_only Sample.today
           Sample.deal_view (VRequest [("dtf", "2")])).
  reflexivity.
Defined.

(** [dtf=1]: the deals of the last week are among the deals. *)
Lemma date_filter_narrows_witness :
  exists self' q',
    filter_deals_from_params Sample.today Sample.deal_view
      (VRequest [("dtf", "1")]) = Ok self'
    /\ getattr self' "deals" = Ok (VQuerySet q')
    /\ sublist q' Sample.deals.
Proof.
  eexists.
  destruct (date_filter_narrows_deals Sample.today Sample.deal_view
              (VRequest [("dtf", "1")]) _ Sample.deals eq_refl eq_refl)
    as (q' & Hq' & Hsub).
  exists q'. split; [reflexivity|]. split; assumption.
Defined.

(** [dtf=1], twice. *)
Lemma date_filter_idempotent_witness :
  exists self',
    filter_deals_from_params Sample.today Sample.deal_view
      (VRequest [("dtf", "1")]) = Ok self'
    /\ filter_deals_from_params Sample.today self'
         (VRequest [("dtf", "1")]) = Ok self'.
Proof.
  eexists. split; [reflexivity|].
  apply (date_filter_idempotent Sample.today Sample.deal_view).
  reflexivity.
Defined.

(** [dtf=1] on a listing with the date filter of the class: a second
    listing of the class finds 7 as its default. *)
Lemma class_level_date_filter_witness :
  exists self',
    filter_deals_from_params Sample.today Sample.deal_view
      (VRequest [("dtf", "1")]) = Ok self'
    /\ inst self' !! "date_filter" = None
    /\ forall other : gmap string value,
         other !! "date_filter" = None ->
         getattr (mkView (cls self') other) "date_filter"
         = Ok (VDict (<["default" := VInt 7]> Sample.date_filter)).
Proof.
  apply (class_level_date_filter_is_shared Sample.today Sample.deal_view
           [("dtf", "1")] "1" 1 Sample.date_filter Sample.epoch_choices
           7 "Last week" Sample.deals); solve [run | lia].
Defined.

(** [dtf=0] with the choice "Today" of delta 0: no deal is left. *)
Lemma non_positive_delta_witness :
  exists self',
    filter_deals_from_params Sample.today Cases.odd_view
      (VRequest [("dtf", "0")]) = Ok self'
    /\ getattr self' "deals" = Ok (VQuerySet []).
Proof.
  apply (non_positive_delta_drops_past_deals Sample.today Cases.odd_view
           [("dtf", "0")] "0" 0 Cases.odd_date_filter Cases.odd_choices
           0 "Today" Sample.deals); try solve [run | lia].
  repeat constructor; vm_compute; discriminate.
Defined.

(** [dtf=1] with a choice that reaches back 800000 days. *)
Lemma out_of_calendar_delta_witness :
  filter_deals_from_params Sample.today Cases.far_view
    (VRequest [("dtf", "1")]) = Err OverflowError.
Proof.
  apply (out_of_calendar_delta_raises Sample.today Cases.far_view
           [("dtf", "1")] "1" 1
           (list_to_map [ ("choices", VChoices Cases.far_choices);
                          ("default", VInt (-1)) ])
           Cases.far_choices 800000 "Ever"); solve [run | lia].
Defined.

(** A title and a colour passed by keyword. *)
Lemma overrides_stay_witness :
  exists rendered,
    render_deal_list Sample.engine Sample.today Sample.deal_view
      (VRequest []) Cases.retitled
    = Ok (rendered,
          mkView (cls Sample.deal_view) (list_to_map Cases.retitled))
    /\ (forall k x, (k, x) ∈ Cases.retitled ->
          k <> "deals" -> k <> "date_filter" ->
          getattr (mkView (cls Sample.deal_view)
                     (list_to_map Cases.retitled)) k = Ok x)
    /\ (forall t, ("title", t) ∈ Cases.retitled ->
          listing_entry rendered "title" = Some t).
Proof.
  apply (overrides_stay_on_the_view Sample.engine Sample.today
           Sample.deal_view [] Cases.retitled
           (mkView (cls Sample.deal_view) (list_to_map Cases.retitled))
           (VQuerySet Sample.deals) 15 2); [reflexivity|].
  apply sample_deal_list_ready; run.
Defined.

(** Featured deals passed by keyword, and [dtf=1]: the one of them modified
    in the last week is listed. *)
Lemma date_filter_applies_to_overridden_deals_witness :
  exists self',
    filter_deals_from_params Sample.today
      (mkView (cls Sample.deal_view) (list_to_map Cases.with_featured))
      (VRequest [("dtf", "1")]) = Ok self'
    /\ exists rendered n objs,
         render_deal_list Sample.engine Sample.today Sample.deal_view
           (VRequest [("dtf", "1")]) Cases.with_featured
         = Ok (rendered, self')
         /\ listing_entry rendered "deals_page"
            = Some (VPage n objs
                      (VPaginator (VQuerySet [ mkDeal 7 735998 ]) 15 2)).
Proof.
  eexists. split; [reflexivity|].
  eapply proj2.
  eapply (date_filter_applies_to_overridden_deals Sample.engine Sample.today
            Sample.deal_view [("dtf", "1")] Cases.with_featured
            (mkView (cls Sample.deal_view)
               (list_to_map Cases.with_featured)))
    with (s := "1") (i := 1) (m := Sample.date_filter)
         (cs := Sample.epoch_choices) (d := 7) (label := "Last week")
         (q := Cases.featured); try solve [run | lia].
  - apply sample_deal_list_ready; run.
  - repeat constructor.
Defined.

(** A keyword named [filter_deals_from_params]. *)
Lemma override_can_hide_a_method_witness :
  render_deal_list Sample.engine Sample.today Sample.deal_view (VRequest [])
    Cases.hiding = Err TypeError.
Proof.
  apply (override_can_hide_a_method Sample.engine Sample.today
           Sample.deal_view (VRequest []) Cases.hiding VNone);
    solve [reflexivity | repeat constructor].
Defined.

(** The category [food]. *)
Lemma get_queryset_witness :
  exists self',
    get_queryset (Sample.category_view "food") (VStr "food")
    = Ok (VInstance (mkRow 1 "food"), self')
    /\ row_slug (mkRow 1 "food") = "food"
    /\ In (mkRow 1 "food") Sample.categories
    /\ getattr self' "queryset" = Ok (VInstance (mkRow 1 "food"))
    /\ same_outside ["queryset"] (Sample.category_view "food") self'.
Proof.
  apply (get_queryset_returns_the_record (Sample.category_view "food")
           "food" Sample.categories (mkRow 1 "food")); run.
Defined.

(** Two categories named [food]. *)
Lemma get_duplicate_slug_witness :
  DealCollectionItemsListBaseView_get Sample.engine Sample.today
    Sample.state_choices Sample.deals_filter Cases.twin_view
    {[ "category_slug" := VStr "food" ]} = Err MultipleObjectsReturned.
Proof.
  apply (get_duplicate_slug_raises Sample.engine Sample.today
           Sample.state_choices Sample.deals_filter Cases.twin_view
           {[ "category_slug" := VStr "food" ]}
           (mkRow 1 "food") (mkRow 3 "food") []); [|run].
  exists (VDict {[ "category_slug" := VStr "food" ]}),
    (VStr "category_slug"), (VStr "food"), Cases.twins.
  repeat split; run.
Defined.

(** The class as it stands, its [model] the empty string. *)
Lemma get_without_model_witness :
  DealCollectionItemsListBaseView_get Sample.engine Sample.today
    Sample.state_choices Sample.deals_filter Cases.bare_view ∅
  = Err AttributeError.
Proof.
  apply (get_without_model_raises Sample.engine Sample.today
           Sample.state_choices Sample.deals_filter Cases.bare_view ∅
           (VDict ∅) (VStr "") VNone (VStr "")); try run.
  - discriminate.
  - intros x Hx. vm_compute in Hx. discriminate.
Defined.

(** The category [food]: the deals listed are those of the query. *)
Lemma get_lists_the_filtered_deals_witness :
  exists rendered self' n objs q' pp o,
    DealCollectionItemsListBaseView_get Sample.engine Sample.today
      Sample.state_choices Sample.deals_filter (Sample.category_view "food")
      {[ "category_slug" := VStr "food" ]} = Ok (VNone, self')
    /\ getattr self' "rendered_deal_list" = Ok rendered
    /\ listing_entry rendered "deals_page"
       = Some (VPage n objs (VPaginator (VQuerySet q') pp o))
    /\ sublist q' Sample.deals
    /\ (Py.QueryDict_get [] "dtf" = None -> q' = Sample.deals).
Proof.
  apply (get_lists_the_filtered_deals Sample.engine Sample.today
           Sample.state_choices Sample.deals_filter
           (Sample.category_view "food")
           {[ "category_slug" := VStr "food" ]} (mkRow 1 "food") []
           Sample.deals);
    apply category_food_ready.
Defined.

(** The category [food]: the heading of its listing. *)
Lemma get_shows_fixed_title_witness :
  exists rendered self' n objs q' pp o zim,
    DealCollectionItemsListBaseView_get Sample.engine Sample.today
      Sample.state_choices Sample.deals_filter (Sample.category_view "food")
      {[ "category_slug" := VStr "food" ]} = Ok (VNone, self')
    /\ getattr self' "rendered_deal_list" = Ok rendered
    /\ listing_entry rendered "title" = Some (VStr "some title")
    /\ listing_entry rendered "deals_page"
       = Some (VPage n objs (VPaginator (VQuerySet q') pp o))
    /\ getattr (Sample.category_view "food") "zero_items_message" = Ok zim
    /\ (q' = [] -> listing_entry rendered "description" = Some zim)
    /\ (q' <> [] ->
        listing_entry rendered "description" = Some (VStr "some desc")).
Proof.
  apply (get_shows_fixed_title_and_description Sample.engine Sample.today
           Sample.state_choices Sample.deals_filter
           (Sample.category_view "food")
           {[ "category_slug" := VStr "food" ]} (mkRow 1 "food") []
           Sample.deals);
    apply category_food_ready.
Defined.

(** The category [food]: what stays on the view. *)
Lemma get_leaves_the_page_witness :
  exists rendered self',
    DealCollectionItemsListBaseView_get Sample.engine Sample.today
      Sample.state_choices Sample.deals_filter (Sample.category_view "food")
      {[ "category_slug" := VStr "food" ]} = Ok (VNone, self')
    /\ getattr self' "queryset" = Ok (VInstance (mkRow 1 "food"))
    /\ getattr self' "title" = Ok (VStr "some title")
    /\ getattr self' "description" = Ok (VStr "some desc")
    /\ getattr self' "rendered_deal_list" = Ok rendered
    /\ getattr self' "context"
       = Ok (VDict (list_to_map
               [ ("search_options", VDict (list_to_map
                    [ ("query", VStr "");
                      ("states", VDict (list_to_map
                         [ ("choices", VChoices Sample.state_choices);
                           ("default", VInt 25) ])) ]));
                 ("rendered_deal_list", rendered) ])).
Proof.
  apply (get_leaves_the_page_on_the_view Sample.engine Sample.today
           Sample.state_choices Sample.deals_filter
           (Sample.category_view "food")
           {[ "category_slug" := VStr "food" ]} (mkRow 1 "food") []
           Sample.deals);
    apply category_food_ready.
Defined.

(** Two keyword filters in a row. *)
Lemma filter_deals_replaces_witness :
  exists self1,
    filter_deals Sample.deals_filter (Sample.category_view "food") ∅
    = Ok self1
    /\ filter_deals Sample.deals_filter self1
         {[ "category_slug" := VStr "food" ]}
       = filter_deals Sample.deals_filter (Sample.category_view "food")
           {[ "category_slug" := VStr "food" ]}.
Proof.
  eexists. split; [reflexivity|].
  apply (filter_deals_replaces_the_deals Sample.deals_filter
           (Sample.category_view "food") ∅).
  reflexivity.
Defined.

(** A collection view on which no request was set. *)
Lemma collections_get_needs_the_request_witness :
  CollectionsBaseView_get Sample.engine Sample.state_choices
    Cases.detached_collection = Err AttributeError.
Proof.
  apply (collections_get_needs_the_request Sample.engine
           Sample.state_choices Cases.detached_collection
           (VStr "deals/collections.html") (VQuerySet Sample.deals) 9 3);
    run.
Defined.

(** [CollectionsBaseView] with the options of the class: its template has
    the empty name. *)
Lemma collections_get_loads_the_template_first_witness :
  CollectionsBaseView_get Sample.engine Sample.state_choices
    Cases.bare_collection = Err TemplateDoesNotExist.
Proof.
  apply (collections_get_loads_the_template_first Sample.engine
           Sample.state_choices Cases.bare_collection (VStr "")); run.
Defined.
